(** * Verification of [scripts/release.py]

    A shallow embedding of the release script of Open Image Denoise
    (dependency provisioning, build, packaging, symbol checking, signing)
    together with the properties its specification states about it.

    Conventions.
    - Python [str] values are [string]s of 8-bit characters; the texts the
      script handles (file names, [nm] output) are ASCII.
    - Python exceptions are values of [exn]; a computation returns
      [result A], either [Ok a] or [Raise e].
    - Everything the script does to the outside world is recorded, in order,
      as a list of [event]s; everything it asks of the outside world is
      answered by an [env], whose answers may depend on the events so far. *)

From Stdlib Require Import String Ascii List ZArith Bool Arith Lia.
Import ListNotations.
Local Open Scope list_scope.
Local Open Scope string_scope.

(** ** Python string primitives *)

Module Py.

(** The one-character strings the script uses that cannot be written
    inside a literal. *)
Definition nl : string := String (ascii_of_nat 10) EmptyString.
Definition dquote : string := String (ascii_of_nat 34) EmptyString.

(** [str.isspace] on one ASCII character: TAB, LF, VT, FF, CR, FS, GS, RS,
    US and the space. *)
Definition isspace (c : ascii) : bool :=
  let n := nat_of_ascii c in
  (((9 <=? n) && (n <=? 13)) || ((28 <=? n) && (n <=? 32)))%nat.

Fixpoint lstrip (s : string) : string :=
  match s with
  | EmptyString => EmptyString
  | String c s' => if isspace c then lstrip s' else s
  end.

Fixpoint rstrip (s : string) : string :=
  match s with
  | EmptyString => EmptyString
  | String c s' =>
      match rstrip s' with
      | EmptyString => if isspace c then EmptyString else String c EmptyString
      | r => String c r
      end
  end.

(** [s.strip()] *)
Definition strip (s : string) : string := rstrip (lstrip s).

(** [s.startswith(p)] *)
Definition startswith (s p : string) : bool := String.prefix p s.

(** [s.endswith(suf)]: [suf] is [s] itself or ends the tail of [s]. *)
Fixpoint endswith (s suf : string) : bool :=
  (s =? suf) ||
  match s with
  | EmptyString => false
  | String _ s' => endswith s' suf
  end.

(** [s[n:]] for [n >= 0] *)
Fixpoint drop (n : nat) (s : string) : string :=
  match n, s with
  | O, _ => s
  | S _, EmptyString => EmptyString
  | S k, String _ s' => drop k s'
  end.

(** [s[:-n]] for [n > 0] *)
Definition drop_last (n : nat) (s : string) : string :=
  String.substring 0 (String.length s - n) s.

(** [s.split(sep)] for a non-empty [sep]: scan from the left, cut at every
    occurrence of [sep] and resume after it.  [skip] counts the characters
    of an occurrence still to be passed over.  The result is the field
    being read and the fields after it. *)
Fixpoint split_go (sep s : string) (skip : nat) : string * list string :=
  match s with
  | EmptyString => (EmptyString, [])
  | String c s' =>
      match skip with
      | S k => split_go sep s' k
      | O =>
          if String.prefix sep s
          then let '(f, fs) := split_go sep s' (String.length sep - 1) in
               (EmptyString, f :: fs)
          else let '(f, fs) := split_go sep s' 0 in
               (String c f, fs)
      end
  end.

Definition split (s sep : string) : list string :=
  let '(f, fs) := split_go sep s 0 in f :: fs.

(** [sep.join(l)] *)
Fixpoint join (sep : string) (l : list string) : string :=
  match l with
  | [] => EmptyString
  | [x] => x
  | x :: l' => x ++ sep ++ join sep l'
  end.

Definition lower_char (c : ascii) : ascii :=
  let n := nat_of_ascii c in
  if ((65 <=? n) && (n <=? 90))%nat then ascii_of_nat (n + 32) else c.

Definition upper_char (c : ascii) : ascii :=
  let n := nat_of_ascii c in
  if ((97 <=? n) && (n <=? 122))%nat then ascii_of_nat (n - 32) else c.

Fixpoint map_chars (f : ascii -> ascii) (s : string) : string :=
  match s with
  | EmptyString => EmptyString
  | String c s' => String (f c) (map_chars f s')
  end.

(** [s.lower()] and [s.upper()] *)
Definition lower : string -> string := map_chars lower_char.
Definition upper : string -> string := map_chars upper_char.

Definition digit (c : ascii) : option Z :=
  let n := nat_of_ascii c in
  if ((48 <=? n) && (n <=? 57))%nat then Some (Z.of_nat (n - 48)) else None.

(** The digits of an [int] literal: decimal digits, single underscores
    allowed between two digits.  [prev] tells whether the character just
    read was a digit. *)
Fixpoint int_digits (s : string) (acc : Z) (prev : bool) : option Z :=
  match s with
  | EmptyString => if prev then Some acc else None
  | String c s' =>
      if Ascii.eqb c "_"%char
      then if prev then int_digits s' acc false else None
      else match digit c with
           | Some d => int_digits s' (10 * acc + d) true
           | None => None
           end
  end.

(** [int(s)]: surrounding whitespace is ignored, one sign is allowed;
    [None] stands for the [ValueError]. *)
Definition int (s : string) : option Z :=
  match strip s with
  | String "-"%char s' => option_map Z.opp (int_digits s' 0 false)
  | String "+"%char s' => int_digits s' 0 false
  | s' => int_digits s' 0 false
  end.

(** [a > b] on lists of integers, as CPython evaluates it: the first
    position where the two differ decides; when one list runs out first,
    the longer one is the greater. *)
Fixpoint list_gt (a b : list Z) : bool :=
  match a, b with
  | [], _ => false
  | _ :: _, [] => true
  | x :: a', y :: b' => if (x =? y)%Z then list_gt a' b' else (x >? y)%Z
  end.

End Py.

(** ** Regular expressions of the [re] module

    The fragment the script's two patterns are written in, matched the way
    [re] does it: by backtracking, alternatives tried from the left,
    repetitions and options greedy. *)

Module Re.

Inductive re : Type :=
| Lit (s : string)     (** literal text, escaped characters included *)
| Dot                  (** [.]: any character but a newline *)
| DotStar              (** [.*] *)
| DotPlus              (** [.+] *)
| Seq (r1 r2 : re)     (** [r1 r2] *)
| Alt (r1 r2 : re)     (** [r1|r2] *)
| Opt (r : re)         (** [(r)?] *)
| Eos.                 (** [$]: at the end, or before a newline that ends
                           the string *)

Definition is_nl (c : ascii) : bool := Ascii.eqb c (ascii_of_nat 10).

Definition orelse {A} (x y : option A) : option A :=
  match x with
  | Some _ => x
  | None => y
  end.

(** Greedy [.*] followed by the continuation [k]: take as many characters
    as possible, give them back one at a time while [k] fails. *)
Fixpoint dot_star {A} (s : string) (k : string -> option A) : option A :=
  match s with
  | EmptyString => k s
  | String c s' => if is_nl c then k s else orelse (dot_star s' k) (k s)
  end.

Definition at_eos (s : string) : bool :=
  match s with
  | EmptyString => true
  | String c EmptyString => is_nl c
  | _ => false
  end.

(** [matching r s k]: match [r] at the start of [s], then run [k] on what
    is left of [s]; the first success in backtracking order wins. *)
Fixpoint matching {A} (r : re) (s : string) (k : string -> option A)
  : option A :=
  match r with
  | Lit l => if String.prefix l s then k (Py.drop (String.length l) s) else None
  | Dot =>
      match s with
      | EmptyString => None
      | String c s' => if is_nl c then None else k s'
      end
  | DotStar => dot_star s k
  | DotPlus =>
      match s with
      | EmptyString => None
      | String c s' => if is_nl c then None else dot_star s' k
      end
  | Seq r1 r2 => matching r1 s (fun s' => matching r2 s' k)
  | Alt r1 r2 => orelse (matching r1 s k) (matching r2 s k)
  | Opt r1 => orelse (matching r1 s k) (k s)
  | Eos => if at_eos s then k s else None
  end.

(** The match of [r] at the start of [s]: what follows it. *)
Definition match_at (r : re) (s : string) : option string :=
  matching r s (@Some string).

(** [re.search(r, s)]: the leftmost match, as the text before it and the
    text after it. *)
Fixpoint search (r : re) (s : string) : option (string * string) :=
  match match_at r s with
  | Some rest => Some (EmptyString, rest)
  | None =>
      match s with
      | EmptyString => None
      | String c s' =>
          match search r s' with
          | Some (before, rest) => Some (String c before, rest)
          | None => None
          end
      end
  end.

(** [re.sub(r, repl, s)] for a pattern that matches no empty text (both
    patterns of the script start with a literal): every match, found from
    the left after the previous one, is replaced by [repl]. *)
Fixpoint sub_go (fuel : nat) (r : re) (repl s : string) : string :=
  match fuel with
  | O => s
  | S fuel' =>
      match search r s with
      | None => s
      | Some (before, rest) => before ++ repl ++ sub_go fuel' r repl rest
      end
  end.

Definition sub (r : re) (repl s : string) : string :=
  sub_go (String.length s) r repl s.

End Re.

(** ** [os.path]

    The path functions depend on the platform ([posixpath] or [ntpath]); the
    script only goes through this interface. *)

Class OsPath : Type := {
  (** [os.path.join(a, b)] *)
  path_join : string -> string -> string;
  (** [os.path.basename(p)] *)
  basename : string -> string;
  (** [os.path.dirname(p)] *)
  dirname : string -> string;
  (** [os.path.commonpath(paths)]; [None] stands for the [ValueError] on an
      empty sequence or on a mix of absolute and relative paths. *)
  commonpath : list string -> option string
}.

(** [posixpath], the instance on Linux and macOS. *)
Module Posix.

Definition is_sep (c : ascii) : bool := Ascii.eqb c "/"%char.

Definition join (a b : string) : string :=
  if Py.startswith b "/" then b
  else if (a =? EmptyString) || Py.endswith a "/" then a ++ b
  else a ++ "/" ++ b.

(** The text up to and including the last slash and the text after it;
    [None] when the path has no slash ([p.rfind('/')] is -1). *)
Fixpoint split_last (p : string) : option (string * string) :=
  match p with
  | EmptyString => None
  | String c p' =>
      match split_last p' with
      | Some (h, t) => Some (String c h, t)
      | None => if is_sep c then Some (String c EmptyString, p') else None
      end
  end.

Definition basename (p : string) : string :=
  match split_last p with
  | Some (_, t) => t
  | None => p
  end.

Fixpoint all_sep (s : string) : bool :=
  match s with
  | EmptyString => true
  | String c s' => is_sep c && all_sep s'
  end.

(** [head.rstrip('/')] *)
Fixpoint rstrip_sep (s : string) : string :=
  match s with
  | EmptyString => EmptyString
  | String c s' =>
      match rstrip_sep s' with
      | EmptyString => if is_sep c then EmptyString else String c EmptyString
      | r => String c r
      end
  end.

(** The head up to the last slash, without its trailing slashes unless it
    consists of slashes only. *)
Definition dirname (p : string) : string :=
  match split_last p with
  | Some (h, _) => if all_sep h then h else rstrip_sep h
  | None => EmptyString
  end.

Definition isabs (p : string) : bool := Py.startswith p "/".

(** The components of a path that count for [commonpath]: the empty ones
    and [.] are dropped. *)
Definition components (p : string) : list string :=
  filter (fun c => negb (c =? EmptyString) && negb (c =? "."))
         (Py.split p "/").

Fixpoint common_prefix (a b : list string) : list string :=
  match a, b with
  | x :: a', y :: b' => if x =? y then x :: common_prefix a' b' else []
  | _, _ => []
  end.

(** The longest sequence of leading components shared by all the paths,
    joined again; a [ValueError] on no path at all and on absolute paths
    mixed with relative ones. *)
Definition commonpath (paths : list string) : option string :=
  match paths with
  | [] => None
  | p :: ps =>
      if forallb (fun q => Bool.eqb (isabs q) (isabs p)) ps
      then let common :=
             fold_left common_prefix (map components ps) (components p) in
           Some ((if isabs p then "/" else EmptyString) ++ Py.join "/" common)
      else None
  end.

End Posix.

#[export] Instance posixpath : OsPath := {
  path_join := Posix.join;
  basename := Posix.basename;
  dirname := Posix.dirname;
  commonpath := Posix.commonpath
}.

(** ** The outside world *)

(** What the script does to the outside world, one constructor per library
    call (and [print] for a line on the standard output). *)
Inductive event : Type :=
| print (line : string)
| os_system (command : string)
| urlretrieve (url filename : string)
| tarfile_open (filename mode : string)
| ZipFile_open (filename : string)
| extractall (package output_dir : string)
| tarfile_add (package name arcname : string)
| package_close (package : string)
| make_archive (base_name format root_dir base_dir : string)
| os_popen (command : string)
| pipe_close (command : string)
| os_makedirs (path : string)
| os_mkdir (path : string)
| os_chdir (path : string)
| os_remove (path : string)
| shutil_rmtree (path : string).

(** Python exceptions.  [Exception] carries the message the script gives
    it; [CallError] is whatever a library call raises when it fails;
    [SystemExit] is what the argument parser raises on a command line it
    rejects, with the exit status of the process. *)
Inductive exn : Type :=
| Exception (msg : string)
| ValueError
| IndexError
| KeyError (key : string)
| UnboundLocalError (name : string)
| CallError (call : event)
| SystemExit (status : Z).

Inductive result (A : Type) : Type :=
| Ok (a : A)
| Raise (e : exn).
Arguments Ok {A} a.
Arguments Raise {A} e.

(** What the outside world answers.  Every answer but the platform and
    the process environment may depend on what has happened so far. *)
Record env : Type := {
  (** [platform.system()] *)
  platform_system : string;
  (** [os.environ.get(name)] *)
  environ_get : string -> option string;
  (** [os.getcwd()] *)
  getcwd : list event -> string;
  (** [os.path.isdir(p)], [os.path.isfile(p)], [os.path.islink(p)] *)
  isdir : list event -> string -> bool;
  isfile : list event -> string -> bool;
  islink : list event -> string -> bool;
  (** [glob(pattern)] *)
  glob : list event -> string -> list string;
  (** the value [os.system(command)] returns *)
  exit_status : list event -> string -> Z;
  (** [getnames()] and [namelist()] of the archive opened at a file name *)
  getnames : list event -> string -> list string;
  namelist : list event -> string -> list string;
  (** the lines read from [os.popen(command)] *)
  popen_lines : list event -> string -> list string;
  (** whether a library call, made after the given events, raises *)
  fails : list event -> event -> bool
}.

(** ** The monad of the script: a trace of events, and exceptions *)

Definition M (A : Type) : Type := list event -> list event * result A.

Definition ret {A} (a : A) : M A := fun h => (h, Ok a).

Definition bind {A B} (m : M A) (f : A -> M B) : M B :=
  fun h =>
    match m h with
    | (h', Ok a) => f a h'
    | (h', Raise e) => (h', Raise e)
    end.

Definition raise {A} (e : exn) : M A := fun h => (h, Raise e).

Notation "x <- c1 ;; c2" := (bind c1 (fun x => c2))
  (at level 61, c1 at next level, right associativity).
Notation "c1 ;; c2" := (bind c1 (fun _ => c2))
  (at level 61, right associativity).
Notation "' pat <- c1 ;; c2" :=
  (bind c1 (fun x => match x with pat => c2 end))
  (at level 61, pat pattern, c1 at next level, right associativity).

(** A pure computation that may raise. *)
Definition lift {A} (r : result A) : M A := fun h => (h, r).

(** [if b: m] *)
Definition when (b : bool) (m : M unit) : M unit :=
  if b then m else ret tt.

(** [for x in l: f(x)] *)
Fixpoint for_each {A} (l : list A) (f : A -> M unit) : M unit :=
  match l with
  | [] => ret tt
  | x :: l' => f x ;; for_each l' f
  end.

(** [with enter as x: body(x)], the context manager leaving the event
    [leave] behind on the way out, normal or not. *)
Definition with_ {A B} (enter : M A) (leave : event) (body : A -> M B) : M B :=
  fun h =>
    match enter h with
    | (h1, Ok a) => let '(h2, r) := body a h1 in ((h2 ++ [leave])%list, r)
    | (h1, Raise e) => (h1, Raise e)
    end.

(** [a, b = l] *)
Definition unpack2 {A} (l : list A) : result (A * A) :=
  match l with
  | [a; b] => Ok (a, b)
  | _ => Raise ValueError
  end.

(** [[f(x) for x in l]] where [f] may raise *)
Fixpoint map_result {A B} (f : A -> result B) (l : list A) : result (list B) :=
  match l with
  | [] => Ok []
  | x :: l' =>
      match f x with
      | Raise e => Raise e
      | Ok y =>
          match map_result f l' with
          | Raise e => Raise e
          | Ok ys => Ok (y :: ys)
          end
      end
  end.

Definition int_or_raise (s : string) : result Z :=
  match Py.int s with
  | Some z => Ok z
  | None => Raise ValueError
  end.

(** ** The script *)

Definition ISPC_VERSION : string := "1.13.0".
Definition TBB_VERSION : string := "2020.2".

(** The pattern of [extract_package], "(\.tar(\..+)?|tgz)$". *)
Definition tar_pattern : Re.re :=
  Re.Seq
    (Re.Alt (Re.Seq (Re.Lit ".tar") (Re.Opt (Re.Seq (Re.Lit ".") Re.DotPlus)))
            (Re.Lit "tgz"))
    Re.Eos.

(** The pattern of the package stage (line 207): an escaped dot, then
    either [tar] with an optional group of an escaped dot and a dot-star, or
    [zip], then [$]. *)
Definition package_suffix_pattern : Re.re :=
  Re.Seq (Re.Lit ".")
    (Re.Seq
       (Re.Alt (Re.Seq (Re.Lit "tar") (Re.Opt (Re.Seq (Re.Lit ".") Re.DotStar)))
               (Re.Lit "zip"))
       Re.Eos).

(** The three values of [OS]. *)
Inductive os : Type := windows | linux | macos.

Definition os_str (o : os) : string :=
  match o with
  | windows => "windows"
  | linux => "linux"
  | macos => "macos"
  end.

(** [{'Windows' : 'windows', 'Linux' : 'linux', 'Darwin' : 'macos'}[system]] *)
Definition detect_os (system : string) : result os :=
  if system =? "Windows" then Ok windows
  else if system =? "Linux" then Ok linux
  else if system =? "Darwin" then Ok macos
  else Raise (KeyError system).

(** The compilers the command line accepts on each platform (lines 82-84). *)
Definition compilers (OS : os) : list string :=
  match OS with
  | windows => ["msvc15"; "msvc15-icc18"; "msvc15-icc19"; "msvc15-icc20";
                "msvc16"; "msvc16-icc19"; "msvc16-icc20"]
  | linux => ["gcc"; "clang"; "icc"]
  | macos => ["clang"; "icc"]
  end.

(** The parsed command line, [cfg]. *)
Record args : Type := {
  stage : list string;
  compiler : string;
  config : string;
  wrapper : option string;
  cmake_vars : option (list string)
}.

(** What a command line gives for each argument of the parser of lines
    86-92: the values of the positional [stage], in order; the value of the
    last [--compiler], [--config] and [--wrapper], if any; the values of
    the [-D] options, in order.  How [sys.argv] is split into these
    (abbreviated options, [-h], unknown options) is the argument parser's
    business and is not modelled. *)
Record command_line : Type := {
  given_stage : list string;
  given_compiler : option string;
  given_config : option string;
  given_wrapper : option string;
  given_cmake_vars : list string
}.

(** [value in choices] *)
Definition among (choices : list string) (value : string) : bool :=
  existsb (String.eqb value) choices.

(** The parser rejects the command line: a usage message on the standard
    error stream, and exit status 2. *)
Definition parser_error {A} : result A := Raise (SystemExit 2).

(** The value of the positional [stage] (line 88), as [argparse] of
    CPython 3.11 computes it.  With [nargs='*'] the parser checks each given
    value against the choices; when no value is given and there is no
    default, it checks the empty list itself against the choices, and the
    empty list is none of them. *)
Definition parse_stage (given : list string) : result (list string) :=
  match given with
  | [] => parser_error
  | _ :: _ =>
      if forallb (among ["build"; "package"]) given then Ok given
      else parser_error
  end.

(** The value of an option with choices and a default (lines 89-90). *)
Definition parse_choice (choices : list string) (default : string)
    (given : option string) : result string :=
  match given with
  | None => Ok default
  | Some value => if among choices value then Ok value else parser_error
  end.

(** [compilers[OS][0]] *)
Definition default_compiler (OS : os) : result string :=
  match compilers OS with
  | c :: _ => Ok c
  | [] => Raise IndexError
  end.

(** Lines 86-93: [cfg = parser.parse_args()]. *)
Definition parse_args (OS : os) (cl : command_line) : result args :=
  match default_compiler OS with
  | Raise e => Raise e
  | Ok default =>
      match parse_stage (given_stage cl) with
      | Raise e => Raise e
      | Ok stage =>
          match parse_choice (compilers OS) default (given_compiler cl) with
          | Raise e => Raise e
          | Ok compiler =>
              match parse_choice ["Debug"; "Release"; "RelWithDebInfo"] "Release"
                      (given_config cl) with
              | Raise e => Raise e
              | Ok config =>
                  Ok {| stage := stage;
                        compiler := compiler;
                        config := config;
                        wrapper := given_wrapper cl;
                        cmake_vars :=
                          match given_cmake_vars cl with
                          | [] => None
                          | vars => Some vars
                          end |}
              end
          end
      end
  end.

(** The two handlers of [extract_package]. *)
Inductive format : Type := tar | zip.

(** Lines 33-40 of [extract_package]: the handler chosen from the name. *)
Definition package_format (filename : string) : result format :=
  match Re.search tar_pattern filename with
  | Some _ => Ok tar
  | None =>
      if Py.endswith filename ".zip" then Ok zip
      else Raise (Exception "unsupported package format")
  end.

(** The body of the loop of [check_symbols], lines 64-67: the version of
    one line of output. *)
Definition symbol_version (symbol : string) : result (list Z) :=
  match unpack2 (Py.split symbol "@@") with
  | Raise e => Raise e
  | Ok (_, version) =>
      match unpack2 (Py.split version "_") with
      | Raise e => Raise e
      | Ok (_, version) => map_result int_or_raise (Py.split version ".")
      end
  end.

Section Script.

Context {P : OsPath} (E : env).

(** A library call: recorded, and raising when the outside world says so. *)
Definition call (ev : event) : M unit :=
  fun h => ((h ++ [ev])%list, if fails E h ev then Raise (CallError ev) else Ok tt).

(** A question to the outside world. *)
Definition ask {A} (q : env -> list event -> A) : M A :=
  fun h => (h, Ok (q E h)).

Definition emit (ev : event) : M unit := fun h => ((h ++ [ev])%list, Ok tt).

(** [os.system(command)] *)
Definition system (command : string) : M Z :=
  fun h => ((h ++ [os_system command])%list, Ok (exit_status E h command)).

(** [os.popen(command)], as the lines it will yield. *)
Definition popen (command : string) : M (list string) :=
  fun h => ((h ++ [os_popen command])%list, Ok (popen_lines E h command)).

Definition run (command : string) : M unit :=
  status <- system command ;;
  if (status =? 0)%Z then ret tt
  else raise (Exception "non-zero return value").

Definition download_file (url output_dir : string) : M string :=
  emit (print ("Downloading file: " ++ url)) ;;
  let filename := path_join output_dir (basename url) in
  call (urlretrieve url filename) ;;
  ret filename.

Definition extract_package (filename output_dir : string) : M unit :=
  emit (print ("Extracting package: " ++ filename)) ;;
  (* Detect the package format and open the package *)
  fmt <- lift (package_format filename) ;;
  members <-
    match fmt with
    | tar => call (tarfile_open filename "r") ;;
             ask (fun e h => getnames e h filename)
    | zip => call (ZipFile_open filename) ;;
             ask (fun e h => namelist e h filename)
    end ;;
  (* Avoid nesting two top-level directories with the same name *)
  common <- lift (match commonpath members with
                  | Some c => Ok c
                  | None => Raise ValueError
                  end) ;;
  let output_dir :=
    if common =? basename output_dir then dirname output_dir else output_dir in
  (* Create the output directory if it doesn't exist *)
  present <- ask (fun e h => isdir e h output_dir) ;;
  when (negb present) (call (os_makedirs output_dir)) ;;
  (* Extract the package *)
  call (extractall filename output_dir) ;;
  emit (package_close filename).

Definition create_package (filename input_dir : string) : M unit :=
  emit (print ("Creating package: " ++ filename)) ;;
  if Py.endswith filename ".tar.gz" then
    with_ (call (tarfile_open filename "w:gz")) (package_close filename)
      (fun _ => call (tarfile_add filename input_dir (basename input_dir)))
  else if Py.endswith filename ".zip" then
    call (make_archive (Py.drop_last 4 filename) "zip"
                       (dirname input_dir) (basename input_dir))
  else raise (Exception "unsupported package format").

(** The body of the loop of [check_symbols], lines 64-69. *)
Definition check_symbol (filename : string) (max_version : list Z)
    (line : string) : result unit :=
  let symbol := Py.strip line in
  match symbol_version symbol with
  | Raise e => Raise e
  | Ok version =>
      if Py.list_gt version max_version
      then Raise (Exception ("problematic symbol " ++ symbol ++ " in "
                             ++ basename filename))
      else Ok tt
  end.

Definition nm_command (filename label : string) : string :=
  "nm " ++ Py.dquote ++ filename ++ Py.dquote ++ " | tr ' ' '" ++ Py.nl
        ++ "' | grep @@" ++ label ++ "_".

Definition check_symbols (filename label : string) (max_version : list Z)
  : M unit :=
  let command := nm_command filename label in
  with_ (popen command) (pipe_close command)
    (fun out =>
       for_each out (fun line => lift (check_symbol filename max_version line))).

Definition check_symbols_linux (filename : string) : M unit :=
  emit (print ("Checking symbols: " ++ filename)) ;;
  check_symbols filename "GLIBC" [2; 17; 0]%Z ;;
  check_symbols filename "GLIBCXX" [3; 4; 19]%Z ;;
  check_symbols filename "CXXABI" [1; 3; 7]%Z.

(** The truth value of an optional string: [None] and the empty string are
    false. *)
Definition nonempty (o : option string) : option string :=
  match o with
  | Some EmptyString => None
  | _ => o
  end.

(** ['build' in cfg.stage] *)
Definition selected (name : string) (cfg : args) : bool :=
  existsb (String.eqb name) (stage cfg).

(** Lines 96-102 of [main]: set the directories.  Returns [deps_dir] and
    [build_dir]. *)
Definition set_directories (cfg : args) : M (string * string) :=
  root_dir <- match nonempty (environ_get E "OIDN_ROOT_DIR") with
              | Some d => ret d
              | None => ask getcwd
              end ;;
  let deps_dir := path_join root_dir "deps" in
  present <- ask (fun e h => isdir e h deps_dir) ;;
  when (negb present) (call (os_makedirs deps_dir)) ;;
  let build_dir := path_join root_dir ("build_" ++ Py.lower (config cfg)) in
  ret (deps_dir, build_dir).

Definition ispc_release (OS : os) : string :=
  "ispc-v" ++ ISPC_VERSION ++ "-" ++
  match OS with windows => "windows" | linux => "linux" | macos => "macOS" end.

Definition tbb_release (OS : os) : string :=
  "tbb-" ++ TBB_VERSION ++ "-" ++
  match OS with windows => "win" | linux => "lin" | macos => "mac" end.

(** Lines 106-117: set up ISPC.  Returns [ispc_executable]. *)
Definition set_up_ispc (OS : os) (deps_dir : string) : M string :=
  let ispc_dir := path_join deps_dir (ispc_release OS) in
  present <- ask (fun e h => isdir e h ispc_dir) ;;
  when (negb present)
    ((* Download and extract ISPC *)
     let ispc_url :=
       "https://github.com/ispc/ispc/releases/download/v" ++ ISPC_VERSION
       ++ "/" ++ ispc_release OS
       ++ match OS with windows => ".zip" | _ => ".tar.gz" end in
     ispc_filename <- download_file ispc_url deps_dir ;;
     extract_package ispc_filename ispc_dir ;;
     call (os_remove ispc_filename)) ;;
  ret (path_join (path_join ispc_dir "bin") "ispc").

(** Lines 119-130: set up TBB.  Returns [tbb_root]. *)
Definition set_up_tbb (OS : os) (deps_dir : string) : M string :=
  let tbb_dir := path_join deps_dir (tbb_release OS) in
  present <- ask (fun e h => isdir e h tbb_dir) ;;
  when (negb present)
    ((* Download and extract TBB *)
     let tbb_url :=
       "https://github.com/oneapi-src/oneTBB/releases/download/v" ++ TBB_VERSION
       ++ "/" ++ tbb_release OS
       ++ match OS with windows => ".zip" | _ => ".tgz" end in
     tbb_filename <- download_file tbb_url deps_dir ;;
     extract_package tbb_filename tbb_dir ;;
     call (os_remove tbb_filename)) ;;
  ret (path_join tbb_dir "tbb").

(** Lines 132-136: create a clean build directory. *)
Definition clean_build_dir (build_dir : string) : M unit :=
  present <- ask (fun e h => isdir e h build_dir) ;;
  when present (call (shutil_rmtree build_dir)) ;;
  call (os_mkdir build_dir) ;;
  call (os_chdir build_dir).

(** Lines 139-142: the common CMake variables. *)
Definition common_cmake_vars (cfg : args) (tbb_root : string) : string :=
  fold_left (fun acc var => acc ++ "-D " ++ var ++ " ")
            (match cmake_vars cfg with Some l => l | None => [] end)
            ("-D TBB_ROOT=" ++ Py.dquote ++ tbb_root ++ Py.dquote ++ " ").

(** Lines 146-152: the loop over the parts of the compiler name, on
    [msvc_version] (unbound at first) and [toolchain]. *)
Fixpoint windows_compiler (parts : list string)
    (msvc_version : option string) (toolchain : string)
  : result (option string * string) :=
  match parts with
  | [] => Ok (msvc_version, toolchain)
  | compiler :: parts' =>
      if Py.startswith compiler "msvc" then
        if compiler =? "msvc15"
        then windows_compiler parts' (Some "15 2017") toolchain
        else if compiler =? "msvc16"
        then windows_compiler parts' (Some "16 2019") toolchain
        else Raise (KeyError compiler)
      else if Py.startswith compiler "icc" then
        let icc_version := Py.drop 3 compiler in
        windows_compiler parts' msvc_version
          ("Intel C++ Compiler " ++ icc_version ++ ".0")
      else windows_compiler parts' msvc_version toolchain
  end.

(** Lines 144-163: configure on Windows.  Returns [build_cmd]. *)
Definition configure_windows (cfg : args) (ispc_executable vars : string)
  : M string :=
  '(msvc, toolchain) <-
    lift (windows_compiler (Py.split (compiler cfg) "-") None EmptyString) ;;
  msvc_version <- lift (match msvc with
                        | Some v => Ok v
                        | None => Raise (UnboundLocalError "msvc_version")
                        end) ;;
  run ("cmake -L " ++
       "-G " ++ Py.dquote ++ "Visual Studio " ++ msvc_version ++ " Win64"
             ++ Py.dquote ++ " " ++
       "-T " ++ Py.dquote ++ toolchain ++ Py.dquote ++ " " ++
       "-D ISPC_EXECUTABLE=" ++ Py.dquote ++ ispc_executable ++ ".exe"
             ++ Py.dquote ++ " " ++
       vars ++
       "..") ;;
  ret ("cmake --build . --config " ++ config cfg ++ " --target ALL_BUILD").

(** [{'gcc' : 'g++', 'clang' : 'clang++', 'icc' : 'icpc'}[cc]] *)
Definition cxx_of (cc : string) : result string :=
  if cc =? "gcc" then Ok "g++"
  else if cc =? "clang" then Ok "clang++"
  else if cc =? "icc" then Ok "icpc"
  else Raise (KeyError cc).

(** Lines 164-184: configure on Linux and macOS.  Returns [build_cmd]. *)
Definition configure_unix (OS : os) (cfg : args)
    (ispc_executable vars : string) : M string :=
  let cc := compiler cfg in
  cxx <- lift (cxx_of cc) ;;
  let '(cc, cxx) :=
    if compiler cfg =? "icc" then
      match nonempty (environ_get E ("OIDN_ICC_DIR_" ++ Py.upper (os_str OS))) with
      | Some icc_dir => (path_join icc_dir cc, path_join icc_dir cxx)
      | None => (cc, cxx)
      end
    else (cc, cxx) in
  run ("cmake -L " ++
       "-D CMAKE_C_COMPILER:FILEPATH=" ++ Py.dquote ++ cc ++ Py.dquote ++ " " ++
       "-D CMAKE_CXX_COMPILER:FILEPATH=" ++ Py.dquote ++ cxx ++ Py.dquote
             ++ " " ++
       "-D CMAKE_BUILD_TYPE=" ++ config cfg ++ " " ++
       "-D ISPC_EXECUTABLE=" ++ Py.dquote ++ ispc_executable ++ Py.dquote
             ++ " " ++
       vars ++
       "..") ;;
  ret "cmake --build . --target preinstall -- -j VERBOSE=1".

(** Lines 132-189: create the build directory, configure and build. *)
Definition configure_and_build (OS : os) (cfg : args)
    (ispc_executable tbb_root build_dir : string) : M unit :=
  clean_build_dir build_dir ;;
  let vars := common_cmake_vars cfg tbb_root in
  build_cmd <- match OS with
               | windows => configure_windows cfg ispc_executable vars
               | _ => configure_unix OS cfg ispc_executable vars
               end ;;
  (* Build *)
  let build_cmd :=
    match nonempty (wrapper cfg) with
    | Some w => w ++ " " ++ build_cmd
    | None => build_cmd
    end in
  run build_cmd.

(** Lines 105-189: the build stage. *)
Definition build_stage (OS : os) (cfg : args) (deps_dir build_dir : string)
  : M unit :=
  ispc_executable <- set_up_ispc OS deps_dir ;;
  tbb_root <- set_up_tbb OS deps_dir ;;
  configure_and_build OS cfg ispc_executable tbb_root build_dir.

(** Lines 210-215: the list of binaries. *)
Definition get_binaries (OS : os) (package_dir : string) : M (list string) :=
  binaries <- ask (fun e h => glob e h (path_join (path_join package_dir "bin") "*")) ;;
  more <- match OS with
          | linux =>
              ask (fun e h => glob e h (path_join (path_join package_dir "lib") "*.so*"))
          | macos =>
              ask (fun e h => glob e h (path_join (path_join package_dir "lib") "*.dylib"))
          | windows => ret []
          end ;;
  ask (fun e h => filter (fun f => isfile e h f && negb (islink e h f))
                         (binaries ++ more)%list).

(** Lines 218-220: check the symbols in the binaries. *)
Definition check_binaries (OS : os) (binaries : list string) : M unit :=
  match OS with
  | linux => for_each binaries check_symbols_linux
  | _ => ret tt
  end.

(** Lines 223-230: sign the binaries and repack. *)
Definition sign_binaries (OS : os) (package_filename package_dir : string)
    (binaries : list string) : M unit :=
  match nonempty (environ_get E ("OIDN_SIGN_FILE_" ++ Py.upper (os_str OS))) with
  | Some sign_file =>
      for_each binaries
        (fun filename => run (sign_file ++ " -q -vv " ++ filename)) ;;
      (* Repack *)
      call (os_remove package_filename) ;;
      create_package package_filename package_dir
  | None => ret tt
  end.

(** Lines 193-202: configure and build the package. *)
Definition build_package (OS : os) (cfg : args) (build_dir : string) : M unit :=
  call (os_chdir build_dir) ;;
  (* Configure *)
  run "cmake -L -D OIDN_ZIP_MODE=ON .." ;;
  (* Build *)
  match OS with
  | windows => run ("cmake --build . --config " ++ config cfg ++ " --target PACKAGE")
  | _ => run "cmake --build . --target package -- -j VERBOSE=1"
  end.

(** Lines 206-233: extract the package, check and sign its binaries, delete
    the extracted package. *)
Definition inspect_package (OS : os) (package_filename build_dir : string)
  : M unit :=
  extract_package package_filename build_dir ;;
  let package_dir := Re.sub package_suffix_pattern EmptyString package_filename in
  binaries <- get_binaries OS package_dir ;;
  check_binaries OS binaries ;;
  sign_binaries OS package_filename package_dir binaries ;;
  (* Delete the extracted package *)
  call (shutil_rmtree package_dir).

(** Lines 192-233: the package stage. *)
Definition package_stage (OS : os) (cfg : args) (build_dir : string) : M unit :=
  build_package OS cfg build_dir ;;
  (* Extract the package *)
  found <- ask (fun e h => glob e h (path_join build_dir "oidn-*")) ;;
  package_filename <- lift (match found with
                            | f :: _ => Ok f
                            | [] => Raise IndexError
                            end) ;;
  inspect_package OS package_filename build_dir.

(** Lines 79 and 95-233 of [main]: what it does once the command line has
    been parsed into [cfg]. *)
Definition main (cfg : args) : M unit :=
  OS <- lift (detect_os (platform_system E)) ;;
  '(deps_dir, build_dir) <- set_directories cfg ;;
  when (selected "build" cfg) (build_stage OS cfg deps_dir build_dir) ;;
  when (selected "package" cfg) (package_stage OS cfg build_dir).

(** [main] as the program runs it, lines 77-233: the platform, the parsing
    of the command line, the directories, the stages. *)
Definition main_of_command_line (cl : command_line) : M unit :=
  OS <- lift (detect_os (platform_system E)) ;;
  cfg <- lift (parse_args OS cl) ;;
  '(deps_dir, build_dir) <- set_directories cfg ;;
  when (selected "build" cfg) (build_stage OS cfg deps_dir build_dir) ;;
  when (selected "package" cfg) (package_stage OS cfg build_dir).

End Script.

(** ** Definitions used to state the properties *)

(** The lexicographic order on sequences of integers as the specification
    words it ("standard lexicographic tuple ordering"): [lex_lt a b] when
    [a] comes strictly before [b]. *)
Inductive lex_lt : list Z -> list Z -> Prop :=
| lex_lt_nil : forall y b, lex_lt [] (y :: b)
| lex_lt_head : forall x y a b, (x < y)%Z -> lex_lt (x :: a) (y :: b)
| lex_lt_tail : forall x a b, lex_lt a b -> lex_lt (x :: a) (x :: b).

(** The outcome of a loop whose body only computes: the first exception. *)
Fixpoint first_failure {A} (f : A -> result unit) (l : list A) : result unit :=
  match l with
  | [] => Ok tt
  | x :: l' =>
      match f x with
      | Ok _ => first_failure f l'
      | Raise e => Raise e
      end
  end.

(** The exception of line 69. *)
Definition problematic_symbol {P : OsPath} (symbol filename : string) : exn :=
  Exception ("problematic symbol " ++ symbol ++ " in " ++ basename filename).

(** The events of a run and its outcome. *)
Definition trace {A} (m : M A) (h : list event) : list event := fst (m h).
Definition outcome {A} (m : M A) (h : list event) : result A := snd (m h).

(** [nm] output with one versioned symbol for the label [GLIBC]. *)
Definition one_glibc_symbol (symbol : string) (command : string) : list string :=
  if command =? nm_command "/pkg/bin/oidnDenoise" "GLIBC"
  then [symbol ++ Py.nl] else [].

(** A line of [nm] output carries a version above the ceiling. *)
Definition exceeds (max_version : list Z) (line : string) : Prop :=
  exists v, symbol_version (Py.strip line) = Ok v /\ lex_lt max_version v.

(** The version of a line of [nm] output can be read. *)
Definition parses (line : string) : Prop :=
  exists v, symbol_version (Py.strip line) = Ok v.

(** [s] ends with [suf]. *)
Definition has_suffix (s suf : string) : Prop := exists p, s = p ++ suf.

(** No newline in the text. *)
Fixpoint no_nl (s : string) : bool :=
  match s with
  | EmptyString => true
  | String c s' => negb (Re.is_nl c) && no_nl s'
  end.

(** The texts a pattern matches: [lang r m rest] when [r] matches the text
    [m] followed, in the string searched, by [rest]. *)
Fixpoint lang (r : Re.re) (m rest : string) : Prop :=
  match r with
  | Re.Lit l => m = l
  | Re.Dot => exists c, m = String c EmptyString /\ Re.is_nl c = false
  | Re.DotStar => no_nl m = true
  | Re.DotPlus => m <> EmptyString /\ no_nl m = true
  | Re.Seq r1 r2 =>
      exists m1 m2, m = m1 ++ m2 /\ lang r1 m1 (m2 ++ rest) /\ lang r2 m2 rest
  | Re.Alt r1 r2 => lang r1 m rest \/ lang r2 m rest
  | Re.Opt r1 => lang r1 m rest \/ m = EmptyString
  | Re.Eos => m = EmptyString /\ Re.at_eos rest = true
  end.

(** The names [extract_package] opens as tar archives, read off its
    pattern: [.tar], [.tar.] and an extension, or [tgz], at the end of the
    name or before a newline that ends it. *)
Definition tar_name (filename : string) : Prop :=
  exists p t,
    (t = EmptyString \/ t = Py.nl) /\
    (filename = p ++ ".tar" ++ t \/
     (exists x, x <> EmptyString /\ no_nl x = true /\
                filename = p ++ ".tar." ++ x ++ t) \/
     filename = p ++ "tgz" ++ t).

(** The tar-family suffixes as the specification lists them: [.tar],
    [.tar.gz] and the like ([.tar.] and an extension), [.tgz]. *)
Definition spec_tar_suffix (filename : string) : Prop :=
  has_suffix filename ".tar" \/
  (exists x, x <> EmptyString /\ no_nl x = true /\
             has_suffix filename (".tar." ++ x)) \/
  has_suffix filename ".tgz".

(** The exception of lines 40 and 59. *)
Definition unsupported_format : exn := Exception "unsupported package format".

(** The endings of a string, the string itself first. *)
Fixpoint suffixes (s : string) : list string :=
  s :: match s with
       | EmptyString => []
       | String _ s' => suffixes s'
       end.

(** The call that opens an archive, and the member names read from it. *)
Definition open_event (fmt : format) (filename : string) : event :=
  match fmt with
  | tar => tarfile_open filename "r"
  | zip => ZipFile_open filename
  end.

Definition archive_members (E : env) (fmt : format) (h : list event)
    (filename : string) : list string :=
  match fmt with
  | tar => getnames E h filename
  | zip => namelist E h filename
  end.

(** Every event a computation adds to the trace satisfies [Q]. *)
Definition emits (Q : event -> Prop) {A} (m : M A) : Prop :=
  forall h, exists t, fst (m h) = (h ++ t)%list /\ Forall Q t.

(** An outside world for examples, on Linux: the process environment
    [vars], the directories [dirs], the regular files [files], the symbolic
    links [links], the results [found] of [glob], the [members] of every
    archive, the exit [status] of every command and the output [nm_output]
    of every pipe; no library call fails. *)
Definition example_env (vars : string -> option string)
    (dirs files links : string -> bool) (found : string -> list string)
    (members : list string) (status : string -> Z)
    (nm_output : string -> list string) : env := {|
  platform_system := "Linux";
  environ_get := vars;
  getcwd := fun _ => "/src/oidn";
  isdir := fun _ => dirs;
  isfile := fun _ => files;
  islink := fun _ => links;
  glob := fun _ => found;
  exit_status := fun _ => status;
  getnames := fun _ _ => members;
  namelist := fun _ _ => members;
  popen_lines := fun _ => nm_output;
  fails := fun _ _ => false
|}.

(** A quiet outside world: nothing exists, every command exits with 0, and
    [nm] prints the given lines for the given command. *)
Definition quiet_env (nm_output : string -> list string) : env :=
  example_env (fun _ => None) (fun _ => false) (fun _ => false) (fun _ => false)
              (fun _ => [])
              [] (fun _ => 0%Z) nm_output.

(** An archive whose member names are one absolute and one relative. *)
Definition mixed_archive_env : env :=
  example_env (fun _ => None) (fun _ => false) (fun _ => false) (fun _ => false)
              (fun _ => [])
              ["/opt/ispc/bin/ispc"; "ispc/LICENSE.txt"]
              (fun _ => 0%Z) (fun _ => []).

(** The ISPC archive for Linux and the directory it is extracted to; every
    member of the archive lies under [ispc-v1.13.0-linux]. *)
Definition ispc_archive_env : env :=
  example_env (fun _ => None) (fun _ => false) (fun _ => false) (fun _ => false)
              (fun _ => [])
              ["ispc-v1.13.0-linux/bin/ispc"; "ispc-v1.13.0-linux/LICENSE.txt"]
              (fun _ => 0%Z) (fun _ => []).

(** A computation that, unless it raises earlier, ends with the call
    [last]; every event before it satisfies [Q]. *)
Definition finishes (E : env) (Q : event -> Prop) (last : event) (m : M unit)
  : Prop :=
  forall h, exists t,
    Forall Q t /\
    ((exists e, m h = ((h ++ t)%list, Raise e)) \/
     m h = ((h ++ t ++ [last])%list,
            if fails E (h ++ t)%list last then Raise (CallError last) else Ok tt)).

(** Events by kind. *)
Definition not_rmtree (ev : event) : Prop :=
  match ev with
  | shutil_rmtree _ => False
  | _ => True
  end.

Definition not_popen (ev : event) : Prop :=
  match ev with
  | os_popen _ => False
  | _ => True
  end.

(** Neither a download nor the opening or the extraction of an archive. *)
Definition not_fetch (ev : event) : Prop :=
  match ev with
  | urlretrieve _ _ | tarfile_open _ _ | ZipFile_open _ | extractall _ _ => False
  | _ => True
  end.

(** Downloads are from [url] only, and the archives opened and extracted
    are the file [filename] only. *)
Definition fetches_only (url filename : string) (ev : event) : Prop :=
  match ev with
  | urlretrieve u _ => u = url
  | tarfile_open f _ | ZipFile_open f | extractall f _ => f = filename
  | _ => True
  end.

(** A change of directory or a command: what producing the package does. *)
Definition chdir_or_command (ev : event) : Prop :=
  match ev with
  | os_chdir _ | os_system _ => True
  | _ => False
  end.

(** The events of a complete check of one binary on Linux. *)
Definition symbol_checks (filename : string) : list event :=
  [print ("Checking symbols: " ++ filename);
   os_popen (nm_command filename "GLIBC"); pipe_close (nm_command filename "GLIBC");
   os_popen (nm_command filename "GLIBCXX"); pipe_close (nm_command filename "GLIBCXX");
   os_popen (nm_command filename "CXXABI"); pipe_close (nm_command filename "CXXABI")].

(** The paths and addresses of the two dependencies (lines 107-130). *)
Definition ispc_dir {P : OsPath} (OS : os) (deps_dir : string) : string :=
  path_join deps_dir (ispc_release OS).

Definition ispc_url (OS : os) : string :=
  "https://github.com/ispc/ispc/releases/download/v" ++ ISPC_VERSION
  ++ "/" ++ ispc_release OS
  ++ match OS with windows => ".zip" | _ => ".tar.gz" end.

Definition tbb_dir {P : OsPath} (OS : os) (deps_dir : string) : string :=
  path_join deps_dir (tbb_release OS).

Definition tbb_url (OS : os) : string :=
  "https://github.com/oneapi-src/oneTBB/releases/download/v" ++ TBB_VERSION
  ++ "/" ++ tbb_release OS
  ++ match OS with windows => ".zip" | _ => ".tgz" end.

(** [root_dir] (lines 96-98). *)
Definition root_dir (E : env) (h : list event) : string :=
  match nonempty (environ_get E "OIDN_ROOT_DIR") with
  | Some d => d
  | None => getcwd E h
  end.

(** A Linux machine where both dependencies are in place under
    [/src/oidn/deps] and no build directory exists. *)
Definition provisioned_env : env :=
  example_env (fun _ => None)
    (fun p => (p =? "/src/oidn/deps")
              || (p =? "/src/oidn/deps/ispc-v1.13.0-linux")
              || (p =? "/src/oidn/deps/tbb-2020.2-lin"))
    (fun _ => false) (fun _ => false) (fun _ => []) [] (fun _ => 0%Z)
    (fun _ => []).

(** The command line [release.py build --compiler clang]. *)
Definition build_clang : args := {|
  stage := ["build"];
  compiler := "clang";
  config := "Release";
  wrapper := None;
  cmake_vars := None
|}.

(** The command line [release.py], nothing after the name of the script. *)
Definition no_stage : command_line := {|
  given_stage := [];
  given_compiler := None;
  given_config := None;
  given_wrapper := None;
  given_cmake_vars := []
|}.

(** A Linux build directory after the package target has run: the archive
    [oidn-1.2.0.x86_64.linux.tar.gz] holding one program, one library and a
    symbolic link to the library.
    [vars] is the process environment and [status] the exit status of every
    command. *)
Definition packaged_env (vars : string -> option string)
    (status : string -> Z) : env :=
  example_env vars
    (fun p => p =? "/src/oidn/build_release")
    (fun p => (p =? "/src/oidn/build_release/oidn-1.2.0.x86_64.linux/bin/oidnDenoise")
              || (p =? "/src/oidn/build_release/oidn-1.2.0.x86_64.linux/lib/libOpenImageDenoise.so")
              || (p =? "/src/oidn/build_release/oidn-1.2.0.x86_64.linux/lib/libOpenImageDenoise.so.1.2.0"))
    (fun p => p =? "/src/oidn/build_release/oidn-1.2.0.x86_64.linux/lib/libOpenImageDenoise.so")
    (fun pattern =>
       if pattern =? "/src/oidn/build_release/oidn-*"
       then ["/src/oidn/build_release/oidn-1.2.0.x86_64.linux.tar.gz"]
       else if pattern =? "/src/oidn/build_release/oidn-1.2.0.x86_64.linux/bin/*"
       then ["/src/oidn/build_release/oidn-1.2.0.x86_64.linux/bin/oidnDenoise"]
       else if pattern =? "/src/oidn/build_release/oidn-1.2.0.x86_64.linux/lib/*.so*"
       then ["/src/oidn/build_release/oidn-1.2.0.x86_64.linux/lib/libOpenImageDenoise.so";
             "/src/oidn/build_release/oidn-1.2.0.x86_64.linux/lib/libOpenImageDenoise.so.1.2.0"]
       else [])
    ["oidn-1.2.0.x86_64.linux/bin/oidnDenoise";
     "oidn-1.2.0.x86_64.linux/lib/libOpenImageDenoise.so.1.2.0"]
    status (fun _ => []).

(** No signing tool is configured and every command succeeds. *)
Definition unsigned_env : env := packaged_env (fun _ => None) (fun _ => 0%Z).

(** The signing tool [/opt/sign] is configured and fails on every binary;
    the other commands succeed. *)
Definition signing_fails_env : env :=
  packaged_env
    (fun name => if name =? "OIDN_SIGN_FILE_LINUX" then Some "/opt/sign" else None)
    (fun command => if Py.startswith command "/opt/sign" then 1%Z else 0%Z).

(** The command line [release.py package]. *)
Definition package_only : args := {|
  stage := ["package"];
  compiler := "gcc";
  config := "Release";
  wrapper := None;
  cmake_vars := None
|}.

(** The text [sub] occurs in [s]. *)
Definition occurs (sub s : string) : Prop := exists a b, s = a ++ sub ++ b.

(** The suffixes the pattern of line 207 strips: [.zip], [.tar], and [.tar.]
    with any text free of newlines. *)
Definition archive_suffix (suf : string) : Prop :=
  suf = ".zip" \/ suf = ".tar" \/ exists x, no_nl x = true /\ suf = ".tar." ++ x.

(** [sub in s], decided. *)
Definition contains (sub s : string) : bool :=
  existsb (String.prefix sub) (suffixes s).

(** The character [c] is not in [s]. *)
Fixpoint no_char (c : ascii) (s : string) : bool :=
  match s with
  | EmptyString => true
  | String d s' => negb (Ascii.eqb c d) && no_char c s'
  end.

(** The commands that sign the given binaries with [sign_file] (line 226). *)
Definition sign_commands (sign_file : string) (binaries : list string)
  : list event :=
  map (fun filename => os_system (sign_file ++ " -q -vv " ++ filename)) binaries.

(** The exception of [run]. *)
Definition non_zero_return : exn := Exception "non-zero return value".

Definition not_remove (ev : event) : Prop :=
  match ev with
  | os_remove _ => False
  | _ => True
  end.

(** The signing tool [/opt/sign] is configured and every command
    succeeds. *)
Definition signing_env : env :=
  packaged_env
    (fun name => if name =? "OIDN_SIGN_FILE_LINUX" then Some "/opt/sign" else None)
    (fun _ => 0%Z).

(** Every exception a computation raises satisfies [R]. *)
Definition raises_only (R : exn -> Prop) {A} (m : M A) : Prop :=
  forall h e, snd (m h) = Raise e -> R e.

(** A command that exited with a non-zero status, or a library call that
    failed. *)
Definition tool_failure (e : exn) : Prop :=
  e = non_zero_return \/ exists ev, e = CallError ev.

(** The build command of lines 163, 184 and 187-188: the platform's command,
    after the wrapper when one is given. *)
Definition build_command (OS : os) (cfg : args) : string :=
  let build_cmd :=
    match OS with
    | windows => "cmake --build . --config " ++ config cfg ++ " --target ALL_BUILD"
    | _ => "cmake --build . --target preinstall -- -j VERBOSE=1"
    end in
  match nonempty (wrapper cfg) with
  | Some w => w ++ " " ++ build_cmd
  | None => build_cmd
  end.

(** The command line [release.py build --compiler clang --wrapper ccache]. *)
Definition build_wrapped : args := {|
  stage := ["build"];
  compiler := "clang";
  config := "Debug";
  wrapper := Some "ccache";
  cmake_vars := Some ["OIDN_STATIC_LIB=ON"]
|}.

(** The command line [release.py package build]: both stages, the package
    stage named first. *)
Definition package_then_build : args := {|
  stage := ["package"; "build"];
  compiler := "clang";
  config := "Release";
  wrapper := None;
  cmake_vars := None
|}.

(** The command line [release.py build package]. *)
Definition build_then_package : args := {|
  stage := ["build"; "package"];
  compiler := "clang";
  config := "Release";
  wrapper := None;
  cmake_vars := None
|}.

(** Both dependencies are in place and [cmake] fails on every command. *)
Definition cmake_fails_env : env :=
  example_env (fun _ => None)
    (fun p => (p =? "/src/oidn/deps")
              || (p =? "/src/oidn/deps/ispc-v1.13.0-linux")
              || (p =? "/src/oidn/deps/tbb-2020.2-lin"))
    (fun _ => false) (fun _ => false) (fun _ => []) [] (fun _ => 2%Z)
    (fun _ => []).

(** A plain directory name: not empty, not [.], without a slash. *)
Definition simple_name (top : string) : Prop :=
  no_char "/" top = true /\ top <> EmptyString /\ top <> ".".

(** The member [m] of an archive is the directory [top] or lies in it. *)
Definition under (top m : string) : Prop :=
  m = top \/ exists r, m = top ++ "/" ++ r.

(** An archive that lists its top-level directory and what it holds. *)
Definition listed_archive_env : env :=
  example_env (fun _ => None) (fun _ => false) (fun _ => false) (fun _ => false)
              (fun _ => [])
              ["tbb"; "tbb/lib/libtbb.so.2"; "tbb/include/tbb/tbb.h"]
              (fun _ => 0%Z) (fun _ => []).

(** An archive with a single file in its top-level directory. *)
Definition single_member_env : env :=
  example_env (fun _ => None) (fun _ => false) (fun _ => false) (fun _ => false)
              (fun _ => [])
              ["tbb/README"]
              (fun _ => 0%Z) (fun _ => []).

Definition not_close (ev : event) : Prop :=
  match ev with
  | package_close _ => False
  | _ => True
  end.

(** Each of the commands, run one after the other from the history [h],
    exits with status 0. *)
Fixpoint exits_zero (E : env) (h : list event) (commands : list string) : Prop :=
  match commands with
  | [] => True
  | c :: l => exit_status E h c = 0%Z /\ exits_zero E (h ++ [os_system c])%list l
  end.

(** The command that signs one binary (line 226). *)
Definition sign_command (sign_file filename : string) : string :=
  sign_file ++ " -q -vv " ++ filename.

(** A build directory below a directory whose name holds [.tar], after the
    package target has run: the archive [oidn-1.2.0.tar.gz], every member of
    which lies under [oidn-1.2.0].  No signing tool is configured and every
    command succeeds. *)
Definition dotted_path_env : env :=
  example_env (fun _ => None)
    (fun p => p =? "/src/rel.tar.d/build_release")
    (fun _ => false) (fun _ => false)
    (fun pattern =>
       if pattern =? "/src/rel.tar.d/build_release/oidn-*"
       then ["/src/rel.tar.d/build_release/oidn-1.2.0.tar.gz"]
       else [])
    ["oidn-1.2.0"; "oidn-1.2.0/bin/oidnDenoise"]
    (fun _ => 0%Z) (fun _ => []).

(** * Properties *)

(** ** Symbol checking *)

Lemma list_gt_lex_lt (a b : list Z) : Py.list_gt a b = true <-> lex_lt b a.
Proof.
  revert b; induction a as [|x a IH]; intros [|y b]; simpl.
  - split; [discriminate | inversion 1].
  - split; [discriminate | inversion 1].
  - split; [constructor | reflexivity].
  - destruct (Z.eqb_spec x y) as [->|Hne].
    + rewrite IH. split.
      * apply lex_lt_tail.
      * inversion 1; subst; [lia | assumption].
    + rewrite Z.gtb_ltb, Z.ltb_lt. split.
      * apply lex_lt_head.
      * inversion 1; subst; [assumption | congruence].
Qed.

Lemma list_gt_false_iff (a b : list Z) : Py.list_gt a b = false <-> ~ lex_lt b a.
Proof.
  rewrite <- list_gt_lex_lt. destruct (Py.list_gt a b); split; intros; congruence.
Qed.

Lemma lex_lt_triple (a b c x y z : Z) :
  lex_lt [x; y; z] [a; b; c] <->
  (x < a \/ (x = a /\ (y < b \/ (y = b /\ z < c))))%Z.
Proof.
  split.
  - inversion 1; subst; [now left|].
    match goal with H : lex_lt [_; _] _ |- _ => inversion H; subst end;
      [now right; split; [|left]|].
    match goal with H : lex_lt [_] _ |- _ => inversion H; subst end;
      [now right; split; [|right]|].
    match goal with H : lex_lt [] [] |- _ => inversion H end.
  - intros [H|[-> [H|[-> H]]]].
    + now apply lex_lt_head.
    + now apply lex_lt_tail, lex_lt_head.
    + now apply lex_lt_tail, lex_lt_tail, lex_lt_head.
Qed.

Lemma check_symbol_outcome {P : OsPath} filename max_version line v :
  symbol_version (Py.strip line) = Ok v ->
  check_symbol filename max_version line =
  if Py.list_gt v max_version
  then Raise (problematic_symbol (Py.strip line) filename)
  else Ok tt.
Proof. intros Hv. unfold check_symbol. now rewrite Hv. Qed.

Lemma for_each_lift {A} (f : A -> result unit) (l : list A) (h : list event) :
  for_each l (fun x => lift (f x)) h = (h, first_failure f l).
Proof.
  induction l as [|x l IH]; simpl; [reflexivity|].
  unfold bind, lift at 1. destruct (f x) as [[]|e]; [apply IH | reflexivity].
Qed.

Lemma check_symbols_run {P : OsPath} (E : env) filename label max_version h :
  check_symbols E filename label max_version h =
  ((h ++ [os_popen (nm_command filename label);
          pipe_close (nm_command filename label)])%list,
   first_failure (check_symbol filename max_version)
                 (popen_lines E h (nm_command filename label))).
Proof.
  unfold check_symbols, with_, popen. rewrite for_each_lift.
  now rewrite <- app_assoc.
Qed.

Lemma check_symbol_ok_iff {P : OsPath} filename max_version line :
  parses line ->
  check_symbol filename max_version line = Ok tt <-> ~ exceeds max_version line.
Proof.
  intros [v Hv]. rewrite (check_symbol_outcome _ _ _ _ Hv).
  destruct (Py.list_gt v max_version) eqn:G.
  - apply list_gt_lex_lt in G. split; [discriminate|].
    intros H; exfalso; apply H. now exists v.
  - apply list_gt_false_iff in G. split; [|reflexivity].
    intros _ [v' [Hv' L]]. rewrite Hv in Hv'. now inversion Hv'; subst.
Qed.

Lemma first_failure_ok_iff {P : OsPath} filename max_version out :
  Forall parses out ->
  first_failure (check_symbol filename max_version) out = Ok tt <->
  Forall (fun line => ~ exceeds max_version line) out.
Proof.
  induction 1 as [|line out Hp Hout IH]; simpl.
  - split; [constructor | reflexivity].
  - destruct (check_symbol filename max_version line) as [[]|e] eqn:C.
    + rewrite IH. apply (check_symbol_ok_iff _ _ _ Hp) in C.
      split; [now constructor | now inversion 1].
    + split; [discriminate|]. inversion 1; subst.
      match goal with H : ~ exceeds _ _ |- _ =>
        apply (check_symbol_ok_iff filename _ _ Hp) in H end.
      congruence.
Qed.

Lemma first_failure_raise {P : OsPath} filename max_version out e :
  Forall parses out ->
  first_failure (check_symbol filename max_version) out = Raise e ->
  exists before line after,
    out = (before ++ line :: after)%list /\
    Forall (fun l => ~ exceeds max_version l) before /\
    exceeds max_version line /\
    e = problematic_symbol (Py.strip line) filename.
Proof.
  induction 1 as [|line out Hp Hout IH]; simpl; [discriminate|].
  destruct (check_symbol filename max_version line) as [[]|e'] eqn:C.
  - intros H. destruct (IH H) as (b & l & a & -> & Hb & Hl & ->).
    exists (line :: b), l, a. repeat split; auto.
    constructor; [|assumption]. now apply (check_symbol_ok_iff filename _ _ Hp).
  - intros [= ->]. exists [], line, out. repeat split; auto.
    + destruct Hp as [v Hv]. rewrite (check_symbol_outcome _ _ _ _ Hv) in C.
      destruct (Py.list_gt v max_version) eqn:G; [|discriminate].
      exists v. split; [assumption | now apply list_gt_lex_lt].
    + destruct Hp as [v Hv]. rewrite (check_symbol_outcome _ _ _ _ Hv) in C.
      destruct (Py.list_gt v max_version); congruence.
Qed.

(** C1. For a symbol whose version parses, the check of that symbol raises
    the problematic-symbol exception exactly when the ceiling comes
    lexicographically before the version; over all the symbols [nm] lists
    for a label, [check_symbols] passes exactly when no version exceeds the
    ceiling and otherwise raises for the first symbol that does; on three
    components the order is the usual one; against the [GLIBC] ceiling
    (2,17,0), as [check_symbols_linux] applies it, 2.17.0 and 2.16.99 pass,
    2.17.1 and 3.0.0 fail. *)
Theorem check_symbols_raises_iff_version_exceeds :
  (forall (P : OsPath) filename max_version line v,
      symbol_version (Py.strip line) = Ok v ->
      (check_symbol filename max_version line
       = Raise (problematic_symbol (Py.strip line) filename)
       <-> lex_lt max_version v) /\
      (check_symbol filename max_version line = Ok tt
       <-> ~ lex_lt max_version v)) /\
  (forall (P : OsPath) (E : env) h filename label max_version,
      Forall parses (popen_lines E h (nm_command filename label)) ->
      (outcome (check_symbols E filename label max_version) h = Ok tt <->
       Forall (fun line => ~ exceeds max_version line)
              (popen_lines E h (nm_command filename label))) /\
      (forall e,
          outcome (check_symbols E filename label max_version) h = Raise e ->
          exists before line after,
            popen_lines E h (nm_command filename label)
            = (before ++ line :: after)%list /\
            Forall (fun l => ~ exceeds max_version l) before /\
            exceeds max_version line /\
            e = problematic_symbol (Py.strip line) filename)) /\
  (forall a b c x y z : Z,
      Py.list_gt [a; b; c] [x; y; z] = true <->
      (x < a \/ (x = a /\ (y < b \/ (y = b /\ z < c))))%Z) /\
  (let check symbol :=
     outcome (check_symbols_linux (quiet_env (one_glibc_symbol symbol))
                                  "/pkg/bin/oidnDenoise") [] in
   check "memcpy@@GLIBC_2.17.0" = Ok tt /\
   check "memcpy@@GLIBC_2.16.99" = Ok tt /\
   check "memcpy@@GLIBC_2.17.1"
   = Raise (Exception "problematic symbol memcpy@@GLIBC_2.17.1 in oidnDenoise") /\
   check "memcpy@@GLIBC_3.0.0"
   = Raise (Exception "problematic symbol memcpy@@GLIBC_3.0.0 in oidnDenoise")).
Proof.
  split; [|split; [|split]].
  - intros P filename max_version line v Hv.
    rewrite (check_symbol_outcome _ _ _ _ Hv).
    destruct (Py.list_gt v max_version) eqn:G.
    + apply list_gt_lex_lt in G. split; split; auto; try discriminate.
      intros H; now exfalso.
    + apply list_gt_false_iff in G. split; split; auto; try discriminate.
      intros H; now exfalso.
  - intros P E h filename label max_version Hp.
    unfold outcome. rewrite check_symbols_run. simpl. split.
    + now apply first_failure_ok_iff.
    + intros e. now apply first_failure_raise.
  - intros. rewrite list_gt_lex_lt. apply lex_lt_triple.
  - repeat split; vm_compute; reflexivity.
Qed.

Lemma check_symbols_raises_iff_version_exceeds_witness :
  symbol_version (Py.strip "memcpy@@GLIBC_2.17.1") = Ok [2; 17; 1]%Z /\
  (check_symbol (P := posixpath) "/pkg/bin/oidnDenoise" [2; 17; 0]%Z
                "memcpy@@GLIBC_2.17.1"
   = Raise (problematic_symbol "memcpy@@GLIBC_2.17.1" "/pkg/bin/oidnDenoise")
   <-> lex_lt [2; 17; 0]%Z [2; 17; 1]%Z).
Proof.
  split; [reflexivity|].
  exact (proj1 (proj1 check_symbols_raises_iff_version_exceeds
                  posixpath "/pkg/bin/oidnDenoise" [2; 17; 0]%Z
                  "memcpy@@GLIBC_2.17.1" [2; 17; 1]%Z eq_refl)).
Defined.

Lemma list_gt_prefix (v w : list Z) : Py.list_gt v (v ++ w)%list = false.
Proof.
  induction v as [|x v IH]; simpl; [reflexivity|]. now rewrite Z.eqb_refl.
Qed.

Lemma lex_lt_strict_prefix (v w : list Z) : w <> [] -> lex_lt v (v ++ w)%list.
Proof.
  intros Hw. induction v as [|x v IH]; simpl.
  - destruct w; [congruence | constructor].
  - now apply lex_lt_tail.
Qed.

(** C9. A symbol whose version is a prefix of the ceiling passes: the
    comparison ranks a strict prefix below the longer list, so the version
    is not greater than the ceiling; 2.17 passes against (2,17,0). *)
Theorem check_symbol_prefix_version_passes :
  forall (P : OsPath) filename line (v w : list Z),
    symbol_version (Py.strip line) = Ok v ->
    w <> [] ->
    lex_lt v (v ++ w)%list /\
    check_symbol filename (v ++ w)%list line = Ok tt.
Proof.
  intros P filename line v w Hv Hw. split.
  - now apply lex_lt_strict_prefix.
  - rewrite (check_symbol_outcome _ _ _ _ Hv). now rewrite list_gt_prefix.
Qed.

Lemma check_symbol_prefix_version_passes_witness :
  lex_lt [2; 17]%Z [2; 17; 0]%Z /\
  check_symbol (P := posixpath) "/pkg/lib/libOpenImageDenoise.so.1.2.0"
               [2; 17; 0]%Z "memcpy@@GLIBC_2.17" = Ok tt.
Proof.
  apply (check_symbol_prefix_version_passes posixpath
           "/pkg/lib/libOpenImageDenoise.so.1.2.0" "memcpy@@GLIBC_2.17"
           [2; 17]%Z [0]%Z).
  - reflexivity.
  - discriminate.
Defined.

(** ** Strings *)

Lemma append_nil_r (s : string) : s ++ EmptyString = s.
Proof. induction s; simpl; congruence. Qed.

Lemma append_assoc (a b c : string) : (a ++ b) ++ c = a ++ b ++ c.
Proof. induction a; simpl; congruence. Qed.

Lemma prefix_iff (l s : string) : String.prefix l s = true <-> exists r, s = l ++ r.
Proof.
  revert s; induction l as [|a l IH]; intros s.
  - split; [now exists s | now destruct s].
  - destruct s as [|b s]; simpl;
      [split; [discriminate | intros [r H]; discriminate]|].
    destruct (ascii_dec a b) as [->|Hne].
    + rewrite IH. split; intros [r H]; exists r; congruence.
    + split; [discriminate | intros [r H]; congruence].
Qed.

Lemma prefix_append (l r : string) : String.prefix l (l ++ r) = true.
Proof. apply prefix_iff. now exists r. Qed.

Lemma drop_append (l r : string) : Py.drop (String.length l) (l ++ r) = r.
Proof. induction l; simpl; [now destruct r | assumption]. Qed.

Lemma endswith_iff (s suf : string) : Py.endswith s suf = true <-> has_suffix s suf.
Proof.
  induction s as [|c s IH].
  - cbn [Py.endswith]. rewrite orb_false_r, String.eqb_eq. split.
    + intros <-. now exists EmptyString.
    + intros [[|? ?] H]; simpl in H; [auto | discriminate].
  - cbn [Py.endswith]. rewrite orb_true_iff, String.eqb_eq, IH. split.
    + intros [<-|[p ->]]; [now exists EmptyString | now exists (String c p)].
    + intros [[|a p] H]; simpl in H; [now left|].
      right. exists p. congruence.
Qed.

Lemma endswith_false_iff (s suf : string) :
  Py.endswith s suf = false <-> ~ has_suffix s suf.
Proof.
  rewrite <- endswith_iff. destruct (Py.endswith s suf); split; congruence.
Qed.

Lemma length_append (a b : string) :
  String.length (a ++ b) = String.length a + String.length b.
Proof. induction a; simpl; congruence. Qed.

(** ** The matcher against the texts of a pattern *)

Lemma orelse_some {A} (x y : option A) a :
  Re.orelse x y = Some a -> x = Some a \/ y = Some a.
Proof. destruct x; simpl; auto. Qed.

Lemma orelse_not_none {A} (x y : option A) :
  x <> None \/ y <> None -> Re.orelse x y <> None.
Proof. destruct x; simpl; [discriminate | tauto]. Qed.

Lemma dot_star_sound {A} (s : string) (k : string -> option A) a :
  Re.dot_star s k = Some a ->
  exists m rest, s = m ++ rest /\ no_nl m = true /\ k rest = Some a.
Proof.
  induction s as [|c s IH]; simpl.
  - intros H. now exists EmptyString, EmptyString.
  - destruct (Re.is_nl c) eqn:N.
    + intros H. now exists EmptyString, (String c s).
    + intros H. apply orelse_some in H. destruct H as [H|H].
      * destruct (IH H) as (m & rest & -> & Hm & Hk).
        exists (String c m), rest. simpl. now rewrite N.
      * now exists EmptyString, (String c s).
Qed.

Lemma dot_star_complete {A} (m rest : string) (k : string -> option A) :
  no_nl m = true -> k rest <> None -> Re.dot_star (m ++ rest) k <> None.
Proof.
  induction m as [|c m IH]; simpl; intros Hm Hk.
  - destruct rest as [|c r]; simpl; [assumption|].
    destruct (Re.is_nl c); [assumption|].
    apply orelse_not_none. now right.
  - apply andb_true_iff in Hm. destruct Hm as [Hc Hm].
    apply negb_true_iff in Hc. rewrite Hc.
    apply orelse_not_none. left. now apply IH.
Qed.

Lemma matching_sound {A} (r : Re.re) :
  forall (s : string) (k : string -> option A) a,
    Re.matching r s k = Some a ->
    exists m rest, s = m ++ rest /\ lang r m rest /\ k rest = Some a.
Proof.
  induction r as [l| | | |r1 IH1 r2 IH2|r1 IH1 r2 IH2|r1 IH1|];
    intros s k a; simpl.
  - destruct (String.prefix l s) eqn:Hp; [|discriminate].
    apply prefix_iff in Hp. destruct Hp as [r ->]. rewrite drop_append.
    intros H. now exists l, r.
  - destruct s as [|c s]; [discriminate|].
    destruct (Re.is_nl c) eqn:N; [discriminate|].
    intros H. exists (String c EmptyString), s. repeat split; auto. now exists c.
  - apply dot_star_sound.
  - destruct s as [|c s]; [discriminate|].
    destruct (Re.is_nl c) eqn:N; [discriminate|].
    intros H. destruct (dot_star_sound _ _ _ H) as (m & rest & -> & Hm & Hk).
    exists (String c m), rest. repeat split; auto; [discriminate|].
    simpl. now rewrite N.
  - intros H. destruct (IH1 _ _ _ H) as (m1 & rest1 & -> & L1 & H2).
    destruct (IH2 _ _ _ H2) as (m2 & rest & -> & L2 & Hk).
    exists (m1 ++ m2), rest. rewrite append_assoc. repeat split; auto.
    now exists m1, m2.
  - intros H. apply orelse_some in H. destruct H as [H|H].
    + destruct (IH1 _ _ _ H) as (m & rest & -> & L & Hk).
      exists m, rest. auto.
    + destruct (IH2 _ _ _ H) as (m & rest & -> & L & Hk).
      exists m, rest. auto.
  - intros H. apply orelse_some in H. destruct H as [H|H].
    + destruct (IH1 _ _ _ H) as (m & rest & -> & L & Hk).
      exists m, rest. auto.
    + exists EmptyString, s. auto.
  - destruct (Re.at_eos s) eqn:He; [|discriminate].
    intros H. exists EmptyString, s. auto.
Qed.

Lemma matching_complete {A} (r : Re.re) :
  forall (m rest : string) (k : string -> option A),
    lang r m rest -> k rest <> None -> Re.matching r (m ++ rest) k <> None.
Proof.
  induction r as [l| | | |r1 IH1 r2 IH2|r1 IH1 r2 IH2|r1 IH1|];
    intros m rest k; simpl.
  - intros -> Hk. now rewrite prefix_append, drop_append.
  - intros (c & -> & N) Hk. simpl. now rewrite N.
  - apply dot_star_complete.
  - intros [Hne Hm] Hk. destruct m as [|c m]; [congruence|]. simpl in *.
    apply andb_true_iff in Hm. destruct Hm as [Hc Hm].
    apply negb_true_iff in Hc. rewrite Hc. now apply dot_star_complete.
  - intros (m1 & m2 & -> & L1 & L2) Hk. rewrite append_assoc.
    apply IH1; [assumption|]. now apply IH2.
  - intros [L|L] Hk; apply orelse_not_none; [left; now apply IH1 | right; now apply IH2].
  - intros [L| ->] Hk; apply orelse_not_none; [left; now apply IH1 | now right].
  - intros [-> He] Hk. simpl. now rewrite He.
Qed.

Lemma search_sound (r : Re.re) (s before rest : string) :
  Re.search r s = Some (before, rest) ->
  exists m, s = before ++ m ++ rest /\ lang r m rest.
Proof.
  revert before; induction s as [|c s IH]; intros before; simpl.
  - destruct (Re.match_at r EmptyString) as [x|] eqn:M; [|discriminate].
    intros [= <- <-]. unfold Re.match_at in M.
    destruct (matching_sound _ _ _ _ M) as (m & rest & Hs & L & [= ->]).
    now exists m.
  - destruct (Re.match_at r (String c s)) as [x|] eqn:M.
    + intros [= <- <-]. unfold Re.match_at in M.
      destruct (matching_sound _ _ _ _ M) as (m & rest & Hs & L & [= ->]).
      now exists m.
    + destruct (Re.search r s) as [[b x]|]; [|discriminate].
      intros [= <- <-]. destruct (IH b eq_refl) as (m & -> & L).
      now exists m.
Qed.

Lemma search_complete (r : Re.re) (before m rest : string) :
  lang r m rest -> Re.search r (before ++ m ++ rest) <> None.
Proof.
  intros L. induction before as [|c b IH]; simpl.
  - assert (H : Re.match_at r (m ++ rest) <> None)
      by (apply matching_complete; [assumption | discriminate]).
    destruct (m ++ rest); simpl; destruct (Re.match_at r _); try congruence;
      discriminate.
  - destruct (Re.match_at r _); [discriminate|].
    destruct (Re.search r (b ++ m ++ rest)) as [[? ?]|]; [discriminate | assumption].
Qed.

Lemma at_eos_iff (rest : string) :
  Re.at_eos rest = true <-> rest = EmptyString \/ rest = Py.nl.
Proof.
  destruct rest as [|c [|d r]]; simpl.
  - tauto.
  - unfold Re.is_nl. rewrite Ascii.eqb_eq. unfold Py.nl. split.
    + intros ->. now right.
    + intros [H|H]; [discriminate | congruence].
  - split; [discriminate | intros [H|H]; discriminate].
Qed.

Lemma tar_name_iff (filename : string) :
  Re.search tar_pattern filename <> None <-> tar_name filename.
Proof.
  split.
  - destruct (Re.search tar_pattern filename) as [[before rest]|] eqn:S;
      [intros _ | congruence].
    destruct (search_sound _ _ _ _ S) as (m & -> & L). simpl in L.
    destruct L as (m1 & m2 & -> & L1 & -> & He). apply at_eos_iff in He.
    exists before, rest. split; [assumption|]. rewrite append_nil_r.
    destruct L1 as [(a1 & a2 & -> & -> & [(b1 & b2 & -> & -> & Hne & Hnl)| ->])| ->].
    + right; left. exists b2. repeat split; auto.
    + left. reflexivity.
    + right; right. reflexivity.
  - intros (p & t & Ht & [-> | [(x & Hne & Hnl & ->) | ->]]).
    + apply (search_complete _ p ".tar" t). simpl.
      exists ".tar", EmptyString. repeat split; [|now apply at_eos_iff].
      left. exists ".tar", EmptyString. repeat split. now right.
    + replace (p ++ ".tar." ++ x ++ t) with (p ++ (".tar." ++ x) ++ t)
        by now rewrite !append_assoc.
      apply search_complete. simpl.
      exists (".tar." ++ x), EmptyString. rewrite append_nil_r.
      repeat split; [|now apply at_eos_iff].
      left. exists ".tar", ("." ++ x). repeat split.
      left. exists ".", x. repeat split; assumption.
    + apply (search_complete _ p "tgz" t). simpl.
      exists "tgz", EmptyString. repeat split; [|now apply at_eos_iff].
      now right.
Qed.

Lemma spec_tar_suffix_tar_name (filename : string) :
  spec_tar_suffix filename -> tar_name filename.
Proof.
  intros [[p ->] | [(x & Hne & Hnl & [p ->]) | [p ->]]].
  - exists p, EmptyString. split; [now left|]. left. reflexivity.
  - exists p, EmptyString. split; [now left|]. right; left.
    exists x. rewrite append_nil_r. auto.
  - exists (p ++ "."), EmptyString. split; [now left|]. right; right.
    now rewrite append_assoc.
Qed.

Lemma package_format_tar (filename : string) :
  package_format filename = Ok tar <-> tar_name filename.
Proof.
  rewrite <- tar_name_iff. unfold package_format.
  destruct (Re.search tar_pattern filename).
  - split; [discriminate | reflexivity].
  - destruct (Py.endswith filename ".zip"); split; congruence.
Qed.

Lemma package_format_zip (filename : string) :
  package_format filename = Ok zip <->
  ~ tar_name filename /\ has_suffix filename ".zip".
Proof.
  rewrite <- tar_name_iff, <- endswith_iff. unfold package_format.
  destruct (Re.search tar_pattern filename).
  - split; [discriminate | intros [H _]; exfalso; apply H; discriminate].
  - destruct (Py.endswith filename ".zip").
    + split; [intros _; split; [intros H; now apply H | reflexivity] | reflexivity].
    + split; [discriminate | intros [_ H]; discriminate].
Qed.

Lemma package_format_unsupported (filename : string) :
  package_format filename = Raise unsupported_format <->
  ~ tar_name filename /\ ~ has_suffix filename ".zip".
Proof.
  rewrite <- tar_name_iff, <- endswith_iff. unfold package_format.
  destruct (Re.search tar_pattern filename).
  - split; [discriminate | intros [H _]; exfalso; apply H; discriminate].
  - destruct (Py.endswith filename ".zip").
    + split; [discriminate | intros [_ H]; now exfalso].
    + split; [intros _; split; [intros H; now apply H | discriminate] | reflexivity].
Qed.

Lemma package_format_raises (filename : string) e :
  package_format filename = Raise e -> e = unsupported_format.
Proof.
  unfold package_format. destruct (Re.search tar_pattern filename); [discriminate|].
  destruct (Py.endswith filename ".zip"); [discriminate|].
  intros [= <-]. reflexivity.
Qed.

Lemma has_suffix_suffixes (s suf : string) : has_suffix s suf -> In suf (suffixes s).
Proof.
  intros [p ->]. induction p as [|c p IH]; simpl.
  - destruct suf; simpl; auto.
  - right. assumption.
Qed.

Lemma append_eq_append (p a q b : string) :
  p ++ a = q ++ b -> has_suffix a b \/ has_suffix b a.
Proof.
  revert q; induction p as [|c p IH]; intros q; simpl.
  - intros ->. left. now exists q.
  - destruct q as [|d q]; simpl.
    + intros <-. right. now exists (String c p).
    + intros [= _ H]. now apply IH in H.
Qed.

Lemma has_suffix_exclusive (s a b : string) :
  has_suffix s a -> has_suffix s b ->
  Py.endswith a b = false -> Py.endswith b a = false -> False.
Proof.
  intros [p ->] [q H] Hab Hba. apply endswith_false_iff in Hab, Hba.
  destruct (append_eq_append _ _ _ _ H); auto.
Qed.

(** ** Archives *)

Ltac unfold_monad :=
  unfold when, bind, ret, raise, lift, call, emit, ask, system, popen, with_;
  cbv beta iota zeta.

Ltac break_if :=
  match goal with
  | |- context [if ?b then _ else _] => destruct b eqn:?
  end.

(** The run of [extract_package], step by step. *)
Lemma extract_package_run {P : OsPath} (E : env) filename output_dir h :
  extract_package E filename output_dir h =
  let h0 := (h ++ [print ("Extracting package: " ++ filename)])%list in
  match package_format filename with
  | Raise e => (h0, Raise e)
  | Ok fmt =>
      let h1 := (h0 ++ [open_event fmt filename])%list in
      if fails E h0 (open_event fmt filename)
      then (h1, Raise (CallError (open_event fmt filename)))
      else
        match commonpath (archive_members E fmt h1 filename) with
        | None => (h1, Raise ValueError)
        | Some c =>
            let target := if c =? basename output_dir
                          then dirname output_dir else output_dir in
            let h2 := if isdir E h1 target then h1
                      else (h1 ++ [os_makedirs target])%list in
            if negb (isdir E h1 target) && fails E h1 (os_makedirs target)
            then (h2, Raise (CallError (os_makedirs target)))
            else if fails E h2 (extractall filename target)
            then ((h2 ++ [extractall filename target])%list,
                  Raise (CallError (extractall filename target)))
            else ((h2 ++ [extractall filename target; package_close filename])%list,
                  Ok tt)
        end
  end.
Proof.
  unfold extract_package. unfold_monad.
  destruct (package_format filename) as [fmt|e]; [|reflexivity].
  destruct fmt; unfold open_event, archive_members; cbv beta iota zeta;
    (break_if; [reflexivity|]);
    (destruct (commonpath _) as [c|]; [|reflexivity]);
    cbv beta iota zeta;
    destruct (isdir E _ _); cbn [negb andb];
    repeat (break_if; cbv beta iota zeta);
    rewrite <- ?app_assoc; reflexivity.
Qed.

Lemma extract_package_unsupported_iff {P : OsPath} (E : env) filename output_dir h :
  outcome (extract_package E filename output_dir) h = Raise unsupported_format <->
  ~ tar_name filename /\ ~ has_suffix filename ".zip".
Proof.
  rewrite <- package_format_unsupported. unfold outcome.
  rewrite extract_package_run. cbv zeta.
  destruct (package_format filename) as [fmt|e];
    [|cbn [snd]; split; intros [= ->]; reflexivity].
  split; [|discriminate].
  break_if; [discriminate|].
  destruct (commonpath _); [|discriminate].
  repeat (break_if; try discriminate).
Qed.

Lemma extract_package_spec_suffix_supported {P : OsPath} (E : env)
    filename output_dir h :
  spec_tar_suffix filename \/ has_suffix filename ".zip" ->
  outcome (extract_package E filename output_dir) h <> Raise unsupported_format.
Proof.
  rewrite extract_package_unsupported_iff. intros [H|H] [Ht Hz]; auto.
  now apply Ht, spec_tar_suffix_tar_name.
Qed.

(** C3. The name [oidn-1.2.0tgz] has none of the suffixes [.tar], [.tar.]
    and an extension, [.tgz], [.zip], yet [extract_package] does not raise
    the unsupported-format exception for it: it opens it as a tar archive. *)
Theorem extract_package_opens_tgz_without_dot :
  ~ spec_tar_suffix "oidn-1.2.0tgz" /\
  ~ has_suffix "oidn-1.2.0tgz" ".zip" /\
  package_format "oidn-1.2.0tgz" = Ok tar /\
  forall (P : OsPath) (E : env) h output_dir,
    outcome (extract_package E "oidn-1.2.0tgz" output_dir) h
    <> Raise unsupported_format /\
    In (tarfile_open "oidn-1.2.0tgz" "r")
       (trace (extract_package E "oidn-1.2.0tgz" output_dir) h).
Proof.
  split; [|split; [|split]].
  - intros [H|[(x & _ & _ & H)|H]]; apply has_suffix_suffixes in H; simpl in H;
      repeat (destruct H as [H|H]; [discriminate|]); assumption.
  - apply endswith_false_iff. reflexivity.
  - reflexivity.
  - intros P E h output_dir.
    unfold outcome, trace. rewrite extract_package_run. cbv zeta.
    change (package_format "oidn-1.2.0tgz") with (Ok tar).
    cbv beta iota. unfold open_event.
    assert (Hin : forall h0 t : list event,
               In (tarfile_open "oidn-1.2.0tgz" "r")
                  ((h0 ++ [tarfile_open "oidn-1.2.0tgz" "r"]) ++ t)%list)
      by (intros; rewrite !in_app_iff; simpl; tauto).
    assert (Hin0 := fun h0 => Hin h0 []). setoid_rewrite app_nil_r in Hin0.
    break_if; [split; [discriminate | apply Hin0]|].
    destruct (commonpath _); [|split; [discriminate | apply Hin0]].
    destruct (isdir E _ _); cbn [negb andb];
      repeat break_if; cbn [fst snd];
      (split; [discriminate|]); try apply Hin0; try apply Hin;
      rewrite <- app_assoc; apply Hin.
Qed.

(** C4 (amended). For an archive of a supported format that opens and whose
    member names have a common path [c]: extraction goes to the parent
    ([dirname]) of [output_dir] when [c] is the basename of [output_dir], to
    [output_dir] itself otherwise; that directory is created first
    ([os.makedirs]) exactly when it is not a directory; nothing is extracted
    anywhere else. *)
Theorem extract_package_target :
  forall (P : OsPath) (E : env) h filename output_dir fmt c,
    let h0 := (h ++ [print ("Extracting package: " ++ filename)])%list in
    let h1 := (h0 ++ [open_event fmt filename])%list in
    let target :=
      if c =? basename output_dir then dirname output_dir else output_dir in
    let created := if isdir E h1 target then [] else [os_makedirs target] in
    package_format filename = Ok fmt ->
    fails E h0 (open_event fmt filename) = false ->
    commonpath (archive_members E fmt h1 filename) = Some c ->
    (outcome (extract_package E filename output_dir) h = Ok tt ->
     trace (extract_package E filename output_dir) h
     = (h1 ++ created ++ [extractall filename target; package_close filename])%list) /\
    (forall e,
        outcome (extract_package E filename output_dir) h = Raise e ->
        (e = CallError (os_makedirs target) /\
         isdir E h1 target = false /\
         trace (extract_package E filename output_dir) h
         = (h1 ++ [os_makedirs target])%list) \/
        (e = CallError (extractall filename target) /\
         trace (extract_package E filename output_dir) h
         = (h1 ++ created ++ [extractall filename target])%list)).
Proof.
  intros P E h filename output_dir fmt c h0 h1 target created Hfmt Hopen Hc.
  unfold outcome, trace. rewrite extract_package_run. cbv zeta.
  rewrite Hfmt. fold h0. rewrite Hopen. fold h1. rewrite Hc. fold target.
  subst created. destruct (isdir E h1 target); cbn [negb andb app].
  - destruct (fails E h1 (extractall filename target)); cbn [fst snd]; split;
      try discriminate; auto.
    intros e [= <-]. right. auto.
  - destruct (fails E h1 (os_makedirs target)); cbn [fst snd].
    + split; [discriminate|]. intros e [= <-]. left. auto.
    + destruct (fails E _ (extractall filename target)); cbn [fst snd];
        rewrite <- app_assoc; split; try discriminate; auto.
      intros e [= <-]. right. auto.
Qed.

Lemma extract_package_target_witness :
  trace (extract_package (P := posixpath) ispc_archive_env
           "/src/oidn/deps/ispc-v1.13.0-linux.tar.gz"
           "/src/oidn/deps/ispc-v1.13.0-linux") []
  = [print "Extracting package: /src/oidn/deps/ispc-v1.13.0-linux.tar.gz";
     tarfile_open "/src/oidn/deps/ispc-v1.13.0-linux.tar.gz" "r";
     os_makedirs "/src/oidn/deps";
     extractall "/src/oidn/deps/ispc-v1.13.0-linux.tar.gz" "/src/oidn/deps";
     package_close "/src/oidn/deps/ispc-v1.13.0-linux.tar.gz"].
Proof.
  apply (extract_package_target posixpath ispc_archive_env []
           "/src/oidn/deps/ispc-v1.13.0-linux.tar.gz"
           "/src/oidn/deps/ispc-v1.13.0-linux" tar "ispc-v1.13.0-linux");
    reflexivity.
Defined.

(** C4, the claim as stated, fails on an archive that is not empty but whose
    member names mix an absolute and a relative one: [os.path.commonpath]
    raises, and nothing is extracted. *)
Lemma extract_package_mixed_members_no_extraction :
  getnames mixed_archive_env
           [print "Extracting package: /src/oidn/deps/ispc.tar.gz";
            tarfile_open "/src/oidn/deps/ispc.tar.gz" "r"]
           "/src/oidn/deps/ispc.tar.gz"
  = ["/opt/ispc/bin/ispc"; "ispc/LICENSE.txt"] /\
  extract_package (P := posixpath) mixed_archive_env
    "/src/oidn/deps/ispc.tar.gz" "/src/oidn/deps/ispc" []
  = ([print "Extracting package: /src/oidn/deps/ispc.tar.gz";
      tarfile_open "/src/oidn/deps/ispc.tar.gz" "r"],
     Raise ValueError).
Proof. split; reflexivity. Qed.

(** ** Creating a package *)

Lemma drop_last_suffix (p suf : string) :
  Py.drop_last (String.length suf) (p ++ suf) = p.
Proof.
  unfold Py.drop_last. rewrite length_append.
  replace (String.length p + String.length suf - String.length suf)
    with (String.length p) by lia.
  induction p as [|c p IH]; simpl; [now destruct suf | now rewrite IH].
Qed.

(** C7. [create_package] raises the unsupported-format exception for every
    name that ends neither in [.tar.gz] nor in [.zip], a [.tgz] name among
    them although [extract_package] takes it for a tar archive; for a
    [.tar.gz] name it opens a gzip-compressed tar archive and adds
    [input_dir] under its basename; for a [.zip] name it makes a zip archive
    of that name from the same directory. *)
Theorem create_package_formats :
  forall (P : OsPath) (E : env) h filename input_dir,
    let h0 := (h ++ [print ("Creating package: " ++ filename)])%list in
    (~ has_suffix filename ".tar.gz" -> ~ has_suffix filename ".zip" ->
     create_package E filename input_dir h = (h0, Raise unsupported_format)) /\
    (has_suffix filename ".tgz" ->
     create_package E filename input_dir h = (h0, Raise unsupported_format) /\
     package_format filename = Ok tar) /\
    (has_suffix filename ".tar.gz" ->
     outcome (create_package E filename input_dir) h <> Raise unsupported_format /\
     trace (create_package E filename input_dir) h
     = (h0 ++ tarfile_open filename "w:gz" ::
          (if fails E h0 (tarfile_open filename "w:gz") then []
           else [tarfile_add filename input_dir (basename input_dir);
                 package_close filename]))%list) /\
    (~ has_suffix filename ".tar.gz" -> has_suffix filename ".zip" ->
     outcome (create_package E filename input_dir) h <> Raise unsupported_format /\
     trace (create_package E filename input_dir) h
     = (h0 ++ [make_archive (Py.drop_last 4 filename) "zip"
                            (dirname input_dir) (basename input_dir)])%list /\
     Py.drop_last 4 filename ++ ".zip" = filename).
Proof.
  intros P E h filename input_dir h0.
  assert (Hun : ~ has_suffix filename ".tar.gz" -> ~ has_suffix filename ".zip" ->
                create_package E filename input_dir h = (h0, Raise unsupported_format)).
  { intros Ht Hz. apply endswith_false_iff in Ht, Hz.
    unfold create_package. unfold_monad. now rewrite Ht, Hz. }
  split; [exact Hun|]. split; [|split].
  - intros Hg. split.
    + apply Hun; intros H;
        apply (has_suffix_exclusive _ _ _ Hg H); reflexivity.
    + apply package_format_tar, spec_tar_suffix_tar_name. right; right. exact Hg.
  - intros Ht. apply endswith_iff in Ht.
    unfold outcome, trace, create_package. unfold_monad. rewrite Ht. fold h0.
    destruct (fails E h0 (tarfile_open filename "w:gz")); cbn [fst snd].
    + split; [discriminate | reflexivity].
    + destruct (fails E _ (tarfile_add _ _ _)); cbn [fst snd];
        rewrite <- !app_assoc; split; try discriminate; reflexivity.
  - intros Ht Hz. apply endswith_false_iff in Ht.
    assert (Hz' := Hz). apply endswith_iff in Hz'.
    unfold outcome, trace, create_package. unfold_monad. rewrite Ht, Hz'. fold h0.
    destruct Hz as [p ->].
    change 4 with (String.length ".zip"). rewrite drop_last_suffix.
    destruct (fails E h0 _); cbn [fst snd]; repeat split; discriminate.
Qed.

Lemma create_package_formats_witness :
  create_package (P := posixpath) (quiet_env (fun _ => []))
    "/src/oidn/build_release/oidn-1.2.0.x86_64.linux.tgz"
    "/src/oidn/build_release/oidn-1.2.0.x86_64.linux" []
  = ([print "Creating package: /src/oidn/build_release/oidn-1.2.0.x86_64.linux.tgz"],
     Raise unsupported_format).
Proof.
  apply (proj1 (create_package_formats posixpath (quiet_env (fun _ => [])) []
                  "/src/oidn/build_release/oidn-1.2.0.x86_64.linux.tgz"
                  "/src/oidn/build_release/oidn-1.2.0.x86_64.linux"));
    apply endswith_false_iff; reflexivity.
Defined.

(** ** Traces *)

Section Emits.

Context {P : OsPath} (E : env) (Q : event -> Prop).

Lemma emits_ret {A} (a : A) : emits Q (ret a).
Proof. intros h. exists []. simpl. now rewrite app_nil_r. Qed.

Lemma emits_raise {A} (e : exn) : emits Q (@raise A e).
Proof. intros h. exists []. simpl. now rewrite app_nil_r. Qed.

Lemma emits_lift {A} (r : result A) : emits Q (lift r).
Proof. intros h. exists []. simpl. now rewrite app_nil_r. Qed.

Lemma emits_ask {A} (q : env -> list event -> A) : emits Q (ask E q).
Proof. intros h. exists []. simpl. now rewrite app_nil_r. Qed.

Lemma emits_emit (ev : event) : Q ev -> emits Q (emit ev).
Proof. intros H h. exists [ev]. simpl. auto. Qed.

Lemma emits_call (ev : event) : Q ev -> emits Q (call E ev).
Proof. intros H h. exists [ev]. simpl. auto. Qed.

Lemma emits_bind {A B} (m : M A) (k : A -> M B) :
  emits Q m -> (forall a, emits Q (k a)) -> emits Q (bind m k).
Proof.
  intros Hm Hk h. unfold bind. destruct (Hm h) as (t1 & H1 & Q1).
  destruct (m h) as [h1 [a|e]]; simpl in H1; subst h1.
  - destruct (Hk a (h ++ t1)%list) as (t2 & H2 & Q2).
    exists (t1 ++ t2)%list. rewrite H2, app_assoc. split; [reflexivity|].
    apply Forall_app. auto.
  - exists t1. auto.
Qed.

Lemma emits_bind_value {A B} (m : M A) (k : A -> M B) (V : A -> Prop) :
  emits Q m -> (forall h a, snd (m h) = Ok a -> V a) ->
  (forall a, V a -> emits Q (k a)) -> emits Q (bind m k).
Proof.
  intros Hm HV Hk h. unfold bind. destruct (Hm h) as (t1 & H1 & Q1).
  specialize (HV h).
  destruct (m h) as [h1 [a|e]]; simpl in H1; subst h1.
  - destruct (Hk a (HV a eq_refl) (h ++ t1)%list) as (t2 & H2 & Q2).
    exists (t1 ++ t2)%list. rewrite H2, app_assoc. split; [reflexivity|].
    apply Forall_app. auto.
  - exists t1. auto.
Qed.

Lemma emits_run (command : string) : Q (os_system command) -> emits Q (run E command).
Proof.
  intros H h. exists [os_system command]. unfold run, bind, system, ret, raise.
  destruct (exit_status E h command =? 0)%Z; simpl; auto.
Qed.

Lemma emits_when (b : bool) (m : M unit) : emits Q m -> emits Q (when b m).
Proof. destruct b; simpl; [auto | intros _; apply emits_ret]. Qed.

Lemma emits_for_each {A} (l : list A) (f : A -> M unit) :
  (forall x, emits Q (f x)) -> emits Q (for_each l f).
Proof.
  intros H. induction l as [|x l IH]; simpl; [apply emits_ret|].
  apply emits_bind; auto.
Qed.

Lemma emits_with {A B} (enter : M A) (leave : event) (body : A -> M B) :
  emits Q enter -> Q leave -> (forall a, emits Q (body a)) ->
  emits Q (with_ enter leave body).
Proof.
  intros He Hl Hb h. unfold with_. destruct (He h) as (t1 & H1 & Q1).
  destruct (enter h) as [h1 [a|e]]; simpl in H1; subst h1.
  - destruct (Hb a (h ++ t1)%list) as (t2 & H2 & Q2).
    destruct (body a (h ++ t1)%list) as [h2 r]; simpl in H2; subst h2.
    exists (t1 ++ t2 ++ [leave])%list. simpl. rewrite <- !app_assoc.
    split; [reflexivity|]. repeat (apply Forall_app; split); auto.
  - exists t1. auto.
Qed.

Lemma emits_popen (command : string) : Q (os_popen command) -> emits Q (popen E command).
Proof. intros H h. exists [os_popen command]. simpl. auto. Qed.

Lemma finishes_call (ev : event) : finishes E Q ev (call E ev).
Proof.
  intros h. exists []. split; [constructor|]. right.
  unfold call. now rewrite app_nil_r.
Qed.

Lemma finishes_bind {A} (m : M A) (k : A -> M unit) (last : event) :
  emits Q m -> (forall a, finishes E Q last (k a)) ->
  finishes E Q last (bind m k).
Proof.
  intros Hm Hk h. unfold bind. destruct (Hm h) as (t1 & H1 & Q1).
  destruct (m h) as [h1 [a|e]]; simpl in H1; subst h1.
  - destruct (Hk a (h ++ t1)%list) as (t2 & Q2 & H2).
    exists (t1 ++ t2)%list. split; [apply Forall_app; auto|].
    rewrite <- !app_assoc in H2. rewrite <- !app_assoc.
    destruct H2 as [[e H2]|H2]; [left; now exists e | now right].
  - exists t1. split; [assumption|]. left. now exists e.
Qed.

End Emits.

Ltac emits_step side :=
  lazymatch goal with
  | |- forall _, _ => intros
  | |- emits _ (bind _ _) => apply emits_bind
  | |- emits _ (ret _) => apply emits_ret
  | |- emits _ (raise _) => apply emits_raise
  | |- emits _ (lift _) => apply emits_lift
  | |- emits _ (ask _ _) => apply emits_ask
  | |- emits _ (emit _) => apply emits_emit
  | |- emits _ (call _ _) => apply emits_call
  | |- emits _ (run _ _) => apply emits_run
  | |- emits _ (popen _ _) => apply emits_popen
  | |- emits _ (when _ _) => apply emits_when
  | |- emits _ (for_each _ _) => apply emits_for_each
  | |- emits _ (with_ _ _ _) => apply emits_with
  | |- emits _ (match ?x with _ => _ end) => destruct x
  | |- emits _ (let _ := _ in _) => cbv zeta
  | |- emits _ _ => fail
  | |- _ => side
  end.

(** Proves [emits Q m] for a computation built from the operations of the
    monad, [side] proving that [Q] holds of each event. *)
Ltac emits_with side := repeat emits_step side.

Ltac emits_tac := emits_with ltac:(first [exact I | reflexivity]).

(** ** The directories and the dependencies *)

Lemma set_directories_run {P : OsPath} (E : env) (cfg : args) h :
  set_directories E cfg h =
  let deps_dir := path_join (root_dir E h) "deps" in
  let build_dir := path_join (root_dir E h) ("build_" ++ Py.lower (config cfg)) in
  if isdir E h deps_dir then (h, Ok (deps_dir, build_dir))
  else ((h ++ [os_makedirs deps_dir])%list,
        if fails E h (os_makedirs deps_dir)
        then Raise (CallError (os_makedirs deps_dir))
        else Ok (deps_dir, build_dir)).
Proof.
  unfold set_directories, root_dir.
  destruct (nonempty (environ_get E "OIDN_ROOT_DIR")) as [d|]; unfold_monad;
    destruct (isdir E h _); cbn [negb]; cbv beta iota; try reflexivity;
    destruct (fails E h _); reflexivity.
Qed.

(** The program on a command line the parser accepts is [main] on the
    parsed command line. *)
Lemma main_of_parsed_command_line {P : OsPath} (E : env) (cl : command_line)
    (OS : os) (cfg : args) h :
  detect_os (platform_system E) = Ok OS ->
  parse_args OS cl = Ok cfg ->
  main_of_command_line E cl h = main E cfg h.
Proof.
  intros Hos Hcfg. unfold main_of_command_line, main. rewrite Hos.
  unfold bind at 1, lift at 1. unfold bind at 1, lift at 1. rewrite Hcfg.
  unfold bind at 3, lift at 1. reflexivity.
Qed.

(** A command line the parser accepts selects a stage. *)
Lemma parse_args_selects_a_stage (OS : os) (cl : command_line) (cfg : args) :
  parse_args OS cl = Ok cfg ->
  selected "build" cfg || selected "package" cfg = true.
Proof.
  unfold parse_args, parse_stage, parse_choice, parser_error.
  destruct (default_compiler OS) as [d|]; [|discriminate].
  destruct (given_stage cl) as [|s l] eqn:Hst; [discriminate|].
  destruct (forallb _ (s :: l)) eqn:Hall; [|discriminate].
  assert (Hsel : existsb (String.eqb "build") (s :: l)
                 || existsb (String.eqb "package") (s :: l) = true).
  { cbn [forallb among existsb] in Hall. cbn [existsb].
    apply andb_prop in Hall. destruct Hall as [Hs _].
    rewrite orb_false_r in Hs. apply orb_prop in Hs.
    destruct Hs as [Hs|Hs]; apply String.eqb_eq in Hs; subst s;
      cbn; rewrite ?orb_true_r; reflexivity. }
  destruct (given_compiler cl) as [c|]; [destruct (among _ c); [|discriminate]|];
    (destruct (given_config cl) as [g|]; [destruct (among _ g); [|discriminate]|]);
    intros [= <-]; exact Hsel.
Qed.

(** C10. A command line that names no stage does not reach the directories
    of lines 96-102.  The parser of line 88 checks the empty list of stages
    against the choices [build] and [package], rejects the command line and
    ends the program with exit status 2 (on a platform the script does not
    know, the [KeyError] of line 79 comes first).  Nothing has happened by
    then: the run has no event, so no [deps] directory is created. *)
Theorem main_without_stage_is_rejected_by_the_parser :
  forall (P : OsPath) (E : env) (cl : command_line) h,
    given_stage cl = [] ->
    main_of_command_line E cl h
    = (h, match detect_os (platform_system E) with
          | Ok _ => Raise (SystemExit 2)
          | Raise e => Raise e
          end).
Proof.
  intros P E cl h Hst. unfold main_of_command_line.
  unfold bind at 1, lift at 1.
  destruct (detect_os (platform_system E)) as [OS|e]; [|reflexivity].
  unfold bind at 1, lift at 1. unfold parse_args. rewrite Hst.
  destruct OS; reflexivity.
Qed.

Lemma main_without_stage_is_rejected_by_the_parser_witness :
  isdir (quiet_env (fun _ => [])) [] "/src/oidn/deps" = false /\
  main_of_command_line (P := posixpath) (quiet_env (fun _ => [])) no_stage []
  = ([], Raise (SystemExit 2)).
Proof.
  split; [reflexivity|].
  apply (main_without_stage_is_rejected_by_the_parser posixpath
           (quiet_env (fun _ => [])) no_stage []).
  reflexivity.
Defined.

Lemma set_up_ispc_run {P : OsPath} (E : env) (OS : os) (deps_dir : string) h :
  set_up_ispc E OS deps_dir h =
  if isdir E h (ispc_dir OS deps_dir)
  then (h, Ok (path_join (path_join (ispc_dir OS deps_dir) "bin") "ispc"))
  else (ispc_filename <- download_file E (ispc_url OS) deps_dir ;;
        extract_package E ispc_filename (ispc_dir OS deps_dir) ;;
        call E (os_remove ispc_filename) ;;
        ret (path_join (path_join (ispc_dir OS deps_dir) "bin") "ispc")) h.
Proof.
  unfold set_up_ispc, ispc_dir, ispc_url. unfold bind at 1, ask at 1.
  destruct (isdir E h _); cbn [negb when]; [reflexivity|].
  unfold bind. destruct (download_file E _ deps_dir h) as [h1 [f|e]]; [|reflexivity].
  destruct (extract_package E f _ h1) as [h2 [[]|e]]; [|reflexivity].
  destruct (call E (os_remove f) h2) as [h3 [[]|e]]; reflexivity.
Qed.

Lemma set_up_tbb_run {P : OsPath} (E : env) (OS : os) (deps_dir : string) h :
  set_up_tbb E OS deps_dir h =
  if isdir E h (tbb_dir OS deps_dir)
  then (h, Ok (path_join (tbb_dir OS deps_dir) "tbb"))
  else (tbb_filename <- download_file E (tbb_url OS) deps_dir ;;
        extract_package E tbb_filename (tbb_dir OS deps_dir) ;;
        call E (os_remove tbb_filename) ;;
        ret (path_join (tbb_dir OS deps_dir) "tbb")) h.
Proof.
  unfold set_up_tbb, tbb_dir, tbb_url. unfold bind at 1, ask at 1.
  destruct (isdir E h _); cbn [negb when]; [reflexivity|].
  unfold bind. destruct (download_file E _ deps_dir h) as [h1 [f|e]]; [|reflexivity].
  destruct (extract_package E f _ h1) as [h2 [[]|e]]; [|reflexivity].
  destruct (call E (os_remove f) h2) as [h3 [[]|e]]; reflexivity.
Qed.

Lemma set_up_ispc_value {P : OsPath} (E : env) (OS : os) (deps_dir : string) h v :
  outcome (set_up_ispc E OS deps_dir) h = Ok v ->
  v = path_join (path_join (ispc_dir OS deps_dir) "bin") "ispc".
Proof.
  unfold outcome. rewrite set_up_ispc_run.
  destruct (isdir E h _); cbn [snd]; [congruence|].
  unfold bind. destruct (download_file E _ deps_dir h) as [h1 [f|e]]; [|discriminate].
  destruct (extract_package E f _ h1) as [h2 [[]|e]]; [|discriminate].
  destruct (call E (os_remove f) h2) as [h3 [[]|e]]; [|discriminate].
  cbn. congruence.
Qed.

Lemma set_up_tbb_value {P : OsPath} (E : env) (OS : os) (deps_dir : string) h v :
  outcome (set_up_tbb E OS deps_dir) h = Ok v ->
  v = path_join (tbb_dir OS deps_dir) "tbb".
Proof.
  unfold outcome. rewrite set_up_tbb_run.
  destruct (isdir E h _); cbn [snd]; [congruence|].
  unfold bind. destruct (download_file E _ deps_dir h) as [h1 [f|e]]; [|discriminate].
  destruct (extract_package E f _ h1) as [h2 [[]|e]]; [|discriminate].
  destruct (call E (os_remove f) h2) as [h3 [[]|e]]; [|discriminate].
  cbn. congruence.
Qed.

Lemma emits_configure_and_build {P : OsPath} (E : env) (Q : event -> Prop)
    OS cfg ispc_executable tbb_root build_dir :
  (forall ev, not_fetch ev -> Q ev) ->
  emits Q (configure_and_build E OS cfg ispc_executable tbb_root build_dir).
Proof.
  intros HQ.
  unfold configure_and_build, clean_build_dir, configure_windows, configure_unix.
  emits_with ltac:(apply HQ; exact I).
Qed.

Lemma emits_download_and_extract {P : OsPath} (E : env) url deps_dir output_dir
    (v : string) :
  emits (fetches_only url (path_join deps_dir (basename url)))
        (filename <- download_file E url deps_dir ;;
         extract_package E filename output_dir ;;
         call E (os_remove filename) ;;
         ret v).
Proof.
  apply emits_bind_value with (V := eq (path_join deps_dir (basename url))).
  - unfold download_file. emits_tac.
  - intros h a. unfold download_file. unfold_monad.
    destruct (fails E _ _); cbn [snd]; congruence.
  - intros a <-. unfold extract_package. emits_tac.
Qed.

Lemma emits_set_up_ispc {P : OsPath} (E : env) OS deps_dir :
  emits (fetches_only (ispc_url OS) (path_join deps_dir (basename (ispc_url OS))))
        (set_up_ispc E OS deps_dir).
Proof.
  intros h. rewrite set_up_ispc_run. destruct (isdir E h _).
  - exists []. simpl. now rewrite app_nil_r.
  - apply emits_download_and_extract.
Qed.

Lemma emits_set_up_tbb {P : OsPath} (E : env) OS deps_dir :
  emits (fetches_only (tbb_url OS) (path_join deps_dir (basename (tbb_url OS))))
        (set_up_tbb E OS deps_dir).
Proof.
  intros h. rewrite set_up_tbb_run. destruct (isdir E h _).
  - exists []. simpl. now rewrite app_nil_r.
  - apply emits_download_and_extract.
Qed.

Lemma not_fetch_fetches_only url filename ev :
  not_fetch ev -> fetches_only url filename ev.
Proof. destruct ev; simpl; tauto. Qed.

(** C5. A dependency whose directory under [deps_dir] is there is not
    fetched: setting it up records no event at all (no download, no
    extraction) and returns the same path as after a download (the ISPC
    executable, the TBB root).  In the build stage, with both directories
    there nothing is downloaded, opened or extracted; with the ISPC
    directory there only the TBB archive is, and with the TBB directory
    there throughout only the ISPC archive is. *)
Theorem dependencies_present_not_fetched :
  forall (P : OsPath) (E : env) (OS : os) (deps_dir : string) h,
    (isdir E h (ispc_dir OS deps_dir) = true ->
     set_up_ispc E OS deps_dir h
     = (h, Ok (path_join (path_join (ispc_dir OS deps_dir) "bin") "ispc"))) /\
    (forall v, outcome (set_up_ispc E OS deps_dir) h = Ok v ->
               v = path_join (path_join (ispc_dir OS deps_dir) "bin") "ispc") /\
    (isdir E h (tbb_dir OS deps_dir) = true ->
     set_up_tbb E OS deps_dir h
     = (h, Ok (path_join (tbb_dir OS deps_dir) "tbb"))) /\
    (forall v, outcome (set_up_tbb E OS deps_dir) h = Ok v ->
               v = path_join (tbb_dir OS deps_dir) "tbb") /\
    (forall cfg build_dir,
        isdir E h (ispc_dir OS deps_dir) = true ->
        isdir E h (tbb_dir OS deps_dir) = true ->
        exists t,
          trace (build_stage E OS cfg deps_dir build_dir) h = (h ++ t)%list /\
          Forall not_fetch t) /\
    (forall cfg build_dir,
        isdir E h (ispc_dir OS deps_dir) = true ->
        exists t,
          trace (build_stage E OS cfg deps_dir build_dir) h = (h ++ t)%list /\
          Forall (fetches_only (tbb_url OS)
                    (path_join deps_dir (basename (tbb_url OS)))) t) /\
    (forall cfg build_dir,
        (forall h', isdir E h' (tbb_dir OS deps_dir) = true) ->
        exists t,
          trace (build_stage E OS cfg deps_dir build_dir) h = (h ++ t)%list /\
          Forall (fetches_only (ispc_url OS)
                    (path_join deps_dir (basename (ispc_url OS)))) t).
Proof.
  intros P E OS deps_dir h.
  split; [|split; [|split; [|split; [|split; [|split]]]]].
  - intros H. now rewrite set_up_ispc_run, H.
  - intros v. apply set_up_ispc_value.
  - intros H. now rewrite set_up_tbb_run, H.
  - intros v. apply set_up_tbb_value.
  - intros cfg build_dir Hi Ht. unfold trace, build_stage.
    unfold bind at 1. rewrite set_up_ispc_run, Hi.
    unfold bind at 1. rewrite set_up_tbb_run, Ht.
    apply emits_configure_and_build. auto.
  - intros cfg build_dir Hi. unfold trace, build_stage.
    unfold bind at 1. rewrite set_up_ispc_run, Hi.
    apply emits_bind; [apply emits_set_up_tbb|]. intros root.
    apply emits_configure_and_build. apply not_fetch_fetches_only.
  - intros cfg build_dir Ht. unfold trace, build_stage.
    apply emits_bind; [apply emits_set_up_ispc|]. intros exe.
    apply emits_bind.
    + intros h'. rewrite set_up_tbb_run, Ht. exists []. simpl.
      now rewrite app_nil_r.
    + intros root. apply emits_configure_and_build.
      apply not_fetch_fetches_only.
Qed.

Lemma dependencies_present_not_fetched_witness :
  trace (main (P := posixpath) provisioned_env build_clang) []
  = [os_mkdir "/src/oidn/build_release";
     os_chdir "/src/oidn/build_release";
     os_system
       ("cmake -L -D CMAKE_C_COMPILER:FILEPATH=" ++ Py.dquote ++ "clang"
        ++ Py.dquote ++ " -D CMAKE_CXX_COMPILER:FILEPATH=" ++ Py.dquote
        ++ "clang++" ++ Py.dquote ++ " -D CMAKE_BUILD_TYPE=Release"
        ++ " -D ISPC_EXECUTABLE=" ++ Py.dquote
        ++ "/src/oidn/deps/ispc-v1.13.0-linux/bin/ispc" ++ Py.dquote
        ++ " -D TBB_ROOT=" ++ Py.dquote ++ "/src/oidn/deps/tbb-2020.2-lin/tbb"
        ++ Py.dquote ++ " ..");
     os_system "cmake --build . --target preinstall -- -j VERBOSE=1"] /\
  set_up_ispc (P := posixpath) provisioned_env linux "/src/oidn/deps" []
  = ([], Ok "/src/oidn/deps/ispc-v1.13.0-linux/bin/ispc").
Proof.
  split; [reflexivity|].
  apply (proj1 (dependencies_present_not_fetched posixpath provisioned_env
                  linux "/src/oidn/deps" [])).
  reflexivity.
Defined.

(** ** The package stage *)

Lemma emits_build_package {P : OsPath} (E : env) OS cfg build_dir :
  emits chdir_or_command (build_package E OS cfg build_dir).
Proof. unfold build_package. emits_tac. Qed.

Lemma package_stage_run {P : OsPath} (E : env) OS cfg build_dir h :
  package_stage E OS cfg build_dir h =
  match build_package E OS cfg build_dir h with
  | (h3, Ok _) =>
      match glob E h3 (path_join build_dir "oidn-*") with
      | [] => (h3, Raise IndexError)
      | f :: _ => inspect_package E OS f build_dir h3
      end
  | (h3, Raise e) => (h3, Raise e)
  end.
Proof.
  unfold package_stage. unfold bind at 1.
  destruct (build_package E OS cfg build_dir h) as [h3 [[]|e]]; [|reflexivity].
  unfold_monad. destruct (glob E h3 _); reflexivity.
Qed.

Lemma bind_starts {A B} (m : M A) (k : A -> M B) (ev : event) h :
  (exists t, fst (m h) = (h ++ ev :: t)%list) ->
  (forall a, emits (fun _ => True) (k a)) ->
  exists t, fst (bind m k h) = (h ++ ev :: t)%list.
Proof.
  intros [t1 H1] Hk. unfold bind.
  destruct (m h) as [h1 [a|e]]; cbn [fst] in *; subst h1; [|now exists t1].
  destruct (Hk a (h ++ ev :: t1)%list) as (t2 & H2 & _).
  exists (t1 ++ t2)%list. rewrite H2, <- app_assoc. reflexivity.
Qed.

Lemma emits_check_symbols_linux {P : OsPath} (E : env) (Q : event -> Prop) filename :
  (forall ev, not_rmtree ev -> Q ev) ->
  emits Q (check_symbols_linux E filename).
Proof.
  intros HQ. unfold check_symbols_linux, check_symbols.
  emits_with ltac:(apply HQ; exact I).
Qed.

Lemma inspect_package_starts {P : OsPath} (E : env) OS f build_dir h :
  exists t,
    trace (inspect_package E OS f build_dir) h
    = (h ++ print ("Extracting package: " ++ f) :: t)%list.
Proof.
  unfold trace, inspect_package. apply bind_starts.
  - unfold extract_package. apply bind_starts.
    + now exists [].
    + emits_tac.
  - intros _.
    unfold get_binaries, check_binaries, sign_binaries, create_package,
      check_symbols_linux, check_symbols.
    emits_tac.
Qed.

(** C6. Producing the package only changes directory and runs commands.
    When the pattern [oidn-*] in the build directory then matches nothing,
    the stage stops there with an exception (the [IndexError] when the
    commands succeeded), so before anything is opened or extracted; when
    it matches, the stage goes on with the first match, which it
    extracts. *)
Theorem package_stage_first_match_or_abort :
  forall (P : OsPath) (E : env) (OS : os) (cfg : args) (build_dir : string) h,
    let h3 := trace (build_package E OS cfg build_dir) h in
    let pattern := path_join build_dir "oidn-*" in
    (exists t, h3 = (h ++ t)%list /\ Forall chdir_or_command t) /\
    (glob E h3 pattern = [] ->
     trace (package_stage E OS cfg build_dir) h = h3 /\
     exists e,
       outcome (package_stage E OS cfg build_dir) h = Raise e /\
       (outcome (build_package E OS cfg build_dir) h = Ok tt -> e = IndexError)) /\
    (forall f found,
        glob E h3 pattern = f :: found ->
        outcome (build_package E OS cfg build_dir) h = Ok tt ->
        package_stage E OS cfg build_dir h = inspect_package E OS f build_dir h3 /\
        exists t,
          trace (package_stage E OS cfg build_dir) h
          = (h3 ++ print ("Extracting package: " ++ f) :: t)%list).
Proof.
  intros P E OS cfg build_dir h h3 pattern. split; [|split].
  - apply emits_build_package.
  - intros Hg. unfold trace, outcome. rewrite package_stage_run.
    subst h3 pattern. unfold trace, outcome in *.
    destruct (build_package E OS cfg build_dir h) as [h3 [[]|e]]; cbn [fst snd] in *.
    + rewrite Hg. split; [reflexivity|]. exists IndexError. auto.
    + split; [reflexivity|]. exists e. split; [reflexivity | discriminate].
  - intros f found Hg Hok.
    assert (Hrun : package_stage E OS cfg build_dir h
                   = inspect_package E OS f build_dir h3).
    { rewrite package_stage_run. subst h3 pattern. unfold trace, outcome in *.
      destruct (build_package E OS cfg build_dir h) as [h3 [[]|e]];
        cbn [fst snd] in *; [|discriminate].
      now rewrite Hg. }
    split; [exact Hrun|]. unfold trace at 1. rewrite Hrun.
    apply inspect_package_starts.
Qed.

Lemma package_stage_first_match_or_abort_witness :
  trace (package_stage (P := posixpath) (quiet_env (fun _ => [])) linux
           package_only "/src/oidn/build_release") []
  = [os_chdir "/src/oidn/build_release";
     os_system "cmake -L -D OIDN_ZIP_MODE=ON ..";
     os_system "cmake --build . --target package -- -j VERBOSE=1"] /\
  exists e,
    outcome (package_stage (P := posixpath) (quiet_env (fun _ => [])) linux
               package_only "/src/oidn/build_release") [] = Raise e /\
    (outcome (build_package (quiet_env (fun _ => [])) linux
                package_only "/src/oidn/build_release") [] = Ok tt ->
     e = IndexError).
Proof.
  apply (proj1 (proj2 (package_stage_first_match_or_abort posixpath
                         (quiet_env (fun _ => [])) linux package_only
                         "/src/oidn/build_release" []))).
  reflexivity.
Defined.



Lemma inspect_package_finishes {P : OsPath} (E : env) OS f build_dir :
  finishes E not_rmtree
    (shutil_rmtree (Re.sub package_suffix_pattern EmptyString f))
    (inspect_package E OS f build_dir).
Proof.
  unfold inspect_package.
  apply finishes_bind; [unfold extract_package; emits_tac | intros _; cbv zeta].
  apply finishes_bind; [unfold get_binaries; emits_tac | intros binaries].
  apply finishes_bind;
    [unfold check_binaries, check_symbols_linux, check_symbols; emits_tac
    | intros _].
  apply finishes_bind;
    [unfold sign_binaries, create_package; emits_tac | intros _].
  apply finishes_call.
Qed.

(** ** The binaries and their check *)

Lemma bind_run {A B} (m : M A) (k : A -> M B) h :
  bind m k h = match m h with
               | (h', Ok a) => k a h'
               | (h', Raise e) => (h', Raise e)
               end.
Proof. reflexivity. Qed.

Lemma check_symbols_linux_ok {P : OsPath} (E : env) filename h :
  outcome (check_symbols_linux E filename) h = Ok tt ->
  trace (check_symbols_linux E filename) h = (h ++ symbol_checks filename)%list.
Proof.
  unfold outcome, trace, check_symbols_linux.
  unfold bind, emit. rewrite !check_symbols_run.
  repeat match goal with
         | |- context [first_failure ?f ?l] => destruct (first_failure f l) as [[]|?]
         end; cbn [fst snd]; try discriminate.
  intros _. unfold symbol_checks. now rewrite <- !app_assoc.
Qed.

Lemma check_symbols_linux_starts {P : OsPath} (E : env) filename h :
  exists t,
    trace (check_symbols_linux E filename) h
    = (h ++ print ("Checking symbols: " ++ filename) :: t)%list.
Proof.
  unfold trace, check_symbols_linux. apply bind_starts.
  - now exists [].
  - intros _. unfold check_symbols. emits_tac.
Qed.

Lemma check_binaries_linux_ok {P : OsPath} (E : env) binaries :
  forall h,
    outcome (check_binaries E linux binaries) h = Ok tt ->
    trace (check_binaries E linux binaries) h
    = (h ++ flat_map symbol_checks binaries)%list.
Proof.
  unfold outcome, trace, check_binaries.
  induction binaries as [|f l IH]; intros h; cbn [for_each flat_map].
  - intros _. simpl. now rewrite app_nil_r.
  - rewrite bind_run.
    pose proof (check_symbols_linux_ok E f h) as Hf. unfold outcome, trace in Hf.
    destruct (check_symbols_linux E f h) as [h1 [[]|e]]; cbn [fst snd] in *;
      [|discriminate].
    rewrite (Hf eq_refl). intros Hl. rewrite (IH _ Hl). now rewrite app_assoc.
Qed.

Lemma check_binaries_linux_raise {P : OsPath} (E : env) binaries :
  forall h e,
    outcome (check_binaries E linux binaries) h = Raise e ->
    exists before f after t,
      binaries = (before ++ f :: after)%list /\
      trace (check_binaries E linux binaries) h
      = (h ++ flat_map symbol_checks before
           ++ print ("Checking symbols: " ++ f) :: t)%list.
Proof.
  unfold outcome, trace, check_binaries.
  induction binaries as [|f l IH]; intros h e; cbn [for_each].
  - discriminate.
  - rewrite bind_run.
    pose proof (check_symbols_linux_ok E f h) as Hf.
    destruct (check_symbols_linux_starts E f h) as [t Ht].
    unfold outcome, trace in Hf, Ht.
    destruct (check_symbols_linux E f h) as [h1 [[]|e1]]; cbn [fst snd] in *.
    + rewrite (Hf eq_refl). intros Hl.
      destruct (IH _ _ Hl) as (before & f' & after & t' & -> & Htr).
      exists (f :: before), f', after, t'. split; [reflexivity|].
      rewrite Htr. cbn [flat_map]. now rewrite <- !app_assoc.
    + intros _. exists [], f, l, t. split; [reflexivity|]. subst h1. reflexivity.
Qed.

Lemma emits_package_stage_not_popen {P : OsPath} (E : env) OS cfg build_dir :
  OS <> linux -> emits not_popen (package_stage E OS cfg build_dir).
Proof.
  intros Hos.
  unfold package_stage, build_package, inspect_package, extract_package,
    get_binaries, check_binaries, sign_binaries, create_package.
  destruct OS; [|congruence|]; emits_tac.
Qed.

Lemma get_binaries_run {P : OsPath} (E : env) (OS : os) (package_dir : string) h :
  get_binaries E OS package_dir h =
  (h, Ok (filter (fun f => isfile E h f && negb (islink E h f))
            (glob E h (path_join (path_join package_dir "bin") "*")
             ++ match OS with
                | linux =>
                    glob E h (path_join (path_join package_dir "lib") "*.so*")
                | macos =>
                    glob E h (path_join (path_join package_dir "lib") "*.dylib")
                | windows => []
                end)%list)).
Proof. unfold get_binaries. destruct OS; reflexivity. Qed.

Lemma emits_sign_and_remove_not_popen {P : OsPath} (E : env) OS f package_dir
    binaries :
  emits not_popen (sign_binaries E OS f package_dir binaries ;;
                   call E (shutil_rmtree package_dir)).
Proof. unfold sign_binaries, create_package. emits_tac. Qed.

(** C8. The binaries of a package are the matches of [bin/*], followed on
    Linux by those of [lib/*.so*] and on macOS by those of [lib/*.dylib],
    without the entries that are not regular files or are symbolic links.
    On Linux the check goes through the binaries in order: when it
    completes, each has been checked against the three labels; when it
    raises, it does so while checking one of them, those before it having
    been checked.  On Windows and macOS nothing is checked: the check does
    nothing and the whole package stage opens no pipe to [nm].
    The package stage on Linux checks the binaries it discovered: once the
    first match of [oidn-*] has been extracted, the list that is checked is
    the list found in the directory of the package at that moment; when the
    check completes, the events of the stage after the extraction start
    with the checks of exactly these binaries, in order, and no pipe to
    [nm] is opened afterwards; when the check raises, the stage ends there
    with that exception. *)
Theorem binaries_discovered_and_checked_on_linux :
  forall (P : OsPath) (E : env) (OS : os) h,
    (forall package_dir,
        get_binaries E OS package_dir h =
        (h, Ok (filter (fun f => isfile E h f && negb (islink E h f))
                  (glob E h (path_join (path_join package_dir "bin") "*")
                   ++ match OS with
                      | linux =>
                          glob E h (path_join (path_join package_dir "lib") "*.so*")
                      | macos =>
                          glob E h (path_join (path_join package_dir "lib") "*.dylib")
                      | windows => []
                      end)%list))) /\
    (forall binaries,
        outcome (check_binaries E linux binaries) h = Ok tt ->
        trace (check_binaries E linux binaries) h
        = (h ++ flat_map symbol_checks binaries)%list) /\
    (forall binaries e,
        outcome (check_binaries E linux binaries) h = Raise e ->
        exists before f after t,
          binaries = (before ++ f :: after)%list /\
          trace (check_binaries E linux binaries) h
          = (h ++ flat_map symbol_checks before
               ++ print ("Checking symbols: " ++ f) :: t)%list) /\
    (OS <> linux ->
     (forall binaries, check_binaries E OS binaries h = (h, Ok tt)) /\
     (forall cfg build_dir,
         exists t,
           trace (package_stage E OS cfg build_dir) h = (h ++ t)%list /\
           Forall not_popen t)) /\
    (forall cfg build_dir f found h4,
        let h3 := trace (build_package E linux cfg build_dir) h in
        let package_dir := Re.sub package_suffix_pattern EmptyString f in
        let binaries :=
          filter (fun b => isfile E h4 b && negb (islink E h4 b))
            (glob E h4 (path_join (path_join package_dir "bin") "*")
             ++ glob E h4 (path_join (path_join package_dir "lib") "*.so*"))%list in
        outcome (build_package E linux cfg build_dir) h = Ok tt ->
        glob E h3 (path_join build_dir "oidn-*") = f :: found ->
        extract_package E f build_dir h3 = (h4, Ok tt) ->
        (outcome (check_binaries E linux binaries) h4 = Ok tt ->
         exists t,
           trace (package_stage E linux cfg build_dir) h
           = (h4 ++ flat_map symbol_checks binaries ++ t)%list /\
           Forall not_popen t) /\
        (forall e,
            outcome (check_binaries E linux binaries) h4 = Raise e ->
            package_stage E linux cfg build_dir h
            = (trace (check_binaries E linux binaries) h4, Raise e))).
Proof.
  intros P E OS h. split; [|split; [|split; [|split]]].
  - intros package_dir. unfold get_binaries. destruct OS; reflexivity.
  - intros binaries. apply check_binaries_linux_ok.
  - intros binaries e. apply check_binaries_linux_raise.
  - intros Hos. split.
    + intros binaries. destruct OS; [reflexivity | congruence | reflexivity].
    + intros cfg build_dir. now apply emits_package_stage_not_popen.
  - intros cfg build_dir f found h4 h3 package_dir binaries Hbuild Hg Hx.
    assert (Hrun : package_stage E linux cfg build_dir h
                   = match check_binaries E linux binaries h4 with
                     | (h5, Ok _) =>
                         (sign_binaries E linux f package_dir binaries ;;
                          call E (shutil_rmtree package_dir)) h5
                     | (h5, Raise e) => (h5, Raise e)
                     end).
    { rewrite package_stage_run. subst h3. unfold trace, outcome in *.
      destruct (build_package E linux cfg build_dir h) as [h3 [[]|e]];
        cbn [fst snd] in *; [|discriminate].
      rewrite Hg. unfold inspect_package. rewrite bind_run, Hx. cbv zeta.
      rewrite bind_run, get_binaries_run. fold package_dir. fold binaries.
      rewrite bind_run. reflexivity. }
    split.
    + intros Hok. pose proof (check_binaries_linux_ok E binaries h4 Hok) as Htr.
      unfold trace at 1. rewrite Hrun. unfold outcome, trace in Hok, Htr.
      destruct (check_binaries E linux binaries h4) as [h5 [[]|e]];
        cbn [fst snd] in *; [|discriminate]. subst h5.
      destruct (emits_sign_and_remove_not_popen E linux f package_dir binaries
                  (h4 ++ flat_map symbol_checks binaries)%list) as (t & Ht & Qt).
      exists t. rewrite Ht, <- app_assoc. auto.
    + intros e He. rewrite Hrun. unfold outcome, trace in *.
      destruct (check_binaries E linux binaries h4) as [h5 [[]|e']];
        cbn [fst snd] in *; [discriminate|]. congruence.
Qed.

Lemma binaries_discovered_and_checked_on_linux_witness :
  get_binaries (P := posixpath) unsigned_env linux
    "/src/oidn/build_release/oidn-1.2.0.x86_64.linux" []
  = ([], Ok ["/src/oidn/build_release/oidn-1.2.0.x86_64.linux/bin/oidnDenoise";
             "/src/oidn/build_release/oidn-1.2.0.x86_64.linux/lib/libOpenImageDenoise.so.1.2.0"]) /\
  trace (check_binaries (P := posixpath) unsigned_env linux
           ["/src/oidn/build_release/oidn-1.2.0.x86_64.linux/bin/oidnDenoise";
            "/src/oidn/build_release/oidn-1.2.0.x86_64.linux/lib/libOpenImageDenoise.so.1.2.0"]) []
  = flat_map symbol_checks
      ["/src/oidn/build_release/oidn-1.2.0.x86_64.linux/bin/oidnDenoise";
       "/src/oidn/build_release/oidn-1.2.0.x86_64.linux/lib/libOpenImageDenoise.so.1.2.0"] /\
  exists t,
    trace (package_stage (P := posixpath) unsigned_env linux package_only
             "/src/oidn/build_release") []
    = (trace (extract_package (P := posixpath) unsigned_env
                "/src/oidn/build_release/oidn-1.2.0.x86_64.linux.tar.gz"
                "/src/oidn/build_release")
             (trace (build_package unsigned_env linux package_only
                       "/src/oidn/build_release") [])
       ++ flat_map symbol_checks
            ["/src/oidn/build_release/oidn-1.2.0.x86_64.linux/bin/oidnDenoise";
             "/src/oidn/build_release/oidn-1.2.0.x86_64.linux/lib/libOpenImageDenoise.so.1.2.0"]
       ++ t)%list /\
    Forall not_popen t.
Proof.
  split; [|split].
  - exact (proj1 (binaries_discovered_and_checked_on_linux posixpath unsigned_env
                    linux [])
                 "/src/oidn/build_release/oidn-1.2.0.x86_64.linux").
  - apply (proj1 (proj2 (binaries_discovered_and_checked_on_linux posixpath
                           unsigned_env linux []))).
    reflexivity.
  - apply (proj1 (proj2 (proj2 (proj2 (proj2
             (binaries_discovered_and_checked_on_linux posixpath unsigned_env
                linux []))))
             package_only "/src/oidn/build_release"
             "/src/oidn/build_release/oidn-1.2.0.x86_64.linux.tar.gz" []
             (trace (extract_package (P := posixpath) unsigned_env
                       "/src/oidn/build_release/oidn-1.2.0.x86_64.linux.tar.gz"
                       "/src/oidn/build_release")
                    (trace (build_package unsigned_env linux package_only
                              "/src/oidn/build_release") []))
             eq_refl eq_refl eq_refl)).
    reflexivity.
Defined.

(** * Further properties of the script *)

(** ** The handler of [extract_package] *)

Lemma extract_package_opens {P : OsPath} (E : env) filename output_dir fmt h :
  package_format filename = Ok fmt ->
  exists t,
    trace (extract_package E filename output_dir) h
    = (h ++ print ("Extracting package: " ++ filename)
         :: open_event fmt filename :: t)%list.
Proof.
  intros Hfmt. unfold trace. rewrite extract_package_run. cbv zeta. rewrite Hfmt.
  assert (H0 : forall h0 (a b : event),
             ((h0 ++ [a]) ++ [b] = h0 ++ a :: b :: [])%list)
    by (intros; now rewrite <- app_assoc).
  break_if; [eexists; cbn [fst]; apply H0|].
  destruct (commonpath _); [|eexists; cbn [fst]; apply H0].
  destruct (isdir E _ _); cbn [negb andb];
    repeat break_if; cbn [fst]; eexists;
    rewrite <- ?app_assoc; cbn [app]; reflexivity.
Qed.

(** X1. [extract_package] raises the unsupported-format exception exactly
    for the names that match neither its pattern (a name ending in [.tar],
    in [.tar.] and a non-empty extension, or in the letters [tgz], a final
    newline allowed after each) nor [endswith('.zip')]; a name matching the
    pattern is opened with [tarfile.open], also when it ends in [.zip]; only
    the other [.zip] names are opened with [ZipFile]. *)
Theorem extract_package_handler_selection :
  forall (P : OsPath) (E : env) h filename output_dir,
    (outcome (extract_package E filename output_dir) h = Raise unsupported_format
     <-> ~ tar_name filename /\ ~ has_suffix filename ".zip") /\
    (tar_name filename ->
     exists t,
       trace (extract_package E filename output_dir) h
       = (h ++ print ("Extracting package: " ++ filename)
            :: tarfile_open filename "r" :: t)%list) /\
    (~ tar_name filename -> has_suffix filename ".zip" ->
     exists t,
       trace (extract_package E filename output_dir) h
       = (h ++ print ("Extracting package: " ++ filename)
            :: ZipFile_open filename :: t)%list) /\
    (forall p x, x <> EmptyString -> no_nl x = true ->
                 tar_name (p ++ ".tar." ++ x)) /\
    (forall p, tar_name (p ++ ".tar" ++ Py.nl)).
Proof.
  intros P E h filename output_dir. split; [|split; [|split; [|split]]].
  - apply extract_package_unsupported_iff.
  - intros Ht. apply package_format_tar in Ht.
    apply (extract_package_opens E filename output_dir tar h Ht).
  - intros Ht Hz.
    apply (extract_package_opens E filename output_dir zip h).
    now apply package_format_zip.
  - intros p x Hne Hnl. exists p, EmptyString. split; [now left|].
    right; left. exists x. rewrite append_nil_r. auto.
  - intros p. exists p, Py.nl. split; [now right|]. now left.
Qed.

Lemma extract_package_handler_selection_witness :
  exists t,
    trace (extract_package (P := posixpath) (quiet_env (fun _ => []))
             "/tmp/backup.tar.zip" "/tmp/out") []
    = ([] ++ print "Extracting package: /tmp/backup.tar.zip"
          :: tarfile_open "/tmp/backup.tar.zip" "r" :: t)%list.
Proof.
  apply (proj1 (proj2 (extract_package_handler_selection posixpath
                         (quiet_env (fun _ => [])) [] "/tmp/backup.tar.zip"
                         "/tmp/out"))).
  apply (proj1 (proj2 (proj2 (proj2 (extract_package_handler_selection posixpath
                         (quiet_env (fun _ => [])) [] "/tmp/backup.tar.zip"
                         "/tmp/out")))) "/tmp/backup" "zip").
  - discriminate.
  - reflexivity.
Defined.

(** ** The extracted directory of a package *)

Lemma package_suffix_lang (m rest : string) :
  lang package_suffix_pattern m rest ->
  Re.at_eos rest = true /\ archive_suffix m.
Proof.
  simpl. intros (m1 & m2 & -> & -> & m3 & m4 & -> & L & -> & He).
  split; [assumption|]. rewrite append_nil_r.
  destruct L as [(a1 & a2 & -> & -> & [(b1 & b2 & -> & -> & Hnl)| ->])| ->].
  - right; right. exists b2. auto.
  - right; left. reflexivity.
  - left. reflexivity.
Qed.

Lemma archive_suffix_starts (suf : string) :
  archive_suffix suf ->
  exists y, (suf = ".zip" ++ y /\ y = EmptyString) \/ suf = ".tar" ++ y.
Proof.
  intros [->|[->|(x & _ & ->)]].
  - exists EmptyString. now left.
  - exists EmptyString. now right.
  - exists ("." ++ x). now right.
Qed.

Lemma dot_star_greedy {A} (x : string) (k : string -> option A) a :
  no_nl x = true -> k EmptyString = Some a -> Re.dot_star x k = Some a.
Proof.
  intros Hx Hk. induction x as [|c x IH]; simpl in *; [assumption|].
  apply andb_true_iff in Hx. destruct Hx as [Hc Hx].
  apply negb_true_iff in Hc. rewrite Hc, (IH Hx). reflexivity.
Qed.

Lemma match_at_archive_suffix (suf : string) :
  archive_suffix suf ->
  Re.match_at package_suffix_pattern suf = Some EmptyString.
Proof.
  intros [->|[->|(x & Hx & ->)]]; [reflexivity | reflexivity |].
  unfold Re.match_at. cbn.
  replace (String.prefix EmptyString x) with true by now destruct x.
  erewrite dot_star_greedy; [reflexivity | assumption | reflexivity].
Qed.

Lemma search_none_without_suffix (s : string) :
  ~ occurs ".tar" s -> ~ occurs ".zip" s ->
  Re.search package_suffix_pattern s = None.
Proof.
  intros Ht Hz.
  destruct (Re.search package_suffix_pattern s) as [[before rest]|] eqn:S;
    [|reflexivity].
  destruct (search_sound _ _ _ _ S) as (m & -> & L).
  apply package_suffix_lang in L. destruct L as [_ [->|[->|(x & _ & ->)]]].
  - destruct Hz. now exists before, rest.
  - destruct Ht. now exists before, rest.
  - destruct Ht. exists before, ("." ++ x ++ rest).
    now rewrite !append_assoc.
Qed.

Lemma sub_without_match (r : Re.re) (repl s : string) :
  Re.search r s = None -> Re.sub r repl s = s.
Proof.
  unfold Re.sub. intros H. destruct (String.length s); simpl; [reflexivity|].
  now rewrite H.
Qed.

Lemma occurs_contains (sub s : string) : occurs sub s -> contains sub s = true.
Proof.
  intros (a & b & ->). unfold contains. induction a as [|c a IH].
  - assert (H : exists l, suffixes (sub ++ b) = (sub ++ b) :: l)
      by (destruct (sub ++ b); eexists; reflexivity).
    change (EmptyString ++ sub ++ b) with (sub ++ b).
    destruct H as [l ->]. cbn [existsb].
    now rewrite prefix_append.
  - cbn [String.append suffixes existsb]. rewrite IH. apply orb_true_r.
Qed.

Lemma occurs_tail (sub : string) (c : ascii) (s : string) :
  ~ occurs sub (String c s) -> ~ occurs sub s.
Proof. intros H (a & b & ->). apply H. now exists (String c a), b. Qed.

Lemma match_at_before_suffix (c : ascii) (r suf : string) :
  ~ occurs ".tar" (String c r) -> archive_suffix suf ->
  Re.match_at package_suffix_pattern (String c r ++ suf) = None.
Proof.
  intros Ht Hs.
  destruct (Re.match_at package_suffix_pattern (String c r ++ suf))
    as [rest|] eqn:M; [exfalso | reflexivity].
  unfold Re.match_at in M.
  destruct (matching_sound _ _ _ _ M) as (m & rest' & Hm & L & [= ->]).
  apply package_suffix_lang in L. destruct L as [He Hsuf].
  apply at_eos_iff in He.
  assert (Hlen : String.length rest <= 1)
    by (destruct He as [->| ->]; simpl; lia).
  assert (Hsl : 4 <= String.length suf).
  { destruct Hs as [->|[->|(x & _ & ->)]]; simpl; lia. }
  apply archive_suffix_starts in Hs. destruct Hs as [y Hy].
  destruct Hsuf as [->|Hsuf].
  - (* the match would be [.zip] *)
    pose proof Hm as Hm'.
    apply (f_equal String.length) in Hm.
    rewrite !length_append in Hm. simpl in Hm.
    destruct r as [|c2 r]; simpl in Hm; [|lia].
    assert (String.length suf = 4 /\ rest = Py.nl) as [Hl ->].
    { destruct He as [->| ->]; simpl in Hm; [lia | split; [lia | reflexivity]]. }
    destruct Hy as [[-> ->]| ->].
    + simpl in Hm'. injection Hm' as _ Hm'. discriminate Hm'.
    + simpl in Hm'. injection Hm' as _ Hm'. discriminate Hm'.
  - (* the match would start with [.tar] *)
    assert (Hp : exists z, String c r ++ suf = ".tar" ++ z).
    { destruct Hsuf as [->|(x & _ & ->)]; rewrite Hm;
        [now exists rest | exists ("." ++ x ++ rest); now rewrite !append_assoc]. }
    destruct Hp as [z Hp].
    assert (Hdot : exists s', suf = String "."%char s').
    { destruct Hy as [[-> _]| ->]; eexists; reflexivity. }
    destruct Hdot as [s' ->].
    simpl in Hp. injection Hp as -> Hp.
    destruct r as [|c2 r]; simpl in Hp; [discriminate|]. injection Hp as -> Hp.
    destruct r as [|c3 r]; simpl in Hp; [discriminate|]. injection Hp as -> Hp.
    destruct r as [|c4 r]; simpl in Hp; [discriminate|]. injection Hp as -> Hp.
    apply Ht. now exists EmptyString, r.
Qed.

Lemma search_archive_suffix (p suf : string) :
  ~ occurs ".tar" p -> archive_suffix suf ->
  Re.search package_suffix_pattern (p ++ suf) = Some (p, EmptyString).
Proof.
  intros Ht Hs. induction p as [|c p IH].
  - change (EmptyString ++ suf) with suf.
    pose proof (match_at_archive_suffix suf Hs) as M.
    destruct suf; cbn [Re.search]; now rewrite M.
  - change (String c p ++ suf) with (String c (p ++ suf)).
    cbn [Re.search].
    change (String c (p ++ suf)) with (String c p ++ suf).
    rewrite (match_at_before_suffix c p suf Ht Hs).
    now rewrite (IH (occurs_tail _ _ _ Ht)).
Qed.

(** X2. The directory a package is extracted to is computed from the
    archive name by removing its suffix: for a name [p] followed by [.zip],
    [.tar] or [.tar.] and any extension, where [.tar] does not occur in [p],
    the substitution of line 207 returns exactly [p]. *)
Theorem package_dir_strips_archive_suffix :
  forall p suf : string,
    ~ occurs ".tar" p ->
    archive_suffix suf ->
    Re.sub package_suffix_pattern EmptyString (p ++ suf) = p.
Proof.
  intros p suf Ht Hs. unfold Re.sub.
  destruct (String.length (p ++ suf)) as [|n] eqn:Hl.
  - rewrite length_append in Hl.
    destruct Hs as [->|[->|(x & _ & ->)]]; simpl in Hl; lia.
  - cbn [Re.sub_go]. rewrite (search_archive_suffix p suf Ht Hs).
    destruct n; simpl; now rewrite append_nil_r.
Qed.

Lemma package_dir_strips_archive_suffix_witness :
  Re.sub package_suffix_pattern EmptyString
    ("/src/oidn/build/oidn-1.2.0.x86_64.macos" ++ ".tar.gz")
  = "/src/oidn/build/oidn-1.2.0.x86_64.macos".
Proof.
  apply package_dir_strips_archive_suffix.
  - intros H. apply occurs_contains in H. discriminate.
  - right; right. exists "gz". split; reflexivity.
Defined.

(** X3. A package whose name ends in [.tgz] (and holds neither [.tar] nor
    [.zip]) is opened as a tar archive by [extract_package], but the
    substitution of line 207 does not know that suffix: the directory it
    computes is the archive name itself, so that is the path the stage
    removes with [shutil.rmtree] when it completes. *)
Theorem package_dir_of_tgz_is_the_archive :
  forall (P : OsPath) (E : env) (OS : os) (build_dir p : string) h,
    ~ occurs ".tar" (p ++ ".tgz") ->
    ~ occurs ".zip" (p ++ ".tgz") ->
    package_format (p ++ ".tgz") = Ok tar /\
    Re.sub package_suffix_pattern EmptyString (p ++ ".tgz") = p ++ ".tgz" /\
    (outcome (inspect_package E OS (p ++ ".tgz") build_dir) h = Ok tt ->
     exists t,
       trace (inspect_package E OS (p ++ ".tgz") build_dir) h
       = (h ++ t ++ [shutil_rmtree (p ++ ".tgz")])%list).
Proof.
  intros P E OS build_dir p h Ht Hz.
  assert (Hsub : Re.sub package_suffix_pattern EmptyString (p ++ ".tgz")
                 = p ++ ".tgz")
    by now apply sub_without_match, search_none_without_suffix.
  split; [|split; [exact Hsub|]].
  - apply package_format_tar, spec_tar_suffix_tar_name. right; right.
    now exists p.
  - unfold outcome, trace.
    destruct (inspect_package_finishes E OS (p ++ ".tgz") build_dir h)
      as (t & _ & [[e He]|He]); rewrite He; cbn [fst snd]; [discriminate|].
    intros _. exists t. now rewrite Hsub.
Qed.

Lemma package_dir_of_tgz_is_the_archive_witness :
  package_format ("/src/oidn/build_release/oidn-1.2.0" ++ ".tgz") = Ok tar /\
  Re.sub package_suffix_pattern EmptyString
    ("/src/oidn/build_release/oidn-1.2.0" ++ ".tgz")
  = "/src/oidn/build_release/oidn-1.2.0" ++ ".tgz".
Proof.
  destruct (package_dir_of_tgz_is_the_archive posixpath (quiet_env (fun _ => []))
              linux "/src/oidn/build_release"
              "/src/oidn/build_release/oidn-1.2.0" [])
    as (H1 & H2 & _).
  - intros H. apply occurs_contains in H. discriminate.
  - intros H. apply occurs_contains in H. discriminate.
  - split; assumption.
Defined.

(** ** Reading the version of a symbol *)

Lemma split_go_skip (sep x b : string) :
  Py.split_go sep (x ++ b) (String.length x) = Py.split_go sep b 0.
Proof.
  induction x as [|c x IH]; simpl; [now destruct b | assumption].
Qed.

Lemma prefix_first_char (c d : ascii) (sep s : string) :
  Ascii.eqb c d = false -> String.prefix (String c sep) (String d s) = false.
Proof.
  intros H. simpl. destruct (ascii_dec c d) as [->|]; [|reflexivity].
  now rewrite Ascii.eqb_refl in H.
Qed.

Lemma split_without_sep (c : ascii) (sep s : string) :
  no_char c s = true -> Py.split s (String c sep) = [s].
Proof.
  unfold Py.split. intros H.
  assert (G : Py.split_go (String c sep) s 0 = (s, [])).
  { induction s as [|d s IH]; [reflexivity|].
    cbn [no_char] in H. apply andb_true_iff in H. destruct H as [Hd Hs].
    apply negb_true_iff in Hd.
    cbn [Py.split_go]. rewrite (prefix_first_char _ _ _ _ Hd), (IH Hs).
    reflexivity. }
  now rewrite G.
Qed.

Lemma split_at_sep (c : ascii) (sep a b : string) :
  no_char c a = true ->
  Py.split (a ++ String c sep ++ b) (String c sep)
  = a :: Py.split b (String c sep).
Proof.
  unfold Py.split. intros H.
  assert (G : Py.split_go (String c sep) (a ++ String c sep ++ b) 0
              = (a, let '(f, fs) := Py.split_go (String c sep) b 0 in f :: fs)).
  { induction a as [|d a IH].
    - change (EmptyString ++ String c sep ++ b) with (String c (sep ++ b)).
      cbn [Py.split_go].
      change (String c (sep ++ b)) with (String c sep ++ b).
      rewrite prefix_append.
      replace (String.length (String c sep) - 1) with (String.length sep)
        by (simpl; lia).
      rewrite split_go_skip.
      destruct (Py.split_go (String c sep) b 0); reflexivity.
    - cbn [no_char] in H. apply andb_true_iff in H. destruct H as [Hd Hs].
      apply negb_true_iff in Hd.
      change (String d a ++ String c sep ++ b)
        with (String d (a ++ String c sep ++ b)).
      cbn [Py.split_go]. rewrite (prefix_first_char _ _ _ _ Hd), (IH Hs).
      reflexivity. }
  rewrite G. destruct (Py.split_go (String c sep) b 0); reflexivity.
Qed.

Lemma no_char_append (c : ascii) (a b : string) :
  no_char c (a ++ b) = no_char c a && no_char c b.
Proof.
  induction a as [|d a IH]; simpl; [reflexivity|].
  now rewrite IH, andb_assoc.
Qed.

(** X4. From a symbol [name@@LABEL_version] (no [@] in its three parts, no
    underscore in the label and the version, underscores allowed in the
    name) the loop of [check_symbols] reads the components of [version]
    between the dots as integers.  A line without [@@], a version tag with a
    second underscore and a tag that is not a number (as [PRIVATE]) make it
    raise [ValueError] instead. *)
Theorem symbol_version_of_versioned_symbol :
  forall name label version : string,
    no_char "@" name = true ->
    no_char "@" label = true -> no_char "_" label = true ->
    no_char "@" version = true -> no_char "_" version = true ->
    symbol_version (name ++ "@@" ++ label ++ "_" ++ version)
    = map_result int_or_raise (Py.split version ".") /\
    symbol_version (name ++ "_" ++ version) = Raise ValueError /\
    symbol_version (name ++ "@@" ++ label ++ "_" ++ label ++ "_" ++ version)
    = Raise ValueError /\
    (no_char "." version = true -> Py.int version = None ->
     symbol_version (name ++ "@@" ++ label ++ "_" ++ version) = Raise ValueError).
Proof.
  intros name label version Hn Hl Hl' Hv Hv'.
  assert (Hparse : symbol_version (name ++ "@@" ++ label ++ "_" ++ version)
                   = map_result int_or_raise (Py.split version ".")).
  { unfold symbol_version.
    rewrite (split_at_sep "@" "@" name _ Hn).
    rewrite split_without_sep
      by (rewrite !no_char_append, Hl, Hv; reflexivity).
    cbn [unpack2].
    rewrite (split_at_sep "_" EmptyString label _ Hl').
    rewrite (split_without_sep "_" EmptyString version Hv').
    reflexivity. }
  split; [exact Hparse|]. split; [|split].
  - unfold symbol_version.
    rewrite split_without_sep
      by (rewrite !no_char_append, Hn, Hv; reflexivity).
    reflexivity.
  - unfold symbol_version.
    rewrite (split_at_sep "@" "@" name _ Hn).
    rewrite split_without_sep
      by (rewrite !no_char_append, Hl, Hv; reflexivity).
    cbn [unpack2].
    rewrite (split_at_sep "_" EmptyString label _ Hl').
    rewrite (split_at_sep "_" EmptyString label _ Hl').
    rewrite (split_without_sep "_" EmptyString version Hv').
    reflexivity.
  - intros Hd Hi. rewrite Hparse.
    rewrite (split_without_sep "." EmptyString version Hd).
    cbn [map_result]. unfold int_or_raise. now rewrite Hi.
Qed.

Lemma symbol_version_of_versioned_symbol_witness :
  symbol_version ("__cxa_thread_atexit_impl" ++ "@@" ++ "GLIBC" ++ "_" ++ "2.18")
  = Ok [2; 18]%Z /\
  symbol_version ("__libc_early_init" ++ "@@" ++ "GLIBC" ++ "_" ++ "PRIVATE")
  = Raise ValueError.
Proof.
  split.
  - apply (symbol_version_of_versioned_symbol "__cxa_thread_atexit_impl"
             "GLIBC" "2.18"); reflexivity.
  - apply (symbol_version_of_versioned_symbol "__libc_early_init"
             "GLIBC" "PRIVATE"); reflexivity.
Defined.

Lemma list_gt_false_trans (a b c : list Z) :
  Py.list_gt a b = false -> Py.list_gt b c = false -> Py.list_gt a c = false.
Proof.
  revert b c; induction a as [|x a IH]; intros [|y b] [|z c]; simpl;
    try reflexivity; try discriminate.
  destruct (Z.eqb_spec x y) as [->|Hxy].
  - destruct (Z.eqb_spec y z) as [->|Hyz]; [apply IH | auto].
  - intros Hgt. destruct (Z.eqb_spec y z) as [->|Hyz].
    + intros _. destruct (Z.eqb_spec x z); [congruence | assumption].
    + intros Hgt'. rewrite Z.gtb_ltb, Z.ltb_ge in Hgt, Hgt'.
      destruct (Z.eqb_spec x z) as [->|Hxz]; [lia|].
      rewrite Z.gtb_ltb, Z.ltb_ge. lia.
Qed.

(** X5. The check is monotone in the ceiling: a line that passes against
    a ceiling passes against every ceiling that is not lower (in the order
    of Python's list comparison), so raising a ceiling never turns a
    passing binary into a failing one. *)
Theorem check_symbol_monotone_in_ceiling :
  forall (P : OsPath) filename line (max_version higher : list Z),
    check_symbol filename max_version line = Ok tt ->
    Py.list_gt max_version higher = false ->
    check_symbol filename higher line = Ok tt.
Proof.
  intros P filename line max_version higher. unfold check_symbol.
  destruct (symbol_version (Py.strip line)) as [v|e]; [|discriminate].
  destruct (Py.list_gt v max_version) eqn:G; [discriminate|].
  intros _ H. now rewrite (list_gt_false_trans _ _ _ G H).
Qed.

Lemma check_symbol_monotone_in_ceiling_witness :
  check_symbol (P := posixpath) "/pkg/bin/oidnDenoise" [2; 27]%Z
               "memcpy@@GLIBC_2.14" = Ok tt.
Proof.
  apply (check_symbol_monotone_in_ceiling posixpath "/pkg/bin/oidnDenoise"
           "memcpy@@GLIBC_2.14" [2; 17; 0]%Z [2; 27]%Z); reflexivity.
Defined.

(** X6. [check_symbols_linux] prints its line, then checks the labels in
    the order [GLIBC], [GLIBCXX], [CXXABI], each with its own ceiling and
    each through a pipe that is closed whatever the outcome.  The first
    label whose check raises ends the check with that exception: the pipes
    of the labels after it are never opened.  When [GLIBC] and [GLIBCXX]
    pass, the outcome is that of [CXXABI]. *)
Theorem check_symbols_linux_stops_at_first_failing_label :
  forall (P : OsPath) (E : env) (filename : string) h,
    let printed := (h ++ firstn 1 (symbol_checks filename))%list in
    let after_glibc := (h ++ firstn 3 (symbol_checks filename))%list in
    let after_glibcxx := (h ++ firstn 5 (symbol_checks filename))%list in
    check_symbols_linux E filename h
    = match outcome (check_symbols E filename "GLIBC" [2; 17; 0]%Z) printed with
      | Raise e => (after_glibc, Raise e)
      | Ok _ =>
          match outcome (check_symbols E filename "GLIBCXX" [3; 4; 19]%Z)
                        after_glibc with
          | Raise e => (after_glibcxx, Raise e)
          | Ok _ =>
              ((h ++ symbol_checks filename)%list,
               outcome (check_symbols E filename "CXXABI" [1; 3; 7]%Z)
                       after_glibcxx)
          end
      end.
Proof.
  intros P E filename h printed after_glibc after_glibcxx.
  subst printed after_glibc after_glibcxx.
  unfold outcome, check_symbols_linux. cbn [firstn symbol_checks].
  unfold bind, emit. rewrite !check_symbols_run. cbn [snd].
  rewrite <- !app_assoc. cbn [app].
  destruct (first_failure _ _) as [[]|e1]; [|reflexivity].
  rewrite ?check_symbols_run; cbn [fst snd]; rewrite <- ?app_assoc; cbn [app].
  destruct (first_failure _ _) as [[]|e2]; [|reflexivity].
  rewrite ?check_symbols_run; cbn [fst snd]; rewrite <- ?app_assoc; cbn [app].
  reflexivity.
Qed.

(** ** Signing and repacking *)

Lemma run_run (E : env) (command : string) h :
  run E command h =
  ((h ++ [os_system command])%list,
   if (exit_status E h command =? 0)%Z then Ok tt else Raise non_zero_return).
Proof.
  unfold run, bind, system, ret, raise.
  destruct (exit_status E h command =? 0)%Z; reflexivity.
Qed.

Lemma for_each_run_exits_zero (E : env) {A} (command : A -> string) (l : list A) :
  forall h,
    exits_zero E h (map command l) ->
    for_each l (fun x => run E (command x)) h
    = ((h ++ map (fun x => os_system (command x)) l)%list, Ok tt).
Proof.
  induction l as [|x l IH]; intros h; cbn [for_each map exits_zero].
  - intros _. unfold ret. now rewrite app_nil_r.
  - intros [Hz Hl]. rewrite bind_run, run_run, Hz. cbn [Z.eqb].
    rewrite (IH _ Hl). now rewrite <- app_assoc.
Qed.

Lemma for_each_run_first_non_zero (E : env) {A} (command : A -> string)
    (before : list A) (x : A) (after : list A) :
  forall h,
    exits_zero E h (map command before) ->
    exit_status E (h ++ map (fun x => os_system (command x)) before)%list
                (command x) <> 0%Z ->
    for_each (before ++ x :: after) (fun x => run E (command x)) h
    = ((h ++ map (fun x => os_system (command x)) (before ++ [x]))%list,
       Raise non_zero_return).
Proof.
  induction before as [|y before IH]; intros h;
    cbn [for_each map exits_zero app].
  - intros _ Hne. rewrite app_nil_r in Hne. apply Z.eqb_neq in Hne.
    rewrite bind_run, run_run, Hne. reflexivity.
  - intros [Hz Hl] Hne. rewrite bind_run, run_run, Hz. cbn [Z.eqb].
    rewrite IH; [now rewrite <- app_assoc | exact Hl |].
    rewrite <- app_assoc. exact Hne.
Qed.

(** X7. Without a signing tool in the environment nothing is signed and
    the archive is left alone.  With one, the binaries are signed in order;
    the first one for which the tool exits with a non-zero status stops the
    stage with the exception of [run]: the later binaries are not signed
    and the archive is neither removed nor rebuilt.  When the tool exits
    with 0 for every binary, the archive is removed and then created again
    under the same name from the extracted directory. *)
Theorem sign_binaries_signs_then_repacks :
  forall (P : OsPath) (E : env) (OS : os)
         (package_filename package_dir : string) (binaries : list string) h,
    (nonempty (environ_get E ("OIDN_SIGN_FILE_" ++ Py.upper (os_str OS))) = None ->
     sign_binaries E OS package_filename package_dir binaries h = (h, Ok tt)) /\
    (forall sign_file,
        nonempty (environ_get E ("OIDN_SIGN_FILE_" ++ Py.upper (os_str OS)))
        = Some sign_file ->
        (forall before filename after,
            binaries = (before ++ filename :: after)%list ->
            exits_zero E h (map (sign_command sign_file) before) ->
            exit_status E (h ++ sign_commands sign_file before)%list
                        (sign_command sign_file filename) <> 0%Z ->
            sign_binaries E OS package_filename package_dir binaries h
            = ((h ++ sign_commands sign_file (before ++ [filename]))%list,
               Raise non_zero_return)) /\
        (exits_zero E h (map (sign_command sign_file) binaries) ->
         sign_binaries E OS package_filename package_dir binaries h
         = (call E (os_remove package_filename) ;;
            create_package E package_filename package_dir)
             (h ++ sign_commands sign_file binaries)%list)).
Proof.
  intros P E OS package_filename package_dir binaries h. split.
  - intros H. unfold sign_binaries. now rewrite H.
  - intros sign_file H. unfold sign_binaries. rewrite H. split.
    + intros before filename after -> Hz Hne. rewrite bind_run.
      change (fun filename0 : string => run E (sign_file ++ " -q -vv " ++ filename0))
        with (fun filename0 : string => run E (sign_command sign_file filename0)).
      rewrite (for_each_run_first_non_zero E (sign_command sign_file)
                 before filename after h Hz Hne).
      reflexivity.
    + intros Hz. rewrite bind_run.
      change (fun filename : string => run E (sign_file ++ " -q -vv " ++ filename))
        with (fun filename : string => run E (sign_command sign_file filename)).
      rewrite (for_each_run_exits_zero E (sign_command sign_file) binaries h Hz).
      reflexivity.
Qed.

Lemma sign_binaries_signs_then_repacks_witness :
  sign_binaries (P := posixpath) signing_env linux
    "/src/oidn/build_release/oidn-1.2.0.x86_64.linux.tar.gz"
    "/src/oidn/build_release/oidn-1.2.0.x86_64.linux"
    ["/src/oidn/build_release/oidn-1.2.0.x86_64.linux/bin/oidnDenoise"] []
  = ([os_system "/opt/sign -q -vv /src/oidn/build_release/oidn-1.2.0.x86_64.linux/bin/oidnDenoise";
      os_remove "/src/oidn/build_release/oidn-1.2.0.x86_64.linux.tar.gz";
      print "Creating package: /src/oidn/build_release/oidn-1.2.0.x86_64.linux.tar.gz";
      tarfile_open "/src/oidn/build_release/oidn-1.2.0.x86_64.linux.tar.gz" "w:gz";
      tarfile_add "/src/oidn/build_release/oidn-1.2.0.x86_64.linux.tar.gz"
                  "/src/oidn/build_release/oidn-1.2.0.x86_64.linux"
                  "oidn-1.2.0.x86_64.linux";
      package_close "/src/oidn/build_release/oidn-1.2.0.x86_64.linux.tar.gz"],
     Ok tt) /\
  sign_binaries (P := posixpath) signing_fails_env linux
    "/src/oidn/build_release/oidn-1.2.0.x86_64.linux.tar.gz"
    "/src/oidn/build_release/oidn-1.2.0.x86_64.linux"
    ["/src/oidn/build_release/oidn-1.2.0.x86_64.linux/bin/oidnDenoise";
     "/src/oidn/build_release/oidn-1.2.0.x86_64.linux/lib/libOpenImageDenoise.so.1.2.0"] []
  = ([os_system "/opt/sign -q -vv /src/oidn/build_release/oidn-1.2.0.x86_64.linux/bin/oidnDenoise"],
     Raise non_zero_return).
Proof.
  split.
  - apply (proj2 (proj2 (sign_binaries_signs_then_repacks posixpath signing_env
              linux
              "/src/oidn/build_release/oidn-1.2.0.x86_64.linux.tar.gz"
              "/src/oidn/build_release/oidn-1.2.0.x86_64.linux"
              ["/src/oidn/build_release/oidn-1.2.0.x86_64.linux/bin/oidnDenoise"] [])
             "/opt/sign" eq_refl)).
    simpl. auto.
  - apply (proj1 (proj2 (sign_binaries_signs_then_repacks posixpath
              signing_fails_env linux
              "/src/oidn/build_release/oidn-1.2.0.x86_64.linux.tar.gz"
              "/src/oidn/build_release/oidn-1.2.0.x86_64.linux"
              ["/src/oidn/build_release/oidn-1.2.0.x86_64.linux/bin/oidnDenoise";
               "/src/oidn/build_release/oidn-1.2.0.x86_64.linux/lib/libOpenImageDenoise.so.1.2.0"] [])
             "/opt/sign" eq_refl) []
             "/src/oidn/build_release/oidn-1.2.0.x86_64.linux/bin/oidnDenoise"
             ["/src/oidn/build_release/oidn-1.2.0.x86_64.linux/lib/libOpenImageDenoise.so.1.2.0"]
             eq_refl I).
    vm_compute. discriminate.
Defined.

Lemma for_each_run_ok (E : env) {A} (command : A -> string) (l : list A) :
  (forall h c, exit_status E h c = 0%Z) ->
  forall h,
    for_each l (fun x => run E (command x)) h
    = ((h ++ map (fun x => os_system (command x)) l)%list, Ok tt).
Proof.
  intros Hz. induction l as [|x l IH]; intros h; cbn [for_each map].
  - unfold ret. now rewrite app_nil_r.
  - rewrite bind_run, run_run, Hz. cbn [Z.eqb]. rewrite IH.
    now rewrite <- app_assoc.
Qed.

Lemma create_package_unsupported {P : OsPath} (E : env) filename input_dir h :
  ~ has_suffix filename ".tar.gz" -> ~ has_suffix filename ".zip" ->
  create_package E filename input_dir h
  = ((h ++ [print ("Creating package: " ++ filename)])%list,
     Raise unsupported_format).
Proof.
  intros Ht Hz. apply endswith_false_iff in Ht, Hz.
  unfold create_package. unfold_monad. now rewrite Ht, Hz.
Qed.

(** X8. When a signing tool is configured and signs every binary, a
    package whose name ends neither in [.tar.gz] nor in [.zip] (a
    [.tar.bz2] archive, which the extraction accepts) is lost: the archive
    is removed first, and [create_package] then raises the
    unsupported-format exception without having written anything. *)
Theorem repack_of_unsupported_suffix_removes_archive :
  forall (P : OsPath) (E : env) (OS : os)
         (package_filename package_dir sign_file : string)
         (binaries : list string) h,
    nonempty (environ_get E ("OIDN_SIGN_FILE_" ++ Py.upper (os_str OS)))
    = Some sign_file ->
    (forall h' c, exit_status E h' c = 0%Z) ->
    fails E (h ++ sign_commands sign_file binaries)%list
          (os_remove package_filename) = false ->
    ~ has_suffix package_filename ".tar.gz" ->
    ~ has_suffix package_filename ".zip" ->
    sign_binaries E OS package_filename package_dir binaries h
    = ((h ++ sign_commands sign_file binaries
          ++ [os_remove package_filename;
              print ("Creating package: " ++ package_filename)])%list,
       Raise unsupported_format).
Proof.
  intros P E OS package_filename package_dir sign_file binaries h
         Hs Hz Hr Ht Hzip.
  unfold sign_binaries. rewrite Hs, bind_run.
  rewrite (for_each_run_ok E _ binaries Hz). fold (sign_commands sign_file binaries).
  rewrite bind_run. unfold call at 1. rewrite Hr.
  rewrite (create_package_unsupported E package_filename package_dir _ Ht Hzip).
  now rewrite <- !app_assoc.
Qed.

Lemma repack_of_unsupported_suffix_removes_archive_witness :
  package_format "/src/oidn/build_release/oidn-1.2.0.x86_64.linux.tar.bz2" = Ok tar /\
  sign_binaries (P := posixpath) signing_env linux
    "/src/oidn/build_release/oidn-1.2.0.x86_64.linux.tar.bz2"
    "/src/oidn/build_release/oidn-1.2.0.x86_64.linux"
    ["/src/oidn/build_release/oidn-1.2.0.x86_64.linux/bin/oidnDenoise"] []
  = ([os_system "/opt/sign -q -vv /src/oidn/build_release/oidn-1.2.0.x86_64.linux/bin/oidnDenoise";
      os_remove "/src/oidn/build_release/oidn-1.2.0.x86_64.linux.tar.bz2";
      print "Creating package: /src/oidn/build_release/oidn-1.2.0.x86_64.linux.tar.bz2"],
     Raise unsupported_format).
Proof.
  split; [reflexivity|].
  apply (repack_of_unsupported_suffix_removes_archive posixpath signing_env linux
           "/src/oidn/build_release/oidn-1.2.0.x86_64.linux.tar.bz2"
           "/src/oidn/build_release/oidn-1.2.0.x86_64.linux" "/opt/sign"
           ["/src/oidn/build_release/oidn-1.2.0.x86_64.linux/bin/oidnDenoise"] []).
  - reflexivity.
  - reflexivity.
  - reflexivity.
  - apply endswith_false_iff. reflexivity.
  - apply endswith_false_iff. reflexivity.
Defined.

(** ** Fetching a dependency *)

Lemma download_file_run {P : OsPath} (E : env) url output_dir h :
  download_file E url output_dir h =
  let filename := path_join output_dir (basename url) in
  ((h ++ [print ("Downloading file: " ++ url); urlretrieve url filename])%list,
   if fails E (h ++ [print ("Downloading file: " ++ url)])%list
            (urlretrieve url filename)
   then Raise (CallError (urlretrieve url filename))
   else Ok filename).
Proof.
  unfold download_file. unfold_monad.
  destruct (fails E _ _); now rewrite <- app_assoc.
Qed.

Lemma extract_package_starts_not_remove {P : OsPath} (E : env)
    filename output_dir h :
  exists t,
    trace (extract_package E filename output_dir) h
    = (h ++ print ("Extracting package: " ++ filename) :: t)%list /\
    Forall not_remove t.
Proof.
  unfold trace, extract_package. rewrite bind_run. unfold emit at 1.
  cbv beta iota.
  lazymatch goal with
  | |- exists t, fst (?m ?h0) = _ /\ _ =>
      assert (Hm : emits not_remove m) by emits_tac;
      destruct (Hm h0) as (t & Ht & Qt)
  end.
  exists t. rewrite Ht, <- app_assoc. split; [reflexivity | exact Qt].
Qed.

Lemma fetch_run {P : OsPath} (E : env) (url deps_dir output_dir v : string) h :
  let filename := path_join deps_dir (basename url) in
  let started := (h ++ [print ("Downloading file: " ++ url);
                        urlretrieve url filename])%list in
  let extracted := trace (extract_package E filename output_dir) started in
  (f <- download_file E url deps_dir ;;
   extract_package E f output_dir ;;
   call E (os_remove f) ;;
   ret v) h
  = if fails E (h ++ [print ("Downloading file: " ++ url)])%list
             (urlretrieve url filename)
    then (started, Raise (CallError (urlretrieve url filename)))
    else match outcome (extract_package E filename output_dir) started with
         | Raise e => (extracted, Raise e)
         | Ok _ =>
             ((extracted ++ [os_remove filename])%list,
              if fails E extracted (os_remove filename)
              then Raise (CallError (os_remove filename))
              else Ok v)
         end.
Proof.
  intros filename started extracted. subst extracted. unfold trace, outcome.
  rewrite bind_run, download_file_run. cbv zeta. fold filename. fold started.
  destruct (fails E _ (urlretrieve url filename)); [reflexivity|].
  rewrite bind_run.
  destruct (extract_package E filename output_dir started) as [h2 [[]|e]];
    cbn [fst snd]; [|reflexivity].
  rewrite bind_run. unfold call, ret.
  destruct (fails E h2 (os_remove filename)); reflexivity.
Qed.

(** X9. A dependency whose directory is missing is fetched in this order:
    the download into [deps_dir], then the extraction of the downloaded
    archive to the directory of the dependency, then the removal of the
    archive, after which the path of the dependency is returned.  When the
    download raises, nothing is extracted; when the extraction raises, the
    set-up ends with its exception and the archive is not removed: the
    events of an extraction start with its printed line and remove no
    file. *)
Theorem missing_dependency_fetched_then_archive_removed :
  forall (P : OsPath) (E : env) (OS : os) (deps_dir : string) h,
    (isdir E h (ispc_dir OS deps_dir) = false ->
     let filename := path_join deps_dir (basename (ispc_url OS)) in
     let started := (h ++ [print ("Downloading file: " ++ ispc_url OS);
                           urlretrieve (ispc_url OS) filename])%list in
     let extracted :=
       trace (extract_package E filename (ispc_dir OS deps_dir)) started in
     set_up_ispc E OS deps_dir h
     = if fails E (h ++ [print ("Downloading file: " ++ ispc_url OS)])%list
                (urlretrieve (ispc_url OS) filename)
       then (started, Raise (CallError (urlretrieve (ispc_url OS) filename)))
       else match outcome (extract_package E filename (ispc_dir OS deps_dir))
                          started with
            | Raise e => (extracted, Raise e)
            | Ok _ =>
                ((extracted ++ [os_remove filename])%list,
                 if fails E extracted (os_remove filename)
                 then Raise (CallError (os_remove filename))
                 else Ok (path_join (path_join (ispc_dir OS deps_dir) "bin")
                                    "ispc"))
            end) /\
    (isdir E h (tbb_dir OS deps_dir) = false ->
     let filename := path_join deps_dir (basename (tbb_url OS)) in
     let started := (h ++ [print ("Downloading file: " ++ tbb_url OS);
                           urlretrieve (tbb_url OS) filename])%list in
     let extracted :=
       trace (extract_package E filename (tbb_dir OS deps_dir)) started in
     set_up_tbb E OS deps_dir h
     = if fails E (h ++ [print ("Downloading file: " ++ tbb_url OS)])%list
                (urlretrieve (tbb_url OS) filename)
       then (started, Raise (CallError (urlretrieve (tbb_url OS) filename)))
       else match outcome (extract_package E filename (tbb_dir OS deps_dir))
                          started with
            | Raise e => (extracted, Raise e)
            | Ok _ =>
                ((extracted ++ [os_remove filename])%list,
                 if fails E extracted (os_remove filename)
                 then Raise (CallError (os_remove filename))
                 else Ok (path_join (tbb_dir OS deps_dir) "tbb"))
            end) /\
    (forall filename output_dir started,
        exists t,
          trace (extract_package E filename output_dir) started
          = (started ++ print ("Extracting package: " ++ filename) :: t)%list /\
          Forall not_remove t).
Proof.
  intros P E OS deps_dir h. split; [|split].
  - intros Hd filename started extracted. rewrite set_up_ispc_run, Hd.
    apply (fetch_run E (ispc_url OS) deps_dir (ispc_dir OS deps_dir)).
  - intros Hd filename started extracted. rewrite set_up_tbb_run, Hd.
    apply (fetch_run E (tbb_url OS) deps_dir (tbb_dir OS deps_dir)).
  - intros filename output_dir started.
    apply extract_package_starts_not_remove.
Qed.

Lemma missing_dependency_fetched_then_archive_removed_witness :
  set_up_ispc (P := posixpath) ispc_archive_env linux "/src/oidn/deps" []
  = ([print "Downloading file: https://github.com/ispc/ispc/releases/download/v1.13.0/ispc-v1.13.0-linux.tar.gz";
      urlretrieve "https://github.com/ispc/ispc/releases/download/v1.13.0/ispc-v1.13.0-linux.tar.gz"
                  "/src/oidn/deps/ispc-v1.13.0-linux.tar.gz";
      print "Extracting package: /src/oidn/deps/ispc-v1.13.0-linux.tar.gz";
      tarfile_open "/src/oidn/deps/ispc-v1.13.0-linux.tar.gz" "r";
      os_makedirs "/src/oidn/deps";
      extractall "/src/oidn/deps/ispc-v1.13.0-linux.tar.gz" "/src/oidn/deps";
      package_close "/src/oidn/deps/ispc-v1.13.0-linux.tar.gz";
      os_remove "/src/oidn/deps/ispc-v1.13.0-linux.tar.gz"],
     Ok "/src/oidn/deps/ispc-v1.13.0-linux/bin/ispc").
Proof.
  apply (proj1 (missing_dependency_fetched_then_archive_removed posixpath
                  ispc_archive_env linux "/src/oidn/deps" [])).
  reflexivity.
Defined.

Lemma posix_join_suffix (a b : string) :
  Py.startswith b "/" = false -> has_suffix (Posix.join a b) b.
Proof.
  intros H. unfold Posix.join. rewrite H.
  destruct ((a =? EmptyString) || Py.endswith a "/").
  - now exists a.
  - exists (a ++ "/"). now rewrite append_assoc.
Qed.

Lemma has_suffix_trans (s a b : string) :
  has_suffix s a -> has_suffix a b -> has_suffix s b.
Proof. intros [p ->] [q ->]. exists (p ++ q). now rewrite append_assoc. Qed.

Lemma fetch_never_unsupported (E : env) (url deps_dir output_dir v : string) h :
  spec_tar_suffix (Posix.join deps_dir (Posix.basename url)) ->
  outcome (f <- download_file (P := posixpath) E url deps_dir ;;
           extract_package (P := posixpath) E f output_dir ;;
           call E (os_remove f) ;;
           ret v) h <> Raise unsupported_format.
Proof.
  intros Hs. unfold outcome. rewrite bind_run, download_file_run. cbv zeta.
  destruct (fails E _ (urlretrieve _ _)); [discriminate|].
  rewrite bind_run.
  pose proof (extract_package_spec_suffix_supported (P := posixpath) E
                (path_join deps_dir (basename url)) output_dir
                (h ++ [print ("Downloading file: " ++ url);
                       urlretrieve url (path_join deps_dir (basename url))])%list
                (or_introl Hs)) as Hx.
  unfold outcome in Hx.
  destruct (extract_package E _ output_dir _) as [h2 [[]|e]]; cbn [snd] in *;
    [|intros [= ->]; now apply Hx].
  rewrite bind_run. unfold call, ret.
  destruct (fails E h2 _); discriminate.
Qed.

(** X10. On Linux and macOS (paths of [posixpath]) the archives of both
    dependencies have names [extract_package] accepts, wherever [deps_dir]
    is: [.tar.gz] for ISPC and [.tgz] for TBB are both opened as tar
    archives, so setting up a dependency never raises the
    unsupported-format exception. *)
Theorem dependency_archives_are_supported :
  forall (E : env) (OS : os) (deps_dir : string) h,
    OS <> windows ->
    package_format (Posix.join deps_dir (Posix.basename (ispc_url OS))) = Ok tar /\
    package_format (Posix.join deps_dir (Posix.basename (tbb_url OS))) = Ok tar /\
    outcome (set_up_ispc (P := posixpath) E OS deps_dir) h
    <> Raise unsupported_format /\
    outcome (set_up_tbb (P := posixpath) E OS deps_dir) h
    <> Raise unsupported_format.
Proof.
  intros E OS deps_dir h Hos.
  assert (Hi : spec_tar_suffix (Posix.join deps_dir (Posix.basename (ispc_url OS)))).
  { right; left. exists "gz". split; [discriminate|]. split; [reflexivity|].
    eapply has_suffix_trans; [apply posix_join_suffix|];
      destruct OS; try congruence; try reflexivity;
      apply endswith_iff; reflexivity. }
  assert (Ht : spec_tar_suffix (Posix.join deps_dir (Posix.basename (tbb_url OS)))).
  { right; right.
    eapply has_suffix_trans; [apply posix_join_suffix|];
      destruct OS; try congruence; try reflexivity;
      apply endswith_iff; reflexivity. }
  split; [now apply package_format_tar, spec_tar_suffix_tar_name|].
  split; [now apply package_format_tar, spec_tar_suffix_tar_name|].
  split.
  - unfold outcome. rewrite set_up_ispc_run.
    destruct (isdir E h _); [discriminate|].
    now apply fetch_never_unsupported.
  - unfold outcome. rewrite set_up_tbb_run.
    destruct (isdir E h _); [discriminate|].
    now apply fetch_never_unsupported.
Qed.

Lemma dependency_archives_are_supported_witness :
  package_format (Posix.join "/src/oidn/deps" (Posix.basename (ispc_url macos)))
  = Ok tar /\
  package_format (Posix.join "/src/oidn/deps" (Posix.basename (tbb_url macos)))
  = Ok tar.
Proof.
  destruct (dependency_archives_are_supported (quiet_env (fun _ => [])) macos
              "/src/oidn/deps" []) as (H1 & H2 & _).
  - discriminate.
  - split; assumption.
Defined.

(** ** The compilers of the build stage *)

Section Raises.

Context (E : env) (R : exn -> Prop).

Lemma raises_ret {A} (a : A) : raises_only R (ret a).
Proof. intros h e. discriminate. Qed.

Lemma raises_ask {A} (q : env -> list event -> A) : raises_only R (ask E q).
Proof. intros h e. discriminate. Qed.

Lemma raises_lift_ok {A} (a : A) : raises_only R (lift (Ok a)).
Proof. intros h e. discriminate. Qed.

Lemma raises_call (ev : event) : R (CallError ev) -> raises_only R (call E ev).
Proof.
  intros H h e. unfold call. cbn [snd].
  destruct (fails E h ev); [now intros [= <-] | discriminate].
Qed.

Lemma raises_run (command : string) :
  R non_zero_return -> raises_only R (run E command).
Proof.
  intros H h e. rewrite run_run. cbn [snd].
  destruct (exit_status E h command =? 0)%Z; [discriminate | now intros [= <-]].
Qed.

Lemma raises_bind {A B} (m : M A) (k : A -> M B) :
  raises_only R m -> (forall a, raises_only R (k a)) -> raises_only R (bind m k).
Proof.
  intros Hm Hk h e. rewrite bind_run. specialize (Hm h).
  destruct (m h) as [h1 [a|e1]]; cbn [snd] in *.
  - apply Hk.
  - intros [= <-]. now apply Hm.
Qed.

Lemma raises_lift_bind {A B} (a : A) (k : A -> M B) :
  raises_only R (k a) -> raises_only R (bind (lift (Ok a)) k).
Proof. intros H h e. rewrite bind_run. apply H. Qed.

Lemma raises_when (b : bool) (m : M unit) :
  raises_only R m -> raises_only R (when b m).
Proof. destruct b; simpl; [auto | intros _; apply raises_ret]. Qed.

End Raises.

Lemma compilers_have_a_mapping (OS : os) (c : string) :
  In c (compilers OS) ->
  match OS with
  | windows =>
      exists msvc_version toolchain,
        windows_compiler (Py.split c "-") None EmptyString
        = Ok (Some msvc_version, toolchain)
  | _ => exists cxx, cxx_of c = Ok cxx
  end.
Proof.
  destruct OS; simpl; intros H;
    repeat (destruct H as [<-|H]; [eexists; try eexists; reflexivity|]);
    destruct H.
Qed.

(** X11. Every compiler the command line accepts for a platform has its
    entry in the tables of the build stage (the Visual Studio version and
    the optional Intel toolchain on Windows, the C++ compiler elsewhere):
    with such a compiler the build stage after the dependencies never
    raises [KeyError] nor fails on an unbound [msvc_version]; it can only
    fail because a command exits with a non-zero status or a library call
    fails. *)
Theorem accepted_compiler_never_misses_a_table :
  forall (P : OsPath) (E : env) (OS : os) (cfg : args)
         (ispc_executable tbb_root build_dir : string) h e,
    In (compiler cfg) (compilers OS) ->
    outcome (configure_and_build E OS cfg ispc_executable tbb_root build_dir) h
    = Raise e ->
    tool_failure e.
Proof.
  intros P E OS cfg ispc_executable tbb_root build_dir h e Hin.
  apply compilers_have_a_mapping in Hin.
  assert (Hcall : forall ev, tool_failure (CallError ev))
    by (intros ev; right; now exists ev).
  assert (Hrun : tool_failure non_zero_return) by now left.
  revert h e. change (raises_only tool_failure
    (configure_and_build E OS cfg ispc_executable tbb_root build_dir)).
  unfold configure_and_build, clean_build_dir.
  apply raises_bind.
  { repeat first [ apply raises_bind; [|intros ?] | apply raises_ask
                 | apply raises_when | apply raises_call; apply Hcall ]. }
  intros _. cbv zeta. apply raises_bind; [|intros ?; now apply raises_run].
  destruct OS.
  - destruct Hin as (v & tc & Hw). unfold configure_windows. rewrite Hw.
    apply raises_lift_bind. cbv beta iota. apply raises_lift_bind.
    apply raises_bind; [now apply raises_run | intros ?; apply raises_ret].
  - destruct Hin as (cxx & Hc). unfold configure_unix. cbv zeta. rewrite Hc.
    apply raises_lift_bind.
    destruct (if compiler cfg =? "icc" then _ else _) as [cc' cxx'].
    apply raises_bind; [now apply raises_run | intros ?; apply raises_ret].
  - destruct Hin as (cxx & Hc). unfold configure_unix. cbv zeta. rewrite Hc.
    apply raises_lift_bind.
    destruct (if compiler cfg =? "icc" then _ else _) as [cc' cxx'].
    apply raises_bind; [now apply raises_run | intros ?; apply raises_ret].
Qed.

Lemma accepted_compiler_never_misses_a_table_witness :
  tool_failure non_zero_return.
Proof.
  apply (accepted_compiler_never_misses_a_table posixpath
           (example_env (fun _ => None) (fun _ => false) (fun _ => false)
              (fun _ => false) (fun _ => []) [] (fun _ => 1%Z) (fun _ => []))
           windows
           {| stage := ["build"]; compiler := "msvc16-icc20"; config := "Release";
              wrapper := None; cmake_vars := None |}
           "C:/deps/ispc/bin/ispc" "C:/deps/tbb/tbb" "C:/oidn/build_release" []
           non_zero_return).
  - simpl. tauto.
  - reflexivity.
Defined.

(** ** The order of the build *)

Lemma clean_build_dir_run (E : env) (build_dir : string) h :
  clean_build_dir E build_dir h =
  let h1 := if isdir E h build_dir then (h ++ [shutil_rmtree build_dir])%list
            else h in
  if isdir E h build_dir && fails E h (shutil_rmtree build_dir)
  then (h1, Raise (CallError (shutil_rmtree build_dir)))
  else if fails E h1 (os_mkdir build_dir)
  then ((h1 ++ [os_mkdir build_dir])%list, Raise (CallError (os_mkdir build_dir)))
  else if fails E (h1 ++ [os_mkdir build_dir])%list (os_chdir build_dir)
  then ((h1 ++ [os_mkdir build_dir; os_chdir build_dir])%list,
        Raise (CallError (os_chdir build_dir)))
  else ((h1 ++ [os_mkdir build_dir; os_chdir build_dir])%list, Ok tt).
Proof.
  unfold clean_build_dir. unfold_monad.
  destruct (isdir E h build_dir); cbn [andb];
    repeat (break_if; cbv beta iota zeta; try discriminate);
    rewrite <- ?app_assoc; reflexivity.
Qed.

Lemma configure_run {P : OsPath} (E : env) (OS : os) (cfg : args)
    (ispc_executable vars : string) :
  In (compiler cfg) (compilers OS) ->
  exists command,
    String.prefix "cmake -L " command = true /\
    forall h,
      match OS with
      | windows => configure_windows E cfg ispc_executable vars
      | _ => configure_unix E OS cfg ispc_executable vars
      end h
      = ((h ++ [os_system command])%list,
         if (exit_status E h command =? 0)%Z
         then Ok match OS with
                 | windows => "cmake --build . --config " ++ config cfg
                              ++ " --target ALL_BUILD"
                 | _ => "cmake --build . --target preinstall -- -j VERBOSE=1"
                 end
         else Raise non_zero_return).
Proof.
  intros Hin. apply compilers_have_a_mapping in Hin.
  assert (Hstep : forall (command : string) (v : string) h,
             (run E command ;; ret v) h
             = ((h ++ [os_system command])%list,
                if (exit_status E h command =? 0)%Z then Ok v
                else Raise non_zero_return)).
  { intros command v h. rewrite bind_run, run_run.
    destruct (exit_status E h command =? 0)%Z; reflexivity. }
  destruct OS.
  - destruct Hin as (v & tc & Hw). unfold configure_windows. rewrite Hw.
    eexists. split; [|intros h; rewrite bind_run; unfold lift at 1;
                      cbv beta iota; rewrite bind_run; unfold lift at 1;
                      cbv beta iota; apply Hstep].
    reflexivity.
  - destruct Hin as (cxx & Hc). unfold configure_unix. cbv zeta. rewrite Hc.
    destruct (compiler cfg =? "icc"); [destruct (nonempty _)|];
      (eexists; split;
       [|intros h; rewrite bind_run; unfold lift at 1; cbv beta iota;
         apply Hstep]; reflexivity).
  - destruct Hin as (cxx & Hc). unfold configure_unix. cbv zeta. rewrite Hc.
    destruct (compiler cfg =? "icc"); [destruct (nonempty _)|];
      (eexists; split;
       [|intros h; rewrite bind_run; unfold lift at 1; cbv beta iota;
         apply Hstep]; reflexivity).
Qed.

Ltac build_prefix :=
  do 2 eexists; split; [|split; [|split]];
  [ | cbn [fst]; rewrite <- ?app_assoc; reflexivity | | ];
  [ cbn [app]; reflexivity
  | cbn [snd]; first [discriminate | reflexivity]
  | cbn [snd]; first [intros _; eexists; reflexivity
                     | intros H; now destruct H] ].

(** X12. After the dependencies the build stage always works in a fresh
    directory and in a fixed order: the build directory is removed if it
    exists, created, entered; then the configure command ([cmake -L ...])
    runs, then the build command, which alone carries the wrapper.  The
    first step that fails ends the stage: what has been done is a prefix of
    this list, and the build command runs only after a configure command
    that exited with 0. *)
Theorem build_cleans_then_configures_then_builds :
  forall (P : OsPath) (E : env) (OS : os) (cfg : args)
         (ispc_executable tbb_root build_dir : string) h,
    In (compiler cfg) (compilers OS) ->
    exists configure_command,
      String.prefix "cmake -L " configure_command = true /\
      exists done rest,
        ((if isdir E h build_dir then [shutil_rmtree build_dir] else [])
         ++ [os_mkdir build_dir; os_chdir build_dir;
             os_system configure_command;
             os_system (build_command OS cfg)])%list
        = (done ++ rest)%list /\
        trace (configure_and_build E OS cfg ispc_executable tbb_root build_dir) h
        = (h ++ done)%list /\
        (outcome (configure_and_build E OS cfg ispc_executable tbb_root build_dir) h
         = Ok tt -> rest = []) /\
        (rest <> [] ->
         exists e,
           outcome (configure_and_build E OS cfg ispc_executable tbb_root
                      build_dir) h = Raise e).
Proof.
  intros P E OS cfg ispc_executable tbb_root build_dir h Hin.
  destruct (configure_run E OS cfg ispc_executable
              (common_cmake_vars cfg tbb_root) Hin) as (command & Hp & Hc).
  exists command. split; [exact Hp|].
  unfold trace, outcome, configure_and_build.
  rewrite bind_run, clean_build_dir_run. cbv zeta.
  destruct (isdir E h build_dir); cbn [andb].
  - destruct (fails E h (shutil_rmtree build_dir)); [build_prefix|].
    destruct (fails E _ (os_mkdir build_dir)); [build_prefix|].
    destruct (fails E _ (os_chdir build_dir)); [build_prefix|].
    rewrite bind_run, Hc.
    destruct (exit_status E _ command =? 0)%Z; [|build_prefix].
    rewrite run_run. fold (build_command OS cfg).
    destruct (exit_status E _ (build_command OS cfg) =? 0)%Z; build_prefix.
  - destruct (fails E _ (os_mkdir build_dir)); [build_prefix|].
    destruct (fails E _ (os_chdir build_dir)); [build_prefix|].
    rewrite bind_run, Hc.
    destruct (exit_status E _ command =? 0)%Z; [|build_prefix].
    rewrite run_run. fold (build_command OS cfg).
    destruct (exit_status E _ (build_command OS cfg) =? 0)%Z; build_prefix.
Qed.

Lemma build_cleans_then_configures_then_builds_witness :
  trace (configure_and_build (P := posixpath) provisioned_env linux build_wrapped
           "/src/oidn/deps/ispc-v1.13.0-linux/bin/ispc"
           "/src/oidn/deps/tbb-2020.2-lin/tbb" "/src/oidn/build_debug") []
  = [os_mkdir "/src/oidn/build_debug";
     os_chdir "/src/oidn/build_debug";
     os_system
       ("cmake -L -D CMAKE_C_COMPILER:FILEPATH=" ++ Py.dquote ++ "clang"
        ++ Py.dquote ++ " -D CMAKE_CXX_COMPILER:FILEPATH=" ++ Py.dquote
        ++ "clang++" ++ Py.dquote ++ " -D CMAKE_BUILD_TYPE=Debug"
        ++ " -D ISPC_EXECUTABLE=" ++ Py.dquote
        ++ "/src/oidn/deps/ispc-v1.13.0-linux/bin/ispc" ++ Py.dquote
        ++ " -D TBB_ROOT=" ++ Py.dquote ++ "/src/oidn/deps/tbb-2020.2-lin/tbb"
        ++ Py.dquote ++ " -D OIDN_STATIC_LIB=ON ..");
     os_system "ccache cmake --build . --target preinstall -- -j VERBOSE=1"] /\
  exists configure_command,
    String.prefix "cmake -L " configure_command = true /\
    exists done rest,
      ((if isdir provisioned_env [] "/src/oidn/build_debug"
        then [shutil_rmtree "/src/oidn/build_debug"] else [])
       ++ [os_mkdir "/src/oidn/build_debug"; os_chdir "/src/oidn/build_debug";
           os_system configure_command;
           os_system (build_command linux build_wrapped)])%list
      = (done ++ rest)%list /\
      trace (configure_and_build (P := posixpath) provisioned_env linux
               build_wrapped "/src/oidn/deps/ispc-v1.13.0-linux/bin/ispc"
               "/src/oidn/deps/tbb-2020.2-lin/tbb" "/src/oidn/build_debug") []
      = ([] ++ done)%list /\
      (outcome (configure_and_build (P := posixpath) provisioned_env linux
                  build_wrapped "/src/oidn/deps/ispc-v1.13.0-linux/bin/ispc"
                  "/src/oidn/deps/tbb-2020.2-lin/tbb" "/src/oidn/build_debug") []
       = Ok tt -> rest = []) /\
      (rest <> [] ->
       exists e,
         outcome (configure_and_build (P := posixpath) provisioned_env linux
                    build_wrapped "/src/oidn/deps/ispc-v1.13.0-linux/bin/ispc"
                    "/src/oidn/deps/tbb-2020.2-lin/tbb" "/src/oidn/build_debug") []
         = Raise e).
Proof.
  split; [reflexivity|].
  apply (build_cleans_then_configures_then_builds posixpath provisioned_env linux
           build_wrapped "/src/oidn/deps/ispc-v1.13.0-linux/bin/ispc"
           "/src/oidn/deps/tbb-2020.2-lin/tbb" "/src/oidn/build_debug" []).
  simpl. tauto.
Defined.

(** ** The stages of [main] *)

Lemma selected_by_membership (name : string) (cfg cfg' : args) :
  (forall n, In n (stage cfg) <-> In n (stage cfg')) ->
  selected name cfg = selected name cfg'.
Proof.
  intros H. unfold selected.
  destruct (existsb (String.eqb name) (stage cfg)) eqn:A;
    destruct (existsb (String.eqb name) (stage cfg')) eqn:B; try reflexivity.
  - apply existsb_exists in A. destruct A as (n & Hn & Heq).
    apply H in Hn.
    assert (existsb (String.eqb name) (stage cfg') = true)
      by (apply existsb_exists; now exists n).
    congruence.
  - apply existsb_exists in B. destruct B as (n & Hn & Heq).
    apply H in Hn.
    assert (existsb (String.eqb name) (stage cfg) = true)
      by (apply existsb_exists; now exists n).
    congruence.
Qed.

(** X13. The stages named on the command line are a set.  Once the
    directories are set, [main] runs the build stage if it is selected and,
    when that did not raise, the package stage if it is selected, from the
    events the build stage left: the build stage always comes before the
    package stage, whatever their order on the command line, and a stage
    named twice runs once.  Two command lines that select the same stages
    and agree on the other options run alike. *)
Theorem main_ignores_the_order_of_the_stages :
  forall (P : OsPath) (E : env) (cfg : args) h,
    (forall (OS : os) (deps_dir build_dir : string) h1,
        detect_os (platform_system E) = Ok OS ->
        set_directories E cfg h = (h1, Ok (deps_dir, build_dir)) ->
        main E cfg h
        = if selected "build" cfg then
            match build_stage E OS cfg deps_dir build_dir h1 with
            | (h2, Ok _) =>
                if selected "package" cfg
                then package_stage E OS cfg build_dir h2
                else (h2, Ok tt)
            | (h2, Raise e) => (h2, Raise e)
            end
          else if selected "package" cfg
               then package_stage E OS cfg build_dir h1
               else (h1, Ok tt)) /\
    (forall cfg' : args,
        compiler cfg = compiler cfg' ->
        config cfg = config cfg' ->
        wrapper cfg = wrapper cfg' ->
        cmake_vars cfg = cmake_vars cfg' ->
        (forall name, In name (stage cfg) <-> In name (stage cfg')) ->
        main E cfg h = main E cfg' h).
Proof.
  intros P E cfg h. split.
  - intros OS deps_dir build_dir h1 Hos Hd.
    unfold main. rewrite Hos. rewrite bind_run. unfold lift at 1.
    cbv beta iota. rewrite bind_run, Hd. cbv beta iota.
    rewrite bind_run.
    destruct (selected "build" cfg); cbn [when].
    + destruct (build_stage E OS cfg deps_dir build_dir h1) as [h2 [[]|e]];
        [|reflexivity].
      destruct (selected "package" cfg); reflexivity.
    + unfold ret at 1. destruct (selected "package" cfg); reflexivity.
  - intros cfg' Hc Hk Hw Hv Hs.
    pose proof (selected_by_membership "build" cfg cfg' Hs) as Hb.
    pose proof (selected_by_membership "package" cfg cfg' Hs) as Hp.
    unfold main. rewrite Hb, Hp.
    destruct cfg as [s c k w v], cfg' as [s' c' k' w' v'].
    cbn [compiler config wrapper cmake_vars] in Hc, Hk, Hw, Hv. subst c' k' w' v'.
    reflexivity.
Qed.

Lemma main_ignores_the_order_of_the_stages_witness :
  main (P := posixpath) cmake_fails_env package_then_build []
  = main (P := posixpath) cmake_fails_env build_then_package [] /\
  main (P := posixpath) cmake_fails_env package_then_build []
  = (trace (build_stage (P := posixpath) cmake_fails_env linux package_then_build
              "/src/oidn/deps" "/src/oidn/build_release") [],
     Raise non_zero_return).
Proof.
  split.
  - apply (proj2 (main_ignores_the_order_of_the_stages posixpath cmake_fails_env
                    package_then_build []) build_then_package); try reflexivity.
    intros name. simpl. tauto.
  - apply (proj1 (main_ignores_the_order_of_the_stages posixpath cmake_fails_env
                    package_then_build []) linux "/src/oidn/deps"
                 "/src/oidn/build_release" []); reflexivity.
Defined.

(** X14. When the build stage raises, [main] stops with that exception:
    the package stage, selected or not, does not start, and the events of
    the run are those of setting the directories and of the build stage up
    to its failure. *)
Theorem failed_build_skips_the_package_stage :
  forall (P : OsPath) (E : env) (cfg : args) (OS : os)
         (deps_dir build_dir : string) h h1 e,
    detect_os (platform_system E) = Ok OS ->
    set_directories E cfg h = (h1, Ok (deps_dir, build_dir)) ->
    selected "build" cfg = true ->
    outcome (build_stage E OS cfg deps_dir build_dir) h1 = Raise e ->
    main E cfg h
    = (trace (build_stage E OS cfg deps_dir build_dir) h1, Raise e).
Proof.
  intros P E cfg OS deps_dir build_dir h h1 e Hos Hd Hb He.
  unfold main. rewrite Hos, Hb. rewrite bind_run. unfold lift at 1.
  cbv beta iota. rewrite bind_run, Hd. cbv beta iota.
  rewrite bind_run. cbn [when]. unfold outcome, trace in *.
  destruct (build_stage E OS cfg deps_dir build_dir h1) as [h2 r].
  cbn [fst snd] in *. now subst r.
Qed.

Lemma failed_build_skips_the_package_stage_witness :
  main (P := posixpath) cmake_fails_env build_then_package []
  = ([os_mkdir "/src/oidn/build_release";
      os_chdir "/src/oidn/build_release";
      os_system
        ("cmake -L -D CMAKE_C_COMPILER:FILEPATH=" ++ Py.dquote ++ "clang"
         ++ Py.dquote ++ " -D CMAKE_CXX_COMPILER:FILEPATH=" ++ Py.dquote
         ++ "clang++" ++ Py.dquote ++ " -D CMAKE_BUILD_TYPE=Release"
         ++ " -D ISPC_EXECUTABLE=" ++ Py.dquote
         ++ "/src/oidn/deps/ispc-v1.13.0-linux/bin/ispc" ++ Py.dquote
         ++ " -D TBB_ROOT=" ++ Py.dquote ++ "/src/oidn/deps/tbb-2020.2-lin/tbb"
         ++ Py.dquote ++ " ..")],
     Raise non_zero_return).
Proof.
  apply (failed_build_skips_the_package_stage posixpath cmake_fails_env
           build_then_package linux "/src/oidn/deps" "/src/oidn/build_release"
           [] [] non_zero_return); reflexivity.
Defined.

(** ** Archives with one top-level directory *)

Lemma components_simple (top : string) :
  simple_name top -> Posix.components top = [top].
Proof.
  intros (Hs & Hne & Hdot). unfold Posix.components.
  rewrite (split_without_sep "/" EmptyString top Hs). cbn [filter].
  apply String.eqb_neq in Hne, Hdot. now rewrite Hne, Hdot.
Qed.

Lemma components_under (top r : string) :
  simple_name top ->
  Posix.components (top ++ "/" ++ r) = top :: Posix.components r.
Proof.
  intros (Hs & Hne & Hdot). unfold Posix.components.
  rewrite (split_at_sep "/" EmptyString top r Hs). cbn [filter].
  apply String.eqb_neq in Hne, Hdot. now rewrite Hne, Hdot.
Qed.

Lemma components_of_member (top m : string) :
  simple_name top -> under top m -> exists b, Posix.components m = top :: b.
Proof.
  intros Hs [->|[r ->]].
  - exists []. now apply components_simple.
  - exists (Posix.components r). now apply components_under.
Qed.

Lemma isabs_of_member (top m : string) :
  simple_name top -> under top m -> Posix.isabs m = false.
Proof.
  intros (Hs & Hne & _) Hm. unfold Posix.isabs, Py.startswith.
  destruct top as [|c top]; [congruence|].
  cbn [no_char] in Hs. apply andb_true_iff in Hs. destruct Hs as [Hc _].
  apply negb_true_iff in Hc.
  destruct Hm as [->|[r ->]]; apply (prefix_first_char _ _ _ _ Hc).
Qed.

Lemma fold_common_prefix_top (top : string) (ls : list (list string)) :
  forall a,
    (forall l, In l ls -> exists b, l = top :: b) ->
    a = [] \/ In [top] ls ->
    fold_left Posix.common_prefix ls (top :: a) = [top].
Proof.
  induction ls as [|l ls IH]; intros a Hall Hone; cbn [fold_left].
  - destruct Hone as [->|[]]. reflexivity.
  - destruct (Hall l (or_introl eq_refl)) as [b ->].
    cbn [Posix.common_prefix]. rewrite String.eqb_refl.
    apply IH; [intros l Hl; apply Hall; now right|].
    destruct Hone as [->|[Hl|Hl]].
    + left. reflexivity.
    + injection Hl as ->. left. now destruct a.
    + now right.
Qed.

Lemma commonpath_of_top_directory (top : string) (members : list string) :
  simple_name top ->
  (forall m, In m members -> under top m) ->
  In top members \/ In (top ++ "/") members ->
  Posix.commonpath members = Some top.
Proof.
  intros Hs Hall Hone.
  destruct members as [|p ps]; [destruct Hone as [[]|[]]|].
  unfold Posix.commonpath.
  assert (Habs : forallb (fun q => Bool.eqb (Posix.isabs q) (Posix.isabs p)) ps
                 = true).
  { apply forallb_forall. intros q Hq.
    rewrite (isabs_of_member top q Hs (Hall q (or_intror Hq))).
    rewrite (isabs_of_member top p Hs (Hall p (or_introl eq_refl))).
    reflexivity. }
  rewrite Habs, (isabs_of_member top p Hs (Hall p (or_introl eq_refl))).
  destruct (components_of_member top p Hs (Hall p (or_introl eq_refl))) as [a Ha].
  rewrite Ha.
  assert (Hslash : Posix.components (top ++ "/") = [top]).
  { change (top ++ "/") with (top ++ "/" ++ EmptyString).
    now rewrite components_under. }
  rewrite fold_common_prefix_top; [reflexivity | |].
  - intros l Hl. apply in_map_iff in Hl. destruct Hl as (q & <- & Hq).
    apply (components_of_member top q Hs), Hall. now right.
  - destruct Hone as [[->|Hin]|[->|Hin]].
    + left. rewrite (components_simple top Hs) in Ha. congruence.
    + right. apply in_map_iff. exists top. split; [now apply components_simple|].
      assumption.
    + left. rewrite Hslash in Ha. congruence.
    + right. apply in_map_iff. exists (top ++ "/"). now split.
Qed.

Lemma extract_package_ok_trace {P : OsPath} (E : env) h filename output_dir fmt c :
  let h0 := (h ++ [print ("Extracting package: " ++ filename)])%list in
  let h1 := (h0 ++ [open_event fmt filename])%list in
  let target :=
    if c =? basename output_dir then dirname output_dir else output_dir in
  package_format filename = Ok fmt ->
  fails E h0 (open_event fmt filename) = false ->
  commonpath (archive_members E fmt h1 filename) = Some c ->
  outcome (extract_package E filename output_dir) h = Ok tt ->
  trace (extract_package E filename output_dir) h
  = (h1 ++ (if isdir E h1 target then [] else [os_makedirs target])
        ++ [extractall filename target; package_close filename])%list.
Proof.
  intros h0 h1 target Hfmt Hopen Hc.
  unfold outcome, trace. rewrite extract_package_run. cbv zeta.
  rewrite Hfmt. fold h0. rewrite Hopen. fold h1. rewrite Hc. fold target.
  destruct (isdir E h1 target); cbn [negb andb app].
  - destruct (fails E h1 (extractall filename target)); cbn [fst snd];
      [discriminate | reflexivity].
  - destruct (fails E h1 (os_makedirs target)); cbn [fst snd]; [discriminate|].
    destruct (fails E _ (extractall filename target)); cbn [fst snd];
      [discriminate|]. intros _. now rewrite <- app_assoc.
Qed.

(** X15. With [posixpath]: when every member of the archive is the
    directory [top] or lies under it, the archive lists that directory
    ([top] or [top/]) and [top] is the last component of [output_dir], a
    successful extraction goes to the parent of [output_dir] (created first
    when it is missing), so that the content lands in [output_dir] and not
    in [output_dir/top]. *)
Theorem extract_package_unnests_listed_top_directory :
  forall (E : env) (filename output_dir top : string) (fmt : format) h,
    let h1 := (h ++ [print ("Extracting package: " ++ filename);
                     open_event fmt filename])%list in
    package_format filename = Ok fmt ->
    fails E (h ++ [print ("Extracting package: " ++ filename)])%list
          (open_event fmt filename) = false ->
    simple_name top ->
    (forall m, In m (archive_members E fmt h1 filename) -> under top m) ->
    In top (archive_members E fmt h1 filename) \/
    In (top ++ "/") (archive_members E fmt h1 filename) ->
    Posix.basename output_dir = top ->
    outcome (extract_package (P := posixpath) E filename output_dir) h = Ok tt ->
    trace (extract_package (P := posixpath) E filename output_dir) h
    = (h1 ++ (if isdir E h1 (Posix.dirname output_dir) then []
              else [os_makedirs (Posix.dirname output_dir)])
          ++ [extractall filename (Posix.dirname output_dir);
              package_close filename])%list.
Proof.
  intros E filename output_dir top fmt h h1 Hfmt Hopen Hs Hall Hone Hb Hok.
  assert (Hh : h1 = ((h ++ [print ("Extracting package: " ++ filename)])
                     ++ [open_event fmt filename])%list)
    by (subst h1; now rewrite <- app_assoc).
  rewrite Hh in *.
  pose proof (commonpath_of_top_directory top _ Hs Hall Hone) as Hc.
  rewrite (extract_package_ok_trace (P := posixpath) E h filename output_dir
             fmt top Hfmt Hopen Hc Hok).
  cbn [basename dirname posixpath]. rewrite Hb, String.eqb_refl. reflexivity.
Qed.

Lemma extract_package_unnests_listed_top_directory_witness :
  trace (extract_package (P := posixpath) listed_archive_env
           "/src/oidn/deps/tbb.tgz" "/src/oidn/deps/tbb") []
  = [print "Extracting package: /src/oidn/deps/tbb.tgz";
     tarfile_open "/src/oidn/deps/tbb.tgz" "r";
     os_makedirs "/src/oidn/deps";
     extractall "/src/oidn/deps/tbb.tgz" "/src/oidn/deps";
     package_close "/src/oidn/deps/tbb.tgz"].
Proof.
  apply (extract_package_unnests_listed_top_directory listed_archive_env
           "/src/oidn/deps/tbb.tgz" "/src/oidn/deps/tbb" "tbb" tar []).
  - reflexivity.
  - reflexivity.
  - repeat split; discriminate.
  - intros m [<-|[<-|[<-|[]]]].
    + now left.
    + right. now exists "lib/libtbb.so.2".
    + right. now exists "include/tbb/tbb.h".
  - left. simpl. tauto.
  - reflexivity.
  - reflexivity.
Defined.

Lemma append_longer (a : string) (c : ascii) (r : string) :
  (a ++ String c r =? a) = false.
Proof.
  apply String.eqb_neq. intros H. apply (f_equal String.length) in H.
  rewrite length_append in H. simpl in H. lia.
Qed.

(** X16. With [posixpath]: an archive whose only member is one file
    [top/x] is not recognised as having the top-level directory [top]: its
    common path is the file itself, so a successful extraction with [top]
    as the last component of [output_dir] goes into [output_dir], and the
    file lands in [output_dir/top/x]. *)
Theorem extract_package_nests_single_member :
  forall (E : env) (filename output_dir top x : string) (fmt : format) h,
    let h1 := (h ++ [print ("Extracting package: " ++ filename);
                     open_event fmt filename])%list in
    package_format filename = Ok fmt ->
    fails E (h ++ [print ("Extracting package: " ++ filename)])%list
          (open_event fmt filename) = false ->
    simple_name top ->
    simple_name x ->
    archive_members E fmt h1 filename = [top ++ "/" ++ x] ->
    Posix.basename output_dir = top ->
    outcome (extract_package (P := posixpath) E filename output_dir) h = Ok tt ->
    trace (extract_package (P := posixpath) E filename output_dir) h
    = (h1 ++ (if isdir E h1 output_dir then [] else [os_makedirs output_dir])
          ++ [extractall filename output_dir; package_close filename])%list.
Proof.
  intros E filename output_dir top x fmt h h1 Hfmt Hopen Hs Hx Hm Hb Hok.
  assert (Hh : h1 = ((h ++ [print ("Extracting package: " ++ filename)])
                     ++ [open_event fmt filename])%list)
    by (subst h1; now rewrite <- app_assoc).
  rewrite Hh in *.
  assert (Hc : commonpath (archive_members E fmt
                 ((h ++ [print ("Extracting package: " ++ filename)])
                  ++ [open_event fmt filename]) filename)
               = Some (top ++ "/" ++ x)).
  { rewrite Hm. cbn [commonpath posixpath]. unfold Posix.commonpath.
    cbn [forallb map fold_left].
    rewrite (isabs_of_member top (top ++ "/" ++ x) Hs)
      by (right; now exists x).
    rewrite (components_under top x Hs), (components_simple x Hx).
    reflexivity. }
  rewrite (extract_package_ok_trace (P := posixpath) E h filename output_dir
             fmt (top ++ "/" ++ x) Hfmt Hopen Hc Hok).
  cbn [basename dirname posixpath]. rewrite Hb.
  change (top ++ "/" ++ x) with (top ++ String "/"%char x).
  now rewrite append_longer.
Qed.

Lemma extract_package_nests_single_member_witness :
  trace (extract_package (P := posixpath) single_member_env
           "/src/oidn/deps/tbb.tgz" "/src/oidn/deps/tbb") []
  = [print "Extracting package: /src/oidn/deps/tbb.tgz";
     tarfile_open "/src/oidn/deps/tbb.tgz" "r";
     os_makedirs "/src/oidn/deps/tbb";
     extractall "/src/oidn/deps/tbb.tgz" "/src/oidn/deps/tbb";
     package_close "/src/oidn/deps/tbb.tgz"].
Proof.
  apply (extract_package_nests_single_member single_member_env
           "/src/oidn/deps/tbb.tgz" "/src/oidn/deps/tbb" "tbb" "README" tar []).
  - reflexivity.
  - reflexivity.
  - repeat split; discriminate.
  - repeat split; discriminate.
  - reflexivity.
  - reflexivity.
  - reflexivity.
Defined.

(** ** Closing the archive *)

(** X17. [extract_package] closes the archive it opened only at the end of
    a successful extraction: when anything raises after the archive was
    opened (no common path, the directory cannot be created, the extraction
    fails), the archive object is never closed. *)
Theorem extract_package_closes_only_on_success :
  forall (P : OsPath) (E : env) (filename output_dir : string) h,
    (outcome (extract_package E filename output_dir) h = Ok tt ->
     exists t,
       trace (extract_package E filename output_dir) h
       = (h ++ t ++ [package_close filename])%list /\
       Forall not_close t) /\
    (forall e,
        outcome (extract_package E filename output_dir) h = Raise e ->
        exists t,
          trace (extract_package E filename output_dir) h = (h ++ t)%list /\
          Forall not_close t).
Proof.
  intros P E filename output_dir h.
  unfold outcome, trace. rewrite extract_package_run. cbv zeta.
  destruct (package_format filename) as [fmt|e0]; cbn [fst snd].
  - assert (Ho : not_close (open_event fmt filename)) by now destruct fmt.
    set (p := print ("Extracting package: " ++ filename)).
    set (o := open_event fmt filename) in *.
    destruct (fails E _ o); cbn [fst snd].
    + split; [discriminate|]. intros e _. exists [p; o].
      split; [now rewrite <- app_assoc|]. repeat constructor. exact Ho.
    + destruct (commonpath _) as [c|]; cbn [fst snd].
      * set (d := if c =? basename output_dir then dirname output_dir
                  else output_dir).
        destruct (isdir E _ d); cbn [negb andb].
        -- destruct (fails E _ (extractall filename d)); cbn [fst snd].
           ++ split; [discriminate|]. intros e _.
              exists [p; o; extractall filename d].
              split; [now rewrite <- !app_assoc|]. repeat constructor. exact Ho.
           ++ split; [|discriminate]. intros _.
              exists [p; o; extractall filename d].
              split; [now rewrite <- !app_assoc|]. repeat constructor. exact Ho.
        -- destruct (fails E _ (os_makedirs d)); cbn [fst snd].
           ++ split; [discriminate|]. intros e _.
              exists [p; o; os_makedirs d].
              split; [now rewrite <- !app_assoc|]. repeat constructor. exact Ho.
           ++ destruct (fails E _ (extractall filename d)); cbn [fst snd].
              ** split; [discriminate|]. intros e _.
                 exists [p; o; os_makedirs d; extractall filename d].
                 split; [now rewrite <- !app_assoc|]. repeat constructor. exact Ho.
              ** split; [|discriminate]. intros _.
                 exists [p; o; os_makedirs d; extractall filename d].
                 split; [now rewrite <- !app_assoc|]. repeat constructor. exact Ho.
      * split; [discriminate|]. intros e _. exists [p; o].
        split; [now rewrite <- app_assoc|]. repeat constructor. exact Ho.
  - split; [discriminate|]. intros e _.
    exists [print ("Extracting package: " ++ filename)].
    split; [reflexivity|]. repeat constructor.
Qed.

(** X18. With [posixpath]: extracting an archive that has no member raises
    [ValueError] (from [os.path.commonpath]) once the archive is open;
    nothing is created or extracted. *)
Theorem extract_package_of_empty_archive_raises :
  forall (E : env) (filename output_dir : string) (fmt : format) h,
    package_format filename = Ok fmt ->
    fails E (h ++ [print ("Extracting package: " ++ filename)])%list
          (open_event fmt filename) = false ->
    archive_members E fmt
      ((h ++ [print ("Extracting package: " ++ filename)])
       ++ [open_event fmt filename])%list filename = [] ->
    extract_package (P := posixpath) E filename output_dir h
    = ((h ++ [print ("Extracting package: " ++ filename);
              open_event fmt filename])%list,
       Raise ValueError).
Proof.
  intros E filename output_dir fmt h Hfmt Hopen Hm.
  rewrite extract_package_run. cbv zeta. rewrite Hfmt, Hopen, Hm.
  cbn [commonpath posixpath Posix.commonpath]. now rewrite <- app_assoc.
Qed.

Lemma extract_package_of_empty_archive_raises_witness :
  extract_package (P := posixpath) (quiet_env (fun _ => []))
    "/src/oidn/deps/empty.zip" "/src/oidn/deps/empty" []
  = ([print "Extracting package: /src/oidn/deps/empty.zip";
      ZipFile_open "/src/oidn/deps/empty.zip"],
     Raise ValueError).
Proof.
  apply (extract_package_of_empty_archive_raises (quiet_env (fun _ => []))
           "/src/oidn/deps/empty.zip" "/src/oidn/deps/empty" zip []);
    reflexivity.
Defined.

(** * The directory the package stage removes *)







(** The condition on [.tar] above is needed: below a directory whose name
    holds [.tar], the substitution of line 207 cuts the name of the archive
    at that place.  The stage completes, the package has been extracted
    into the build directory, and the directory removed at the end is
    another one. *)
Example package_stage_removes_another_directory :
  package_stage (P := posixpath) dotted_path_env linux package_only
    "/src/rel.tar.d/build_release" []
  = ([os_chdir "/src/rel.tar.d/build_release";
      os_system "cmake -L -D OIDN_ZIP_MODE=ON ..";
      os_system "cmake --build . --target package -- -j VERBOSE=1";
      print "Extracting package: /src/rel.tar.d/build_release/oidn-1.2.0.tar.gz";
      tarfile_open "/src/rel.tar.d/build_release/oidn-1.2.0.tar.gz" "r";
      extractall "/src/rel.tar.d/build_release/oidn-1.2.0.tar.gz"
                 "/src/rel.tar.d/build_release";
      package_close "/src/rel.tar.d/build_release/oidn-1.2.0.tar.gz";
      shutil_rmtree "/src/rel"],
     Ok tt).
Proof. reflexivity. Qed.
